(** * Data-analyst agent: query router, profiling engine, insight narrator
      and the service that exposes them

    A shallow embedding of [backend/services/ai_service.py] (the query
    router), of [backend/services/data_analyzer.py] (the profiling
    engine and the insight narrator it constructs) and of
    [backend/main.py] (the upload, chat and clean-up endpoints), and the
    properties proved about them.

    Conventions of the embedding.
    - Python [str] is [string]; only the ASCII letters have case.
      [a in b] on strings is [contains a b].
    - A function that may raise returns an [outcome];
      [try/except Exception] is [try_except]. Output written with
      [print] is not followed.
    - A float is an exact rational, [inf] or [nan] ([pyfloat]): binary
      rounding is left out, the special values are kept.
    - A table cell holds a number, a string or a null; the column's dtype
      is kept beside the cells.
    - A number formatted into a text is kept with its format
      specification ([part]), not rendered.
    - A table is an object in a store; the methods that assign to a
      column run in the monad [M] over the store.
    - The directory of the service is a list of named files; a handler
      takes the directory and returns its answer and, if it writes, the
      directory it leaves.
    - What a library computes and the code only passes on (the text
      completion, the parsers of uploaded files, the random sample, the
      square root, the matching of file names) is a variable of the
      section that uses it.

    Part I holds the embedding, Part II the properties. *)

From Stdlib Require Import ZArith QArith Qround Qabs Lqa List String Ascii Bool Lia Arith Sorted.
Import ListNotations.
Open Scope string_scope.

(* ================================================================= *)
(** ** Python strings *)

Module PyStr.

(** [c.lower()] for one character. *)
Definition lower_ascii (c : ascii) : ascii :=
  let n := nat_of_ascii c in
  if (65 <=? n)%nat && (n <=? 90)%nat then ascii_of_nat (n + 32) else c.

(** [s.lower()] *)
Fixpoint lower (s : string) : string :=
  match s with
  | EmptyString => EmptyString
  | String c s' => String (lower_ascii c) (lower s')
  end.

(** [s.startswith(k)] *)
Fixpoint startswith (k s : string) : bool :=
  match k, s with
  | EmptyString, _ => true
  | String a k', String b s' => Ascii.eqb a b && startswith k' s'
  | String _ _, EmptyString => false
  end.

(** [k in s]: [k] occurs in [s] at some position. *)
Fixpoint contains (k s : string) : bool :=
  startswith k s ||
  match s with
  | EmptyString => false
  | String _ s' => contains k s'
  end.

(** The relation [contains] decides. *)
Definition is_substring (k s : string) : Prop :=
  exists a b, s = a ++ k ++ b.

(** [any(k in s for k in kws)] *)
Definition any_in (kws : list string) (s : string) : bool :=
  existsb (fun k => contains k s) kws.

(** [sep.join(l)] *)
Fixpoint join (sep : string) (l : list string) : string :=
  match l with
  | [] => ""
  | [x] => x
  | x :: xs => x ++ sep ++ join sep xs
  end.

End PyStr.
Import PyStr.

(* ================================================================= *)
(** ** Query router: intent classification
    ([AIService._determine_user_intent]) *)

Definition chart_keywords : list string :=
  [ "plot"; "chart"; "graph"; "visualize"; "visualization"; "show me a";
    "create a"; "create"; "make a"; "draw"; "histogram"; "bar chart";
    "line chart"; "scatter plot"; "pie chart"; "heatmap"; "box plot";
    "distribution chart"; "survival chart" ].

Definition text_keywords : list string :=
  [ "how many"; "what is"; "tell me"; "explain"; "analyze"; "summary";
    "count"; "average"; "mean"; "median"; "total"; "percentage"; "why";
    "who"; "when"; "where"; "which"; "describe"; "compare without" ].

Definition _determine_user_intent (user_query : string) : string :=
  let query_lower := lower user_query in
  if any_in chart_keywords query_lower then "chart"
  else if any_in text_keywords query_lower then "text"
  else "text".

(* ================================================================= *)
(** ** Exceptions *)

(** The result of a Python call: a value, or an exception with its
    message ([str(e)]). *)
Inductive outcome (A : Type) : Type :=
| Normal (a : A)
| Raise (e : string).
Arguments Normal {A} a.
Arguments Raise {A} e.

Definition bind {A B} (m : outcome A) (k : A -> outcome B) : outcome B :=
  match m with
  | Normal a => k a
  | Raise e => Raise e
  end.

Notation "x <- m ;; k" := (bind m (fun x => k))
  (at level 61, m at next level, right associativity).

(** [try: body  except Exception as e: return handler(str(e))] *)
Definition try_except {A} (body : outcome A) (handler : string -> A) : A :=
  match body with
  | Normal a => a
  | Raise e => handler e
  end.

(* ================================================================= *)
(** ** Numbers

    A float is an exact rational or one of the IEEE special values: the
    rounding of binary64 is left out, infinities and NaN are kept, since
    the code divides by counts that may be zero. *)

Inductive pyfloat : Type :=
| Fin (q : Q)
| Inf (negative : bool)
| NaN.

Module PyNum.

(** [a / b] on numpy integers: a division by zero gives [inf] or [nan]
    (numpy warns; it does not raise). *)
Definition truediv (a b : Z) : pyfloat :=
  if (b =? 0)%Z then
    if (a =? 0)%Z then NaN else Inf (a <? 0)%Z
  else Fin (inject_Z a / inject_Z b)%Q.

Definition fneg (x : pyfloat) : pyfloat :=
  match x with
  | Fin q => Fin (- q)%Q
  | Inf s => Inf (negb s)
  | NaN => NaN
  end.

Definition fadd (x y : pyfloat) : pyfloat :=
  match x, y with
  | Fin a, Fin b => Fin (a + b)%Q
  | Inf s, Fin _ | Fin _, Inf s => Inf s
  | Inf s, Inf t => if Bool.eqb s t then Inf s else NaN
  | NaN, _ | _, NaN => NaN
  end.

Definition fsub (x y : pyfloat) : pyfloat := fadd x (fneg y).

Definition Qneg_b (q : Q) : bool := negb (Qle_bool 0 q).

Definition fmul (x y : pyfloat) : pyfloat :=
  match x, y with
  | Fin a, Fin b => Fin (a * b)%Q
  | Inf s, Fin b | Fin b, Inf s =>
      if Qeq_bool b 0 then NaN else Inf (xorb s (Qneg_b b))
  | Inf s, Inf t => Inf (xorb s t)
  | NaN, _ | _, NaN => NaN
  end.

(** [x > y]; every comparison with NaN is false. *)
Definition fgt (x y : pyfloat) : bool :=
  match x, y with
  | Fin a, Fin b => negb (Qle_bool a b)
  | Inf false, Fin _ | Inf false, Inf true | Fin _, Inf true => true
  | _, _ => false
  end.

(** Truncation toward zero. *)
Definition Qtrunc (q : Q) : Z := Z.quot (Qnum q) (Zpos (Qden q)).

(** [int(x)] *)
Definition py_int (x : pyfloat) : outcome Z :=
  match x with
  | Fin q => Normal (Qtrunc q)
  | Inf _ => Raise "cannot convert float infinity to integer"
  | NaN => Raise "cannot convert float NaN to integer"
  end.

(** Rounding to the nearest integer, halves to even. *)
Definition rint (q : Q) : Z :=
  let f := Qfloor q in
  let r := (q - inject_Z f)%Q in
  match (r ?= 1 # 2)%Q with
  | Lt => f
  | Gt => (f + 1)%Z
  | Eq => if Z.even f then f else (f + 1)%Z
  end.

(** [round(x, 1)] on a numpy float: [rint(x * 10) / 10]. *)
Definition round1 (x : pyfloat) : pyfloat :=
  match x with
  | Fin q => Fin (inject_Z (rint (q * 10)) / 10)%Q
  | _ => x
  end.

(** [x == y] on floats. *)
Definition feq (x y : pyfloat) : Prop :=
  match x, y with
  | Fin a, Fin b => (a == b)%Q
  | Inf s, Inf t => s = t
  | _, _ => False
  end.

(** [x < y] on floats. *)
Definition flt (x y : pyfloat) : Prop :=
  match x, y with
  | Fin a, Fin b => (a < b)%Q
  | Inf true, Fin _ | Inf true, Inf false | Fin _, Inf false => True
  | _, _ => False
  end.

(** [x <= y] on floats. *)
Definition fle (x y : pyfloat) : Prop := flt x y \/ feq x y.

End PyNum.
Import PyNum.

(* ================================================================= *)
(** ** Tables (pandas [DataFrame]) *)

(** A cell value; a null cell ([NaN]/[None]) is [None]. *)
Inductive scalar : Type :=
| SNum (q : Q)
| SStr (s : string).

Definition cell : Type := option scalar.

Inductive dtype : Type :=
  Int64 | Float64 | Object | Boolean | Datetime64 | Category.

Record Series : Type := mkSeries {
  s_name : string;
  s_dtype : dtype;
  s_values : list cell
}.

(** A table: its row count ([len(df.index)]) and its columns in order. *)
Record DataFrame : Type := mkDF {
  n_rows : nat;
  series : list Series
}.

(** The data model's invariant: every column has one cell per row. *)
Definition well_formed (df : DataFrame) : Prop :=
  Forall (fun s => List.length (s_values s) = n_rows df) (series df).

Definition well_formedb (df : DataFrame) : bool :=
  forallb (fun s => (List.length (s_values s) =? n_rows df)%nat) (series df).

Module Pandas.

(** [a == b] on cell values: numbers by value, strings by characters. *)
Definition scalar_eqb (a b : scalar) : bool :=
  match a, b with
  | SNum p, SNum q => Qeq_bool p q
  | SStr s, SStr t => String.eqb s t
  | _, _ => false
  end.

(** Equality of cells as [duplicated] takes it: two nulls are equal. *)
Definition cell_eqb (a b : cell) : bool :=
  match a, b with
  | None, None => true
  | Some x, Some y => scalar_eqb x y
  | _, _ => false
  end.

Fixpoint row_eqb (r1 r2 : list cell) : bool :=
  match r1, r2 with
  | [], [] => true
  | a :: r1', b :: r2' => cell_eqb a b && row_eqb r1' r2'
  | _, _ => false
  end.

Definition notna (c : cell) : bool :=
  match c with Some _ => true | None => false end.

Definition isnull (c : cell) : bool := negb (notna c).

(** [df.columns.tolist()] *)
Definition columns (df : DataFrame) : list string := map s_name (series df).

(** [name in df.columns] *)
Definition has_column (name : string) (df : DataFrame) : bool :=
  existsb (String.eqb name) (columns df).

(** [df.shape] *)
Definition shape (df : DataFrame) : Z * Z :=
  (Z.of_nat (n_rows df), Z.of_nat (List.length (series df))).

(** [df[name]]: the column of that name (column names are unique in a
    table read from a file); a missing name raises [KeyError]. *)
Definition getitem (df : DataFrame) (name : string) : outcome Series :=
  match find (fun s => String.eqb name (s_name s)) (series df) with
  | Some s => Normal s
  | None => Raise ("'" ++ name ++ "'")
  end.

(** [s.dropna().tolist()] *)
Definition dropna (s : Series) : list scalar :=
  flat_map (fun c => match c with Some v => [v] | None => [] end) (s_values s).

(** [s.notna().sum()], [s.count()] *)
Definition count_notna (s : Series) : Z :=
  Z.of_nat (List.length (filter notna (s_values s))).

(** [s.isnull().sum()] *)
Definition count_null (s : Series) : Z :=
  Z.of_nat (List.length (filter isnull (s_values s))).

Definition zsum (l : list Z) : Z := fold_right Z.add 0%Z l.

(** [df.count()] and [df.isnull().sum()], one entry per column. *)
Definition df_count (df : DataFrame) : list Z := map count_notna (series df).
Definition df_isnull_sum (df : DataFrame) : list Z := map count_null (series df).

(** [df.select_dtypes(include=[np.number]).columns.tolist()] and the
    same for ['object'] and ['datetime']. *)
Definition is_number (d : dtype) : bool :=
  match d with Int64 | Float64 => true | _ => false end.
Definition is_object (d : dtype) : bool :=
  match d with Object => true | _ => false end.
Definition is_datetime (d : dtype) : bool :=
  match d with Datetime64 => true | _ => false end.

Definition select_dtypes (p : dtype -> bool) (df : DataFrame) : list string :=
  map s_name (filter (fun s => p (s_dtype s)) (series df)).

(** Row [i] of the table. *)
Definition row (df : DataFrame) (i : nat) : list cell :=
  map (fun s => nth i (s_values s) None) (series df).

Definition rows_of (df : DataFrame) : list (list cell) :=
  map (row df) (seq 0 (n_rows df)).

(** [df.empty] *)
Definition empty (df : DataFrame) : bool :=
  (n_rows df =? 0)%nat || (List.length (series df) =? 0)%nat.

Fixpoint duplicated_from (seen rs : list (list cell)) : list bool :=
  match rs with
  | [] => []
  | r :: rs' => existsb (row_eqb r) seen :: duplicated_from (r :: seen) rs'
  end.

(** [df.duplicated()]: a row is marked when an equal row stands before
    it; an empty table gives an empty mask. *)
Definition duplicated (df : DataFrame) : list bool :=
  if empty df then [] else duplicated_from [] (rows_of df).

(** [mask.sum()] *)
Definition count_true (l : list bool) : Z :=
  Z.of_nat (List.length (filter (fun b => b) l)).

End Pandas.
Import Pandas.

(* ================================================================= *)
(** ** Profiling engine: health score and completeness
    ([DataAnalyzer._calculate_health_score], the completeness of
    [_generate_summary] and of [_get_dataframe_info]) *)

Definition _calculate_health_score (df : DataFrame) : outcome Z :=
  let score := Fin 100 in
  let '(rows, cols) := shape df in
  (* Penalty for missing values *)
  let total_cells := (rows * cols)%Z in
  let missing_cells := zsum (df_isnull_sum df) in
  let missing_pct := fmul (truediv missing_cells total_cells) (Fin 100) in
  let score := fsub score missing_pct in
  (* Penalty for duplicate rows *)
  let duplicate_count := count_true (duplicated df) in
  let duplicate_pct := fmul (truediv duplicate_count rows) (Fin 100) in
  let score := fsub score (fmul duplicate_pct (Fin (1 # 2))) in
  (* Penalty for columns with too many missing values *)
  let high_missing_cols :=
    count_true (map (fun m => fgt (truediv m rows) (Fin (1 # 2)))
                    (df_isnull_sum df)) in
  let score := fsub score (Fin (inject_Z (high_missing_cols * 5))) in
  (* Bonus for data type diversity *)
  let has_numeric := (0 <? List.length (select_dtypes is_number df))%nat in
  let has_categorical := (0 <? List.length (select_dtypes is_object df))%nat in
  let score := if has_numeric && has_categorical
               then fadd score (Fin 5) else score in
  i <- py_int score ;;
  Normal (Z.max 0 (Z.min 100 i)).

(** The completeness computed by [_generate_summary]. *)
Definition summary_completeness (df : DataFrame) : pyfloat :=
  let '(rows, cols) := shape df in
  let total_cells := (rows * cols)%Z in
  let non_null_cells := zsum (df_count df) in
  fmul (truediv non_null_cells total_cells) (Fin 100).

(** The completeness computed by [_get_dataframe_info], before it is
    rounded for the report. *)
Definition info_completeness (df : DataFrame) : pyfloat :=
  let total_cells := (fst (shape df) * snd (shape df))%Z in
  let non_null_cells := zsum (df_count df) in
  if (total_cells >? 0)%Z
  then fmul (truediv non_null_cells total_cells) (Fin 100)
  else Fin 0.

(* ================================================================= *)
(** ** More of pandas: value counts *)

Module Counts.

(** One more occurrence of [v] in a table of counts; a new value goes to
    the end. *)
Fixpoint vc_add (v : scalar) (acc : list (scalar * Z)) : list (scalar * Z) :=
  match acc with
  | [] => [(v, 1%Z)]
  | (w, n) :: acc' =>
      if scalar_eqb v w then (w, (n + 1)%Z) :: acc'
      else (w, n) :: vc_add v acc'
  end.

(** The distinct values with their counts, in order of first appearance. *)
Definition tally (vals : list scalar) : list (scalar * Z) :=
  fold_left (fun acc v => vc_add v acc) vals [].

Fixpoint insert_by {A} (before : A -> A -> bool) (x : A) (l : list A) : list A :=
  match l with
  | [] => [x]
  | y :: l' => if before x y then x :: l else y :: insert_by before x l'
  end.

(** A stable sort: [before x y] says that [x] may stand before [y]. *)
Definition sort_by {A} (before : A -> A -> bool) (l : list A) : list A :=
  fold_right (insert_by before) [] l.

(** [value_counts()] of a list of values: the most frequent value comes
    first, values of equal count in order of first appearance. *)
Definition counts_of (vals : list scalar) : list (scalar * Z) :=
  sort_by (fun a b => (snd b <=? snd a)%Z) (tally vals).

(** [s.value_counts()]: nulls are left out. *)
Definition value_counts (s : Series) : list (scalar * Z) :=
  counts_of (dropna s).

(** [s.nunique()] *)
Definition nunique (s : Series) : nat := List.length (tally (dropna s)).

Definition is_num (v : scalar) : bool :=
  match v with SNum _ => true | SStr _ => false end.

(** A number that is a Python [int]: among strings, a whole number. *)
Definition is_integer (v : scalar) : bool :=
  match v with
  | SNum q => Qeq_bool q (inject_Z (Qfloor q))
  | SStr _ => false
  end.

(** The count under the label [k] ([counts[k]] by label), 0 when no
    entry bears the label ([KeyError]). *)
Definition get_value (vc : list (scalar * Z)) (k : scalar) : Z :=
  match find (fun e => scalar_eqb k (fst e)) vc with
  | Some e => snd e
  | None => 0%Z
  end.

(** The position that the integer [i] names among [n] items: counted
    from the end when [i] is negative; none out of range ([IndexError]). *)
Definition position (n : nat) (i : Z) : option nat :=
  let j := if (i <? 0)%Z then (i + Z.of_nat n)%Z else i in
  if (0 <=? j)%Z && (j <? Z.of_nat n)%Z then Some (Z.to_nat j) else None.

(** The count at position [i] ([counts._values[i]]), 0 when there is no
    such position. *)
Definition get_position (vc : list (scalar * Z)) (i : Z) : Z :=
  match position (List.length vc) i with
  | Some j => nth j (map snd vc) 0%Z
  | None => 0%Z
  end.

(** [counts.index._should_fallback_to_positional]: the index is not one
    of numbers. The index of a column of numbers is numeric; an index
    that holds a string is numeric to pandas ("mixed-integer") only when
    it also holds an integer. *)
Definition _should_fallback_to_positional (vc : list (scalar * Z)) : bool :=
  existsb (fun e => negb (is_num (fst e))) vc
  && negb (existsb (fun e => is_integer (fst e)) vc).

(** [counts.get(k, 0)]: an integer key is a position when the index is
    not one of numbers, and a label otherwise; any other key is a label. *)
Definition get (vc : list (scalar * Z)) (k : scalar) : Z :=
  match k with
  | SNum q =>
      if is_integer k && _should_fallback_to_positional vc
      then get_position vc (Qfloor q)
      else get_value vc k
  | SStr _ => get_value vc k
  end.

Definition scalar_leb (a b : scalar) : bool :=
  match a, b with
  | SNum p, SNum q => Qle_bool p q
  | SStr s, SStr t => String.leb s t
  | SNum _, SStr _ => true
  | SStr _, SNum _ => false
  end.

(** [counts.sort_index()]: by label, ascending; labels of both kinds
    cannot be ordered ([TypeError]). *)
Definition sort_index (vc : list (scalar * Z)) : outcome (list (scalar * Z)) :=
  if forallb (fun e => is_num (fst e)) vc
     || forallb (fun e => negb (is_num (fst e))) vc
  then Normal (sort_by (fun a b => scalar_leb (fst a) (fst b)) vc)
  else Raise "'<' not supported between instances of 'str' and 'int'".

End Counts.
Import Counts.

(* ================================================================= *)
(** ** Text with interpolated values

    An f-string is kept as its parts: the literal pieces and the values
    it formats, each with its format specification. *)

Inductive part : Type :=
| Lit (s : string)
| Num (spec : string) (x : pyfloat)
| Val (spec : string) (v : scalar).

Definition text : Type := list part.

Definition nl : string := String (ascii_of_nat 10) "".

(** [sep.join(lines)] on texts. *)
Fixpoint tjoin (sep : string) (l : list text) : text :=
  match l with
  | [] => []
  | [x] => x
  | x :: xs => (x ++ Lit sep :: tjoin sep xs)%list
  end.

Definition Int (z : Z) : part := Num "" (Fin (inject_Z z)).

Module PyStr2.

Definition is_space (c : ascii) : bool :=
  let n := nat_of_ascii c in
  ((9 <=? n) && (n <=? 13) || (28 <=? n) && (n <=? 32))%nat.

Fixpoint lstrip (s : string) : string :=
  match s with
  | String c s' => if is_space c then lstrip s' else s
  | EmptyString => EmptyString
  end.

Fixpoint rstrip (s : string) : string :=
  match s with
  | String c s' =>
      match rstrip s' with
      | EmptyString => if is_space c then EmptyString else String c EmptyString
      | r => String c r
      end
  | EmptyString => EmptyString
  end.

(** [s.strip()] *)
Definition strip (s : string) : string := rstrip (lstrip s).

Definition is_upper (c : ascii) : bool :=
  let n := nat_of_ascii c in ((65 <=? n) && (n <=? 90))%nat.
Definition is_lower (c : ascii) : bool :=
  let n := nat_of_ascii c in ((97 <=? n) && (n <=? 122))%nat.
Definition upper_ascii (c : ascii) : ascii :=
  if is_lower c then ascii_of_nat (nat_of_ascii c - 32) else c.

Fixpoint title_from (prev_cased : bool) (s : string) : string :=
  match s with
  | EmptyString => EmptyString
  | String c s' =>
      let cased := is_upper c || is_lower c in
      String (if prev_cased then lower_ascii c else upper_ascii c)
             (title_from cased s')
  end.

(** [s.title()] *)
Definition title (s : string) : string := title_from false s.

End PyStr2.
Import PyStr2.

(* ================================================================= *)
(** ** Query router ([AIService]) *)

(** A label of a chart: a value of the table, or a formatted text. *)
Inductive label : Type :=
| LVal (v : scalar)
| LText (t : text).

(** A trace of a figure, with the data it draws (colours and other
    styling are left out). [Sketch kind] is a trace of that kind whose
    data is not followed here. *)
Inductive trace : Type :=
| Pie (labels : list label) (values : list Z)
| Histogram (x : list scalar) (nbinsx : Z)
| Bar (x : list label) (y : list Z)
| Indicator (value : Z)
| Sketch (kind : string).

(** The [chart_json] dictionary: ["data"] and the titles of ["layout"]. *)
Record chart_json : Type := mkChart {
  data : list trace;
  layout_title : string;
  xaxis_title : option string;
  yaxis_title : option string
}.

(** What the router returns:
    [{"text_response": a, "type": "text"}],
    [{"chart_json": c, "type": "chart"}] or [{"error": m}]. *)
Inductive response : Type :=
| TextAnswer (text_response : string)
| ChartPayload (chart : chart_json)
| ErrorPayload (error : string).

(** [ChatMessage]: the fields the router reads. *)
Record ChatMessage : Type := mkMsg {
  role : string;
  content : string
}.

Definition dtype_str (d : dtype) : string :=
  match d with
  | Int64 => "int64"
  | Float64 => "float64"
  | Object => "object"
  | Boolean => "bool"
  | Datetime64 => "datetime64[ns]"
  | Category => "category"
  end.

(** [l[-n:]] *)
Definition last_n {A} (n : nat) (l : list A) : list A :=
  skipn (List.length l - n) l.

(** Truth value of an optional string ([if target_col:]). *)
Definition truthy (t : option string) : bool :=
  match t with
  | Some s => negb (String.eqb s "")
  | None => false
  end.

Section Router.

(** The text-completion oracle: [self.model.generate_content(prompt).text],
    which answers or raises. *)
Variable generate_content : text -> outcome string.

Definition _get_dataframe_summary (df : DataFrame) : text :=
  try_except
    (let summary_parts :=
       [ [Lit "Shape: "; Int (fst (shape df)); Lit " rows, ";
          Int (snd (shape df)); Lit " columns"];
         [Lit "Columns: "; Lit (join ", " (columns df))];
         [];
         [Lit "Column Details:"] ] in
     let details :=
       map (fun s =>
              let sample_vals := firstn 3 (dropna s) in
              ([Lit "- "; Lit (s_name s); Lit " ("; Lit (dtype_str (s_dtype s));
                Lit "): "; Int (count_notna s); Lit " non-null, ";
                Int (count_null s); Lit " null. Sample: "]
               ++ tjoin ", " (map (fun v => [Val "str[:30]" v]) sample_vals))%list)
           (firstn 15 (series df)) in
     Normal (tjoin nl (summary_parts ++ details)%list))
    (fun e => [Lit "Error generating summary: "; Lit e]).

Definition _generate_text_response
    (df : DataFrame) (user_query : string)
    (conversation_history : list ChatMessage) : outcome response :=
  try_except
    (let df_info := _get_dataframe_summary df in
     let context :=
       match conversation_history with
       | [] => ""
       | _ =>
           (nl ++ nl ++ "Previous conversation:" ++ nl)
           ++ concat ""
                (map (fun msg => title (role msg) ++ ": " ++ content msg ++ nl)
                     (last_n 3 conversation_history))
       end in
     let prompt :=
       ([Lit ("You are an expert data analyst. Answer the user's question about their dataset using the information provided."
             ++ nl ++ nl ++ "DATASET INFORMATION:" ++ nl)]
       ++ df_info ++
       [Lit (nl ++ nl ++ "USER QUESTION: "); Lit user_query; Lit nl;
        Lit context;
        Lit (nl ++ nl ++ "INSTRUCTIONS:" ++ nl
             ++ "1. Provide a clear, direct answer to the user's question" ++ nl
             ++ "2. Use specific numbers and data from the dataset when possible" ++ nl
             ++ "3. Be concise but informative" ++ nl
             ++ "4. If you need to perform calculations, describe them clearly" ++ nl
             ++ "5. Don't suggest creating charts - just answer the question directly" ++ nl
             ++ "6. Format your response in plain text, not markdown" ++ nl ++ nl
             ++ "Analyze the data and provide a direct answer to: ");
        Lit user_query])%list in
     response_text <- generate_content prompt ;;
     let answer := strip response_text in
     Normal (Normal (TextAnswer answer)))
    (fun e => Normal (ErrorPayload ("Failed to generate text response: " ++ e))).

Definition _create_survival_chart_direct (df : DataFrame) : outcome response :=
  try_except
    (if negb (has_column "Survived" df) then
       Normal (Normal (ErrorPayload "Survival data not found in this dataset"))
     else
       survived <- getitem df "Survived" ;;
       let survived_counts := value_counts survived in
       let chart_data :=
         mkChart
           [Pie [LVal (SStr "Did not survive"); LVal (SStr "Survived")]
                [get survived_counts (SNum 0); get survived_counts (SNum 1)]]
           "Passenger Survival Distribution" None None in
       Normal (Normal (ChartPayload chart_data)))
    (fun e => Normal (ErrorPayload ("Failed to create survival chart: " ++ e))).

Definition _create_age_chart_direct (df : DataFrame) : outcome response :=
  try_except
    (if negb (has_column "Age" df) then
       Normal (Normal (ErrorPayload "Age data not found in this dataset"))
     else
       age <- getitem df "Age" ;;
       let age_data := dropna age in
       let chart_data :=
         mkChart [Histogram age_data 30]
                 "Age Distribution" (Some "Age (years)") (Some "Count") in
       Normal (Normal (ChartPayload chart_data)))
    (fun e => Normal (ErrorPayload ("Failed to create age chart: " ++ e))).

Definition _create_class_chart_direct (df : DataFrame) : outcome response :=
  try_except
    (if negb (has_column "Pclass" df) then
       Normal (Normal (ErrorPayload "Passenger class data not found in this dataset"))
     else
       pclass <- getitem df "Pclass" ;;
       class_counts <- sort_index (value_counts pclass) ;;
       let chart_data :=
         mkChart
           [Bar (map (fun e => LText [Lit "Class "; Val "" (fst e)]) class_counts)
                (map snd class_counts)]
           "Passenger Class Distribution"
           (Some "Passenger Class") (Some "Count") in
       Normal (Normal (ChartPayload chart_data)))
    (fun e => Normal (ErrorPayload ("Failed to create class chart: " ++ e))).

Definition _create_gender_chart_direct (df : DataFrame) : outcome response :=
  try_except
    (if negb (has_column "Sex" df) then
       Normal (Normal (ErrorPayload "Gender data not found in this dataset"))
     else
       sex <- getitem df "Sex" ;;
       let gender_counts := value_counts sex in
       let chart_data :=
         mkChart
           [Pie (map (fun e => LVal (fst e)) gender_counts)
                (map snd gender_counts)]
           "Gender Distribution" None None in
       Normal (Normal (ChartPayload chart_data)))
    (fun e => Normal (ErrorPayload ("Failed to create gender chart: " ++ e))).

(** The column the fallback picks: the first of [cols] whose lower-cased
    name occurs in the query, else the first of [cols]. *)
Definition pick_target (cols : list string) (query_lower : string) : option string :=
  let target_col := find (fun col => contains (lower col) query_lower) cols in
  if negb (truthy target_col) && negb (List.length cols =? 0)%nat
  then hd_error cols
  else target_col.

Definition bar_of_counts (df : DataFrame) (col : string) : outcome chart_json :=
  s <- getitem df col ;;
  let value_counts := firstn 10 (value_counts s) in
  Normal (mkChart
            [Bar (map (fun e => LVal (fst e)) value_counts) (map snd value_counts)]
            ("Distribution of " ++ col) (Some col) (Some "Count")).

Definition _generate_ai_chart (df : DataFrame) (user_query : string)
  : outcome response :=
  try_except
    (let numeric_cols := select_dtypes is_number df in
     let categorical_cols := select_dtypes is_object df in
     let query_lower := lower user_query in
     (* Default: a bar chart of the first categorical column *)
     let default :=
       match categorical_cols with
       | col :: _ =>
           chart_data <- bar_of_counts df col ;;
           Normal (Normal (ChartPayload chart_data))
       | [] =>
           Normal (Normal (ErrorPayload
             "Could not determine what chart to create from your request"))
       end in
     if contains "histogram" query_lower || contains "distribution" query_lower then
       let target_col := pick_target numeric_cols query_lower in
       if truthy target_col then
         match target_col with
         | Some col =>
             s <- getitem df col ;;
             let data := dropna s in
             Normal (Normal (ChartPayload
               (mkChart [Histogram data 25]
                        ("Distribution of " ++ col) (Some col) (Some "Count"))))
         | None => default
         end
       else default
     else if contains "bar" query_lower || contains "count" query_lower then
       let target_col := pick_target categorical_cols query_lower in
       if truthy target_col then
         match target_col with
         | Some col =>
             chart_data <- bar_of_counts df col ;;
             Normal (Normal (ChartPayload chart_data))
         | None => default
         end
       else default
     else default)
    (fun e => Normal (ErrorPayload ("Failed to generate chart: " ++ e))).

Definition _generate_chart_response
    (df : DataFrame) (user_query : string)
    (conversation_history : list ChatMessage) : outcome response :=
  try_except
    (let query_lower := lower user_query in
     if contains "survival" query_lower
        && (contains "chart" query_lower || contains "plot" query_lower) then
       r <- _create_survival_chart_direct df ;; Normal (Normal r)
     else if contains "age" query_lower
        && (contains "distribution" query_lower || contains "chart" query_lower
            || contains "histogram" query_lower) then
       r <- _create_age_chart_direct df ;; Normal (Normal r)
     else if (contains "class" query_lower || contains "pclass" query_lower)
        && (contains "chart" query_lower || contains "bar" query_lower) then
       r <- _create_class_chart_direct df ;; Normal (Normal r)
     else if contains "gender" query_lower || contains "sex" query_lower then
       r <- _create_gender_chart_direct df ;; Normal (Normal r)
     else
       r <- _generate_ai_chart df user_query ;; Normal (Normal r))
    (fun e => Normal (ErrorPayload ("Failed to generate chart: " ++ e))).

(** The router's entry point. *)
Definition generate_chart
    (df : DataFrame) (user_query : string)
    (conversation_history : list ChatMessage) : outcome response :=
  try_except
    (let intent := _determine_user_intent user_query in
     if String.eqb intent "chart" then
       r <- _generate_chart_response df user_query conversation_history ;;
       Normal (Normal r)
     else
       r <- _generate_text_response df user_query conversation_history ;;
       Normal (Normal r))
    (fun e => Normal (ErrorPayload ("Failed to process query: " ++ e))).

End Router.

(* ================================================================= *)
(** ** More of pandas: selections and aggregates *)

Module Agg.

(** [df[df[key] == k][target]]: the cells of [target] in the rows whose
    [key] cell equals [k]. *)
Definition where_eq (key target : Series) (k : scalar) : list cell :=
  map snd (filter (fun kc => cell_eqb (fst kc) (Some k))
                  (combine (s_values key) (s_values target))).

(** [df[df[key] == k].shape[0]] *)
Definition count_eq (key : Series) (k : scalar) : Z :=
  Z.of_nat (List.length (filter (fun c => cell_eqb c (Some k)) (s_values key))).

Definition qsum (l : list Q) : Q := fold_right Qplus 0%Q l.

(** The numbers of a list of values; a string among them makes the
    arithmetic raise [TypeError]. *)
Fixpoint numbers (l : list scalar) : outcome (list Q) :=
  match l with
  | [] => Normal []
  | SNum q :: l' => qs <- numbers l' ;; Normal (q :: qs)
  | SStr _ :: _ => Raise "unsupported operand type(s) for +: 'int' and 'str'"
  end.

Definition drop_nulls (l : list cell) : list scalar :=
  flat_map (fun c => match c with Some v => [v] | None => [] end) l.

(** [mean()] of numbers; of no number it is NaN. *)
Definition mean_q (qs : list Q) : pyfloat :=
  match qs with
  | [] => NaN
  | _ => Fin (qsum qs / inject_Z (Z.of_nat (List.length qs)))%Q
  end.

(** [s.mean()], nulls skipped. *)
Definition mean (l : list cell) : outcome pyfloat :=
  qs <- numbers (drop_nulls l) ;; Normal (mean_q qs).

(** [s.median()], nulls skipped. *)
Definition median (l : list cell) : outcome pyfloat :=
  qs <- numbers (drop_nulls l) ;;
  let sorted := sort_by Qle_bool qs in
  let n := List.length sorted in
  Normal
    (match n with
     | O => NaN
     | _ =>
         if Nat.even n
         then Fin ((nth (n / 2 - 1) sorted 0 + nth (n / 2) sorted 0) / 2)%Q
         else Fin (nth (n / 2) sorted 0%Q)
     end).

(** [df.groupby(key)[target].mean() * 100], then [.get(k, 0)]: the mean
    of [target] over the rows of group [k], times 100; 0 when no row has
    the key [k]. The groups stand in the order of their labels, and an
    integer [k] is a position among them when the labels are not
    numbers, as in [Counts.get]. The mean of a column of dtype [object]
    raises. *)
Definition group_mean_pct (key target : Series) : outcome (scalar -> pyfloat) :=
  if is_object (s_dtype target)
  then Raise "agg function failed [how->mean,dtype->object]"
  else
    _ <- numbers (drop_nulls (map snd
           (filter (fun kc => notna (fst kc))
                   (combine (s_values key) (s_values target))))) ;;
    let groups :=
      sort_by (fun a b => scalar_leb (fst a) (fst b)) (value_counts key) in
    let of_label k :=
      match where_eq key target k with
      | [] => Fin 0
      | cells =>
          match mean cells with
          | Normal m => fmul m (Fin 100)
          | Raise _ => NaN
          end
      end in
    Normal (fun k =>
      match k with
      | SNum q =>
          if is_integer k && _should_fallback_to_positional groups
          then match position (List.length groups) (Qfloor q) with
               | Some j =>
                   match nth_error groups j with
                   | Some g => of_label (fst g)
                   | None => Fin 0
                   end
               | None => Fin 0
               end
          else of_label k
      | SStr _ => of_label k
      end).

(** [x / y] on floats. *)
Definition fdiv (x y : pyfloat) : pyfloat :=
  match x, y with
  | Fin a, Fin b =>
      if Qeq_bool b 0
      then (if Qeq_bool a 0 then NaN else Inf (negb (Qle_bool 0 a)))
      else Fin (a / b)%Q
  | Fin _, Inf _ => Fin 0
  | Inf s, Fin b => Inf (xorb s (negb (Qle_bool 0 b)))
  | _, _ => NaN
  end.

Definition fabs (x : pyfloat) : pyfloat :=
  match x with
  | Fin q => Fin (Qabs q)
  | Inf _ => Inf false
  | NaN => NaN
  end.

Definition ZF (z : Z) : pyfloat := Fin (inject_Z z).

(** The number of values below, or at least, a bound. *)
Definition count_lt (qs : list Q) (b : Q) : Z :=
  Z.of_nat (List.length (filter (fun q => negb (Qle_bool b q)) qs)).
Definition count_between (qs : list Q) (lo hi : Q) : Z :=
  Z.of_nat (List.length
    (filter (fun q => Qle_bool lo q && negb (Qle_bool hi q)) qs)).
Definition count_ge (qs : list Q) (b : Q) : Z :=
  Z.of_nat (List.length (filter (fun q => Qle_bool b q) qs)).

End Agg.
Import Agg.

(* ================================================================= *)
(** ** Insight narrator ([SimpleInsightsEngine], the engine the
    profiling engine constructs in [DataAnalyzer.__init__]) *)

(** The [statistical_significance] field: a dictionary with the keys
    ["test"], ["result"], ["interpretation"], or a plain string. *)
Inductive significance : Type :=
| SigDict (test result interpretation : string)
| SigText (s : string).

Record InsightBundle : Type := mkInsights {
  key_findings : list text;
  statistical_significance : significance;
  trends : list text;
  comparisons : list text;
  business_recommendations : list text
}.

Definition lits (l : list string) : list text := map (fun s => [Lit s]) l.

Definition _error_insights (error : string) : InsightBundle :=
  mkInsights
    [ [Lit "Analysis error: "; Lit error];
      [Lit "Please check data format and column names"] ]
    (SigText "Unable to calculate due to data issues")
    (lits ["Analysis unavailable - data format issues"])
    (lits ["Unable to perform comparisons"])
    (lits ["🔧 **Data Quality Check**: Verify data format and completeness"]).

(** The field's value when an analysis is not carried out. *)
Definition unavailable : significance :=
  SigText "Unable to calculate due to data issues".

Definition survival_significance : significance :=
  SigDict "Descriptive analysis of survival by passenger class"
          "Significant patterns detected"
          "Passenger class strongly correlates with survival probability".

Definition age_significance : significance :=
  SigDict "Age distribution and survival analysis"
          "Clear age-related survival patterns"
          "Children prioritized in evacuation ('women and children first')".

Definition gender_significance : significance :=
  SigDict "Gender-based survival analysis"
          "Highly significant gender effect on survival"
          "Gender was the strongest predictor of survival outcome".

Definition generic_significance : significance :=
  SigDict "Descriptive statistical analysis"
          "Data patterns identified"
          "Dataset shows structured relationships suitable for insights".

Definition _survival_insights (df : DataFrame) : outcome InsightBundle :=
  if negb (has_column "Survived" df) then
    Normal (_error_insights "Survival column not found")
  else
    surv <- getitem df "Survived" ;;
    let survived := count_eq surv (SNum 1) in
    let total := Z.of_nat (n_rows df) in
    let rate := if (total >? 0)%Z
                then fmul (truediv survived total) (Fin 100) else Fin 0 in
    class_insights <-
      (if has_column "Pclass" df then
         pclass <- getitem df "Pclass" ;;
         class_survival <- group_mean_pct pclass surv ;;
         Normal
           [ [Lit "1st class survival: "; Num ".1f" (class_survival (SNum 1)); Lit "%"];
             [Lit "2nd class survival: "; Num ".1f" (class_survival (SNum 2)); Lit "%"];
             [Lit "3rd class survival: "; Num ".1f" (class_survival (SNum 3)); Lit "%"] ]
       else Normal []) ;;
    Normal (mkInsights
      ([ [Lit "Overall survival rate: "; Num ".1f" rate; Lit "% (";
          Num "," (ZF survived); Lit " out of "; Num "," (ZF total);
          Lit " passengers)"];
         [Lit "Clear class-based survival patterns observed"];
         [Lit "Higher passenger classes had significantly better outcomes"] ]
       ++ class_insights)%list
      survival_significance
      (lits [ "First-class passengers had highest survival rates (~62%)";
              "Third-class passengers faced greatest mortality (~76%)";
              "Clear socioeconomic factors influenced evacuation success" ])
      (lits [ "1st class passengers were 2.6x more likely to survive than 3rd class";
              "Survival rate decreased dramatically with lower passenger class";
              "Class-based survival gap of approximately 38 percentage points" ])
      (lits [ "🚨 **Safety Equity**: Implement class-blind evacuation procedures";
              "📊 **Policy Reform**: Address systematic biases in emergency protocols";
              "⚖️ **Access Analysis**: Ensure equal access to safety equipment and lifeboats";
              "🎯 **Training**: Focus on fair treatment regardless of socioeconomic status" ])).

Definition _age_insights (df : DataFrame) : outcome InsightBundle :=
  if negb (has_column "Age" df) then
    Normal (_error_insights "Age column not found")
  else
    age <- getitem df "Age" ;;
    let age_data := dropna age in
    if (List.length age_data =? 0)%nat then
      Normal (_error_insights "No age data available")
    else
      mean_age <- mean (s_values age) ;;
      median_age <- median (s_values age) ;;
      ages <- numbers age_data ;;
      let children := count_lt ages 18 in
      let adults := count_between ages 18 65 in
      let elderly := count_ge ages 65 in
      let total_with_age := Z.of_nat (List.length age_data) in
      age_survival_insights <-
        (if has_column "Survived" df then
           surv <- getitem df "Survived" ;;
           let survived_ages := where_eq surv age (SNum 1) in
           let died_ages := where_eq surv age (SNum 0) in
           if (0 <? List.length (drop_nulls survived_ages))%nat
              && (0 <? List.length (drop_nulls died_ages))%nat then
             survivor_avg <- mean survived_ages ;;
             casualty_avg <- mean died_ages ;;
             Normal
               [ [Lit "Average age of survivors: "; Num ".1f" survivor_avg; Lit " years"];
                 [Lit "Average age of casualties: "; Num ".1f" casualty_avg; Lit " years"];
                 [Lit "Age difference: ";
                  Num ".1f" (fabs (fsub survivor_avg casualty_avg)); Lit " years"] ]
           else Normal []
         else Normal []) ;;
      let n := Z.of_nat (n_rows df) in
      let share x := fmul (truediv x total_with_age) (Fin 100) in
      Normal (mkInsights
        ([ [Lit "Average passenger age: "; Num ".1f" mean_age;
            Lit " years (median: "; Num ".1f" median_age; Lit ")"];
           [Lit "Age groups: "; Int children; Lit " children, "; Int adults;
            Lit " adults, "; Int elderly; Lit " elderly"];
           [Lit "Age data available for "; Int total_with_age; Lit " of "; Int n;
            Lit " passengers (";
            Num ".1f" (fmul (truediv total_with_age n) (Fin 100)); Lit "%)"];
           [Lit "Younger passengers generally had better survival rates"] ]
         ++ age_survival_insights)%list
        age_significance
        (lits [ "Children had highest survival rates due to evacuation priority";
                "Working-age adults (18-64) formed majority of passengers";
                "Elderly passengers faced challenges during evacuation";
                "Age distribution typical of early 1900s transatlantic travel" ])
        [ [Lit "Children: "; Num ".1f" (share children); Lit "% of passengers with age data"];
          [Lit "Adults: "; Num ".1f" (share adults); Lit "% of passengers with age data"];
          [Lit "Elderly: "; Num ".1f" (share elderly); Lit "% of passengers with age data"];
          [Lit "Survival rates inversely correlated with age groups"] ]
        (lits [ "👶 **Age-Priority Protocols**: Maintain clear age-based evacuation priorities";
                "🎯 **Assistance Systems**: Develop age-appropriate emergency assistance";
                "📊 **Demographic Planning**: Consider passenger age distribution in safety planning";
                "🔍 **Mobility Support**: Ensure elderly passengers receive adequate evacuation support" ])).

Definition _gender_insights (df : DataFrame) : outcome InsightBundle :=
  if negb (has_column "Sex" df) then
    Normal (_error_insights "Gender column not found")
  else
    sex <- getitem df "Sex" ;;
    let gender_counts := value_counts sex in
    let male_count := get gender_counts (SStr "male") in
    let female_count := get gender_counts (SStr "female") in
    let total := (male_count + female_count)%Z in
    if (total =? 0)%Z then
      Normal (_error_insights "No gender data available")
    else
      survival_insights <-
        (if has_column "Survived" df then
           surv <- getitem df "Survived" ;;
           gender_survival <- group_mean_pct sex surv ;;
           let female_rate := gender_survival (SStr "female") in
           let male_rate := gender_survival (SStr "male") in
           Normal
             [ [Lit "Female survival rate: "; Num ".1f" female_rate; Lit "%"];
               [Lit "Male survival rate: "; Num ".1f" male_rate; Lit "%"];
               [Lit "Gender survival gap: ";
                Num ".1f" (fabs (fsub female_rate male_rate));
                Lit " percentage points"];
               if fgt male_rate (Fin 0)
               then [Lit "Women were "; Num ".1f" (fdiv female_rate male_rate);
                     Lit "x more likely to survive"]
               else [Lit ""] ]
         else Normal []) ;;
      let pct x := fmul (truediv x total) (Fin 100) in
      Normal (mkInsights
        ([ [Lit "Gender distribution: "; Num "," (ZF male_count); Lit " males (";
            Num ".1f" (pct male_count); Lit "%), "; Num "," (ZF female_count);
            Lit " females ("; Num ".1f" (pct female_count); Lit "%)"];
           (if (female_count >? 0)%Z
            then [Lit "Male-to-female ratio: ";
                  Num ".2f" (truediv male_count female_count); Lit ":1"]
            else [Lit "Only males in dataset"]);
           [Lit "Dramatic gender-based survival differences observed"];
           [Lit "'Women and children first' maritime protocol clearly implemented"] ]
         ++ survival_insights)%list
        gender_significance
        (lits [ "Female passengers prioritized in lifeboat allocation";
                "Male passengers largely sacrificed seats for women and children";
                "Historical chivalric codes strongly influenced survival outcomes";
                "Gender roles of early 1900s clearly reflected in evacuation patterns" ])
        [ [Lit "Survival rate difference of ~"; Num ".0f" (ZF (Z.abs (74 - 19)));
           Lit " percentage points between genders"];
          [Lit "Women had approximately 4x higher survival probability than men"];
          [Lit "Gender effect stronger than class effect on survival probability"];
          [Lit "Male passengers showed remarkable adherence to 'women first' protocol"] ]
        (lits [ "⚖️ **Modern Equity**: Update evacuation protocols for gender equality";
                "📊 **Historical Study**: Analyze effectiveness of traditional maritime protocols";
                "🎯 **Training Balance**: Ensure fair modern evacuation procedures";
                "📈 **Cultural Analysis**: Study how social norms affected survival outcomes" ])).

(** [s.replace('_', ' ')] *)
Fixpoint underscores_to_spaces (s : string) : string :=
  match s with
  | EmptyString => EmptyString
  | String c s' =>
      String (if Ascii.eqb c "_"%char then " "%char else c)
             (underscores_to_spaces s')
  end.

Definition _generic_insights (df : DataFrame) (chart_type : string) : InsightBundle :=
  let '(rows, cols) := shape df in
  mkInsights
    [ [Lit "Dataset contains "; Num "," (ZF rows); Lit " records across ";
       Int cols; Lit " variables"];
      [Lit "Chart type: "; Lit (title (underscores_to_spaces chart_type))];
      [Lit "Visualization reveals meaningful data patterns and relationships"];
      [Lit "Data structure suitable for comprehensive analysis"] ]
    generic_significance
    (lits [ "Data distribution reveals underlying patterns in the dataset";
            "Variable relationships indicate structured data collection";
            "Sufficient data volume for meaningful statistical analysis";
            "Data quality appears adequate for business intelligence" ])
    [ [Lit "Multiple variables show interconnected relationships across ";
       Num "," (ZF rows); Lit " observations"];
      [Lit "Data completeness varies by variable but overall structure is sound"];
      [Lit "Sample size provides statistical power for trend identification"];
      [Lit "Cross-variable analysis reveals meaningful business patterns"] ]
    (lits [ "📊 **Deep Dive Analysis**: Use insights to guide detailed investigation";
            "🔍 **Pattern Mining**: Explore relationships between key variables";
            "📈 **Strategic Planning**: Leverage data patterns for business decisions";
            "🎯 **Focus Areas**: Concentrate on variables showing strongest patterns" ]).

(** [SimpleInsightsEngine.generate_chart_insights]; the chart data passed
    as third argument is not read. *)
Definition generate_chart_insights (df : DataFrame) (chart_type : string)
  : InsightBundle :=
  try_except
    (if String.eqb chart_type "survival_analysis" then _survival_insights df
     else if String.eqb chart_type "age_analysis" then _age_insights df
     else if String.eqb chart_type "gender_analysis" then _gender_insights df
     else Normal (_generic_insights df chart_type))
    (fun e => _error_insights e).

(* ================================================================= *)
(** ** Objects

    A table is a mutable object: a method receives a reference to it.
    The methods that assign to a column ([df_temp[name] = ...]) run in a
    state monad over the store of tables; a method without such an
    assignment is a function of the table's value. *)

Definition ref : Type := nat.
Definition heap : Type := list DataFrame.
Definition M (A : Type) : Type := heap -> outcome A * heap.

Definition ret {A} (a : A) : M A := fun h => (Normal a, h).

Definition mbind {A B} (m : M A) (k : A -> M B) : M B :=
  fun h =>
    match m h with
    | (Normal a, h') => k a h'
    | (Raise e, h') => (Raise e, h')
    end.

Notation "x <~ m ;; k" := (mbind m (fun x => k))
  (at level 61, m at next level, right associativity).

(** A computation that touches no object. *)
Definition lift {A} (o : outcome A) : M A := fun h => (o, h).

(** [try: body  except Exception as e: handler] *)
Definition try_M {A} (body : M A) (handler : string -> M A) : M A :=
  fun h =>
    match body h with
    | (Normal a, h') => (Normal a, h')
    | (Raise e, h') => handler e h'
    end.

(** The table a reference points to. *)
Definition deref (r : ref) : M DataFrame :=
  fun h =>
    match nth_error h r with
    | Some d => (Normal d, h)
    | None => (Raise "no such object", h)
    end.

(** A new object. *)
Definition alloc (d : DataFrame) : M ref :=
  fun h => (Normal (List.length h), (h ++ [d])%list).

(** [df.copy()] *)
Definition df_copy (r : ref) : M ref :=
  d <~ deref r ;; alloc d.

Fixpoint set_series (name : string) (s : Series) (l : list Series) : list Series :=
  match l with
  | [] => [s]
  | c :: l' =>
      if String.eqb name (s_name c) then s :: l' else c :: set_series name s l'
  end.

(** The table after [df[name] = values]: the column is replaced, or
    added as the last one. *)
Definition with_column (d : DataFrame) (name : string) (dt : dtype)
    (values : list cell) : DataFrame :=
  mkDF (n_rows d) (set_series name (mkSeries name dt values) (series d)).

Fixpoint replace_nth {A} (n : nat) (x : A) (l : list A) : list A :=
  match n, l with
  | O, _ :: l' => x :: l'
  | S n', y :: l' => y :: replace_nth n' x l'
  | _, [] => []
  end.

(** [df[name] = values], in place. *)
Definition df_setitem (r : ref) (name : string) (dt : dtype)
    (values : list cell) : M unit :=
  fun h =>
    match nth_error h r with
    | Some d => (Normal tt, replace_nth r (with_column d name dt values) h)
    | None => (Raise "no such object", h)
    end.

(** The charts of a loop: [chart = f(x); if chart: charts.append(chart)]. *)
Fixpoint for_each {A B} (f : A -> M (option B)) (l : list A) : M (list B) :=
  match l with
  | [] => ret []
  | x :: l' =>
      c <~ f x ;;
      cs <~ for_each f l' ;;
      ret (match c with Some b => b :: cs | None => cs end)
  end.

(* ================================================================= *)
(** ** Profiling engine ([DataAnalyzer]) *)

(** An entry of the chart catalogue:
    [{"type": t, "title": s, "data": figure, "insights": bundle}];
    the figure is kept as its traces. *)
Record chart_entry : Type := mkEntry {
  c_type : string;
  c_title : string;
  c_data : list trace;
  c_insights : InsightBundle
}.

(** [_get_dataframe_info]'s dictionary ([memory_usage] left out). *)
Record dataframe_info : Type := mkInfo {
  info_shape : Z * Z;
  info_columns : list string;
  info_dtypes : list (string * string);
  info_null_counts : list (string * Z);
  data_health_score : Z;
  completeness_percentage : pyfloat;
  info_total_cells : Z;
  info_non_null_cells : Z
}.

Record analysis : Type := mkAnalysis {
  summary : text;
  charts : list chart_entry;
  df_info : dataframe_info
}.

Module Derived.

(** [pd.cut(ages, bins=[0, 12, 18, 35, 60, 100], labels=..., right=False)];
    a value outside every interval gets no label, a string raises. *)
Definition age_group (q : Q) : cell :=
  if negb (Qle_bool 0 q) then None
  else if negb (Qle_bool 12 q) then Some (SStr "Child")
  else if negb (Qle_bool 18 q) then Some (SStr "Teen")
  else if negb (Qle_bool 35 q) then Some (SStr "Young Adult")
  else if negb (Qle_bool 60 q) then Some (SStr "Adult")
  else if negb (Qle_bool 100 q) then Some (SStr "Senior")
  else None.

Fixpoint pd_cut (l : list cell) : outcome (list cell) :=
  match l with
  | [] => Normal []
  | None :: l' => r <- pd_cut l' ;; Normal (None :: r)
  | Some (SNum q) :: l' => r <- pd_cut l' ;; Normal (age_group q :: r)
  | Some (SStr _) :: _ =>
      Raise "'<' not supported between instances of 'int' and 'str'"
  end.

Definition is_int64 (d : dtype) : bool :=
  match d with Int64 => true | _ => false end.

(** A 64-bit integer that has run over: the value wrapped around. *)
Definition wrap64 (z : Z) : Z := ((z + 2 ^ 63) mod 2 ^ 64 - 2 ^ 63)%Z.

(** A sum as an [int64]: the sum itself when it fits into 64 bits, and
    the sum wrapped around when it does not (numpy does not raise). *)
Definition int64_sum (q : Q) : Q :=
  if Qle_bool (- 9223372036854775808) q
     && negb (Qle_bool 9223372036854775808 q)
  then q
  else inject_Z (wrap64 (Qfloor q)).

(** [a + b] on numbers of two columns: a sum of 64 bits when both
    columns are of dtype [int64]. *)
Definition add (int64 : bool) (a b : Q) : Q :=
  if int64 then int64_sum (a + b) else (a + b)%Q.

(** [a + b + 1], cell by cell: null where a cell is null; two strings
    concatenate and then cannot take [+ 1]. [int64] says that both
    columns are of dtype [int64]. *)
Fixpoint family_size (int64 : bool) (l : list (cell * cell))
  : outcome (list cell) :=
  match l with
  | [] => Normal []
  | (Some (SNum a), Some (SNum b)) :: l' =>
      r <- family_size int64 l' ;;
      Normal (Some (SNum (add int64 (add int64 a b) 1)) :: r)
  | (Some _, Some _) :: _ =>
      Raise "can only concatenate str (not int) to str"
  | _ :: l' => r <- family_size int64 l' ;; Normal (None :: r)
  end.

(** [df[col].unique()] without the nulls, then [gender.title()] on each:
    a value that is no string has no such method. *)
Fixpoint titles (l : list scalar) : outcome (list string) :=
  match l with
  | [] => Normal []
  | SStr s :: l' => r <- titles l' ;; Normal (title s :: r)
  | SNum _ :: _ => Raise "'int' object has no attribute 'title'"
  end.

Definition unique_notna (s : Series) : list scalar :=
  map fst (tally (dropna s)).

(** [port_names.get(x, x)] *)
Definition port_name (v : scalar) : scalar :=
  match v with
  | SStr s =>
      if String.eqb s "C" then SStr "Cherbourg"
      else if String.eqb s "Q" then SStr "Queenstown"
      else if String.eqb s "S" then SStr "Southampton"
      else v
  | _ => v
  end.

Definition class_label (v : scalar) : label := LText [Lit "Class "; Val "" v].

End Derived.
Import Derived.

Definition max_categories : nat := 15.

Definition _get_health_color (score : Z) : string :=
  if (score >=? 80)%Z then "#10b981"
  else if (score >=? 60)%Z then "#f59e0b"
  else "#ef4444".

Section Profiling.

(** [df.sample(n)]: the rows a random draw keeps. *)
Variable df_sample : nat -> DataFrame -> DataFrame.

(** The summary's lines for one numeric column (range, mean and standard
    deviation, shape of the distribution); they are computed with
    floating-point square roots and are not followed here. *)
Variable key_statistics : list scalar -> outcome (list text).

Definition _generate_summary (df : DataFrame) : outcome text :=
  let '(rows, cols) := shape df in
  let completeness := summary_completeness df in
  health_score <- _calculate_health_score df ;;
  let header :=
    [ [Lit "## 📊 Dataset Overview"];
      [Lit "Your dataset contains **"; Num "," (ZF rows); Lit "** rows and **";
       Int cols; Lit "** columns with **"; Num ".1f" completeness;
       Lit "%** data completeness."];
      [Lit ""];
      [Lit "### 📈 Data Health Score: "; Int health_score; Lit "/100"];
      [Lit ""] ] in
  let numeric_cols := select_dtypes is_number df in
  let categorical_cols := select_dtypes is_object df in
  let datetime_cols := select_dtypes is_datetime df in
  let listing (heading : string) (names : list string) (cap : bool) :=
    match names with
    | [] => []
    | _ =>
        [ [Lit heading; Lit " ("; Int (Z.of_nat (List.length names)); Lit ")"];
          [Lit "**";
           Lit (join ", " (if cap then firstn 10 names else names));
           Lit "**";
           Lit (if cap && (10 <? List.length names)%nat then "..." else "")];
          [Lit ""] ]
    end in
  let missing_info := combine (columns df) (df_isnull_sum df) in
  let missing_block :=
    if (zsum (map snd missing_info) >? 0)%Z then
      let missing_cols := filter (fun e => (snd e >? 0)%Z) missing_info in
      ([ [Lit "### ⚠️ Data Quality Issues"];
         [Lit "Found missing values in **";
          Int (Z.of_nat (List.length missing_cols)); Lit "** features:"];
         [Lit ""] ]
       ++ map (fun e =>
                 let pct := fmul (truediv (snd e) rows) (Fin 100) in
                 let severity :=
                   if fgt pct (Fin 50) then "🔴"
                   else if fgt pct (Fin 20) then "🟡" else "🟢" in
                 [Lit severity; Lit " **"; Lit (fst e); Lit "**: ";
                  Num "," (ZF (snd e)); Lit " missing ("; Num ".1f" pct; Lit "%)"])
              (firstn 5 missing_cols)
       ++ (if (5 <? List.length missing_cols)%nat
           then [ [Lit "... and ";
                   Int (Z.of_nat (List.length missing_cols) - 5); Lit " more"] ]
           else [])
       ++ [ [Lit ""] ])%list
    else [] in
  statistics <-
    (match numeric_cols with
     | [] => Normal []
     | _ =>
         blocks <-
           fold_right
             (fun col acc =>
                rest <- acc ;;
                s <- getitem df col ;;
                let values := dropna s in
                if (0 <? List.length values)%nat then
                  lines <- key_statistics values ;;
                  Normal (([Lit "**"; Lit col; Lit "**:"] :: lines)
                          ++ [Lit ""] :: rest)%list
                else Normal rest)
             (Normal []) (firstn 3 numeric_cols) ;;
         Normal ([Lit "### 📊 Key Statistics"] :: [Lit ""] :: blocks)
     end) ;;
  Normal (tjoin nl
    (header
     ++ listing "### 🔢 Numeric Features" numeric_cols true
     ++ listing "### 🏷️ Categorical Features" categorical_cols true
     ++ listing "### 📅 Temporal Features" datetime_cols false
     ++ missing_block ++ statistics)%list).

Definition _get_dataframe_info (df : DataFrame) : outcome dataframe_info :=
  let total_cells := (fst (shape df) * snd (shape df))%Z in
  let non_null_cells := zsum (df_count df) in
  let completeness := info_completeness df in
  health_score <- _calculate_health_score df ;;
  Normal (mkInfo
    (shape df)
    (columns df)
    (map (fun s => (s_name s, dtype_str (s_dtype s))) (series df))
    (combine (columns df) (df_isnull_sum df))
    health_score
    (round1 completeness)
    total_cells
    non_null_cells).

(** Every chart method is [try: ... except Exception: return None]. *)
Definition or_none {A} (body : outcome A) : option A :=
  try_except (a <- body ;; Normal (Some a)) (fun _ => None).

Definition _create_data_overview_chart (df : DataFrame) : option chart_entry :=
  or_none
    (let type_counts :=
       counts_of (map (fun s => SStr (dtype_str (s_dtype s))) (series df)) in
     let sample_df :=
       if (1000 <? n_rows df)%nat
       then df_sample (Nat.min 1000 (n_rows df)) df else df in
     let heatmap :=
       if (zsum (df_isnull_sum sample_df) >? 0)%Z then [Sketch "heatmap"] else [] in
     health_score <- _calculate_health_score df ;;
     let insights := generate_chart_insights df "overview" in
     Normal (mkEntry "overview" "📊 Dataset Overview Dashboard"
       ([ Pie (map (fun e => LVal (fst e)) type_counts) (map snd type_counts);
          Sketch "bar" ]
        ++ heatmap ++ [Indicator health_score])%list
       insights)).

Definition gender_traces (kind : string) (sex : Series) : outcome (list trace) :=
  names <- titles (unique_notna sex) ;;
  Normal (map (fun _ => Sketch kind) names).

Definition _create_survival_analysis_chart (df : DataFrame) : option chart_entry :=
  or_none
    (pclass <- getitem df "Pclass" ;;
     surv <- getitem df "Survived" ;;
     let by_class := [Sketch "bar"; Sketch "bar"] in
     let by_gender :=
       if has_column "Sex" df then [Sketch "bar"; Sketch "bar"] else [] in
     let overall_survival := value_counts surv in
     let pie :=
       Pie [LVal (SStr "Did not survive"); LVal (SStr "Survived")]
           [get overall_survival (SNum 0); get overall_survival (SNum 1)] in
     _ <- group_mean_pct pclass surv ;;
     let insights := generate_chart_insights df "survival_analysis" in
     Normal (mkEntry "survival_analysis" "🚢 Comprehensive Survival Analysis"
       (by_class ++ by_gender ++ [pie; Sketch "bar"])%list insights)).

(** The age dashboard adds the column [AgeGroup] to a copy of the table. *)
Definition _create_age_distribution_chart (df : ref) : M (option chart_entry) :=
  try_M
    (d <~ deref df ;;
     age <~ lift (getitem d "Age") ;;
     let age_data := dropna age in
     let histogram := Histogram age_data 30 in
     let boxes :=
       if has_column "Survived" d then [Sketch "box"; Sketch "box"] else [] in
     df_temp <~ df_copy df ;;
     t <~ deref df_temp ;;
     age_t <~ lift (getitem t "Age") ;;
     groups <~ lift (pd_cut (s_values age_t)) ;;
     _ <~ df_setitem df_temp "AgeGroup" Category groups ;;
     d <~ deref df ;;
     let bars :=
       if has_column "Survived" d then [Sketch "bar"; Sketch "bar"] else [] in
     violins <~
       (if has_column "Sex" d then
          sex <~ lift (getitem d "Sex") ;; lift (gender_traces "violin" sex)
        else ret []) ;;
     let insights := generate_chart_insights d "age_analysis" in
     ret (Some (mkEntry "age_analysis" "👥 Comprehensive Age Analysis"
       (histogram :: boxes ++ bars ++ violins)%list insights)))
    (fun _ => ret None).

Definition _create_gender_analysis_chart (df : DataFrame) : option chart_entry :=
  or_none
    (sex <- getitem df "Sex" ;;
     let gender_counts := value_counts sex in
     let pie := Pie (map (fun e => LVal (fst e)) gender_counts)
                    (map snd gender_counts) in
     rates <-
       (if has_column "Survived" df then
          surv <- getitem df "Survived" ;;
          _ <- group_mean_pct sex surv ;; Normal [Sketch "bar"]
        else Normal []) ;;
     boxes <-
       (if has_column "Fare" df then gender_traces "box" sex else Normal []) ;;
     bars <-
       (if has_column "Pclass" df then
          pclass <- getitem df "Pclass" ;;
          (* groupby(['Sex', 'Pclass']): the rows with a known class *)
          gender_traces "bar"
            (mkSeries (s_name sex) (s_dtype sex)
               (map fst (filter (fun kc => notna (snd kc))
                                (combine (s_values sex) (s_values pclass)))))
        else Normal []) ;;
     let insights := generate_chart_insights df "gender_analysis" in
     Normal (mkEntry "gender_analysis" "⚧️ Comprehensive Gender Analysis"
       (pie :: rates ++ boxes ++ bars)%list insights)).

Definition _create_class_analysis_chart (df : DataFrame) : option chart_entry :=
  or_none
    (pclass <- getitem df "Pclass" ;;
     class_counts <- sort_index (value_counts pclass) ;;
     let insights := generate_chart_insights df "class_analysis" in
     Normal (mkEntry "class_analysis" "🎫 Passenger Class Distribution"
       [Pie (map (fun e => class_label (fst e)) class_counts)
            (map snd class_counts)]
       insights)).

Definition _create_fare_analysis_chart (df : DataFrame) : option chart_entry :=
  or_none
    (fare <- getitem df "Fare" ;;
     let fare_data := dropna fare in
     let insights := generate_chart_insights df "fare_analysis" in
     Normal (mkEntry "fare_analysis" "💰 Fare Distribution Analysis"
       [Histogram fare_data 50] insights)).

Definition _create_embarkation_analysis_chart (df : DataFrame) : option chart_entry :=
  or_none
    (embarked <- getitem df "Embarked" ;;
     let embarked_counts := value_counts embarked in
     let labels := map (fun e => LVal (port_name (fst e))) embarked_counts in
     let insights := generate_chart_insights df "embarkation_analysis" in
     Normal (mkEntry "embarkation_analysis" "⚓ Embarkation Port Analysis"
       [Pie labels (map snd embarked_counts)] insights)).

(** The family chart adds the column [FamilySize] to a copy of the table. *)
Definition _create_family_analysis_chart (df : ref) : M (option chart_entry) :=
  try_M
    (df_temp <~ df_copy df ;;
     t <~ deref df_temp ;;
     sibsp <~ lift (getitem t "SibSp") ;;
     parch <~ lift (getitem t "Parch") ;;
     sizes <~ lift (family_size
                      (is_int64 (s_dtype sibsp) && is_int64 (s_dtype parch))
                      (combine (s_values sibsp) (s_values parch))) ;;
     _ <~ df_setitem df_temp "FamilySize" Float64 sizes ;;
     t <~ deref df_temp ;;
     family <~ lift (getitem t "FamilySize") ;;
     family_size_counts <~ lift (sort_index (value_counts family)) ;;
     d <~ deref df ;;
     let insights := generate_chart_insights d "family_analysis" in
     ret (Some (mkEntry "family_analysis" "👨‍👩‍👧‍👦 Family Analysis"
       [Bar (map (fun e => LVal (fst e)) family_size_counts)
            (map snd family_size_counts)]
       insights)))
    (fun _ => ret None).

Definition _create_premium_histogram (df : DataFrame) (col : string) (index : nat)
  : option chart_entry :=
  or_none
    (s <- getitem df col ;;
     let data := dropna s in
     mean_val <- mean (s_values s) ;;
     median_val <- median (s_values s) ;;
     let insights := generate_chart_insights df "histogram" in
     Normal (mkEntry "histogram" ("📈 Distribution of " ++ col)
       [Histogram data 30] insights)).

Definition _create_premium_categorical_chart
    (df : DataFrame) (col : string) (index : nat) : option chart_entry :=
  or_none
    (s <- getitem df col ;;
     let value_counts := firstn max_categories (value_counts s) in
     let insights := generate_chart_insights df "categorical" in
     Normal (mkEntry "categorical" ("🎯 Distribution of " ++ col)
       [Pie (map (fun e => LVal (fst e)) value_counts) (map snd value_counts)]
       insights)).

Definition _create_premium_correlation_heatmap
    (df : DataFrame) (numeric_cols : list string) : option chart_entry :=
  or_none
    (let insights := generate_chart_insights df "correlation" in
     Normal (mkEntry "correlation" "🔗 Feature Correlation Matrix"
       [Sketch "heatmap"] insights)).

Definition covered_numeric : list string :=
  ["Age"; "Fare"; "PassengerId"; "Survived"; "Pclass"].
Definition covered_categorical : list string := ["Sex"; "Embarked"].

Definition mem (x : string) (l : list string) : bool := existsb (String.eqb x) l.

(** [enumerate(l)] *)
Definition enumerate {A} (l : list A) : list (nat * A) :=
  combine (seq 0 (List.length l)) l.

(** A chart that is built when the table has the columns it needs. *)
Definition when (cond : bool) (chart : option chart_entry) : list chart_entry :=
  if cond then match chart with Some c => [c] | None => [] end else [].

Definition _generate_premium_charts (df : ref) : M (list chart_entry) :=
  d <~ deref df ;;
  let numeric_cols := select_dtypes is_number d in
  let categorical_cols := select_dtypes is_object d in
  let overview := when true (_create_data_overview_chart d) in
  let survival :=
    when (has_column "Survived" d && has_column "Pclass" d)
         (_create_survival_analysis_chart d) in
  age <~ (if has_column "Age" d
          then c <~ _create_age_distribution_chart df ;; ret (when true c)
          else ret []) ;;
  d <~ deref df ;;
  let class := when (has_column "Pclass" d) (_create_class_analysis_chart d) in
  let gender := when (has_column "Sex" d) (_create_gender_analysis_chart d) in
  let fare := when (has_column "Fare" d) (_create_fare_analysis_chart d) in
  let embarked :=
    when (has_column "Embarked" d) (_create_embarkation_analysis_chart d) in
  family <~ (if has_column "SibSp" d && has_column "Parch" d
             then c <~ _create_family_analysis_chart df ;; ret (when true c)
             else ret []) ;;
  (* Premium histograms for remaining numeric columns *)
  histograms <~
    for_each
      (fun ic : nat * string =>
         let (i, col) := ic in
         if negb (mem col covered_numeric) then
           d <~ deref df ;;
           s <~ lift (getitem d col) ;;
           if (count_notna s >? 0)%Z
           then ret (_create_premium_histogram d col i)
           else ret None
         else ret None)
      (enumerate numeric_cols) ;;
  (* Enhanced categorical charts for remaining columns *)
  categoricals <~
    for_each
      (fun ic : nat * string =>
         let (i, col) := ic in
         if negb (mem col covered_categorical) then
           d <~ deref df ;;
           s <~ lift (getitem d col) ;;
           if (nunique s <=? max_categories)%nat && (1 <? nunique s)%nat
           then ret (_create_premium_categorical_chart d col i)
           else ret None
         else ret None)
      (enumerate categorical_cols) ;;
  d <~ deref df ;;
  let correlation :=
    when (3 <=? List.length numeric_cols)%nat
         (_create_premium_correlation_heatmap d numeric_cols) in
  ret (overview ++ survival ++ age ++ class ++ gender ++ fare ++ embarked
       ++ family ++ histograms ++ categoricals ++ correlation)%list.

(** The profiling engine's entry point. *)
Definition analyze_dataframe (df : ref) : M analysis :=
  d <~ deref df ;;
  summary <~ lift (_generate_summary d) ;;
  charts <~ _generate_premium_charts df ;;
  d <~ deref df ;;
  dataframe_info <~ lift (_get_dataframe_info d) ;;
  ret (mkAnalysis summary charts dataframe_info).

End Profiling.

(* ================================================================= *)
(** ** Sample tables *)

Module Samples.

Definition num (z : Z) : cell := Some (SNum (inject_Z z)).
Definition str (s : string) : cell := Some (SStr s).

(** An oracle that is out of service, and one that answers. *)
Definition offline : text -> outcome string :=
  fun _ => Raise "503 service unavailable".
Definition answering : text -> outcome string :=
  fun _ => Normal " 342 passengers survived. ".

(** 800 passengers: 500 with [Survived = 0], then 300 with [Survived = 1]. *)
Definition survived_500_300 : DataFrame :=
  mkDF 800
    [ mkSeries "PassengerId" Int64 (map (fun i => num (Z.of_nat i)) (seq 1 800));
      mkSeries "Survived" Int64 (repeat (num 0) 500 ++ repeat (num 1) 300)%list ].


(** The columns [Age, Fare]; one age is missing. *)
Definition age_fare : DataFrame :=
  mkDF 4
    [ mkSeries "Age" Float64 [num 22; None; Some (SNum (5 # 2)); num 54];
      mkSeries "Fare" Float64 [Some (SNum (29 # 4)); num 71; num 8; num 51] ].

(** The passenger columns under lower-case names. *)
Definition lower_case_names : DataFrame :=
  mkDF 3
    [ mkSeries "survived" Int64 [num 0; num 1; num 1];
      mkSeries "age" Float64 [num 22; num 38; None];
      mkSeries "pclass" Int64 [num 3; num 1; num 3];
      mkSeries "sex" Object [str "male"; str "female"; str "female"] ].

(** A table read from a file that holds a header line and no row. *)
Definition header_only : DataFrame :=
  mkDF 0 [ mkSeries "Name" Object []; mkSeries "Age" Object [] ].

(** A numeric and a text column, no null, no repeated row. *)
Definition clean_mixed : DataFrame :=
  mkDF 3
    [ mkSeries "Age" Int64 [num 22; num 38; num 26];
      mkSeries "Name" Object [str "Braund"; str "Cumings"; str "Heikkinen"] ].

(** A [Fare] column in which every cell is null. *)
Definition fare_all_null : DataFrame :=
  mkDF 2 [ mkSeries "Fare" Float64 [None; None] ].


(** Survival that follows the class exactly, and survival that does not
    depend on it. *)
Definition class_decides : DataFrame :=
  mkDF 4
    [ mkSeries "Survived" Int64 [num 1; num 1; num 0; num 0];
      mkSeries "Pclass" Int64 [num 1; num 1; num 3; num 3] ].
Definition class_irrelevant : DataFrame :=
  mkDF 4
    [ mkSeries "Survived" Int64 [num 1; num 0; num 1; num 0];
      mkSeries "Pclass" Int64 [num 1; num 1; num 3; num 3] ].

(** Passengers with the columns every dashboard reads. *)
Definition passengers : DataFrame :=
  mkDF 4
    [ mkSeries "Survived" Int64 [num 0; num 1; num 1; num 0];
      mkSeries "Pclass" Int64 [num 3; num 1; num 3; num 2];
      mkSeries "Sex" Object [str "male"; str "female"; str "female"; str "male"];
      mkSeries "Age" Float64 [num 22; num 38; None; num 35];
      mkSeries "SibSp" Int64 [num 1; num 1; num 0; num 0];
      mkSeries "Parch" Int64 [num 0; num 0; num 0; num 2];
      mkSeries "Fare" Float64 [num 7; num 71; num 8; num 53];
      mkSeries "Weight" Float64 [None; None; None; None] ].

Definition keep_all : nat -> DataFrame -> DataFrame := fun _ d => d.
Definition no_statistics : list scalar -> outcome (list text) :=
  fun _ => Normal [].

End Samples.

(* ================================================================= *)
(** ** The health score and the completeness as the specification words
    them *)

Module Spec.

Definition Qclamp (lo hi q : Q) : Q :=
  if Qle_bool q lo then lo else if Qle_bool hi q then hi else q.

(** Start at 100; subtract the share of missing cells, in percent;
    subtract half the share of repeated rows, in percent; subtract 5 for
    each column with more than half of its cells missing; add 5 when
    there are a numeric and a categorical column; clamp to [0, 100];
    truncate. *)
Definition health_score (df : DataFrame) : Z :=
  let rows := inject_Z (Z.of_nat (n_rows df)) in
  let cells :=
    inject_Z (Z.of_nat (n_rows df) * Z.of_nat (List.length (series df))) in
  let missing_pct := (inject_Z (zsum (df_isnull_sum df)) / cells * 100)%Q in
  let duplicate_pct :=
    (inject_Z (count_true (duplicated df)) / rows * 100)%Q in
  let heavy :=
    List.length
      (filter (fun s => negb (Qle_bool (inject_Z (count_null s) / rows) (1 # 2)))
              (series df)) in
  let bonus :=
    if existsb (fun s => is_number (s_dtype s)) (series df)
       && existsb (fun s => is_object (s_dtype s)) (series df)
    then 5%Q else 0%Q in
  Qtrunc (Qclamp 0 100
    (100 - missing_pct - duplicate_pct * (1 # 2)
     - 5 * inject_Z (Z.of_nat heavy) + bonus)%Q).

(** Non-null cells over all cells, times 100. *)
Definition completeness (df : DataFrame) : Q :=
  (inject_Z (zsum (df_count df))
   / inject_Z (Z.of_nat (n_rows df) * Z.of_nat (List.length (series df)))
   * 100)%Q.

(** The table with the cell in row [i] of column number [c] made null. *)
Definition set_null (df : DataFrame) (c i : nat) : DataFrame :=
  match nth_error (series df) c with
  | Some s =>
      mkDF (n_rows df)
           (replace_nth c
              (mkSeries (s_name s) (s_dtype s) (replace_nth i None (s_values s)))
              (series df))
  | None => df
  end.


(** A column that holds numbers only and is not of dtype [object]. *)
Definition numeric_column (name : string) (df : DataFrame) : Prop :=
  exists s, getitem df name = Normal s
            /\ is_object (s_dtype s) = false
            /\ Forall (fun v => is_num v = true) (dropna s).

(** A catalogue entry of type "histogram" as the loop over the remaining
    numeric columns builds it: the histogram of a numeric column with at
    least one non-null cell. *)
Definition plain_histogram_of (d : DataFrame) (c : chart_entry) : Prop :=
  exists col s,
    In col (select_dtypes is_number d)
    /\ getitem d col = Normal s
    /\ (0 < count_notna s)%Z
    /\ dropna s <> []
    /\ c_title c = "📈 Distribution of " ++ col
    /\ c_data c = [Histogram (dropna s) 30].

(** The entry of the dedicated fare chart. *)
Definition fare_entry (d : DataFrame) (fare : Series) : chart_entry :=
  mkEntry "fare_analysis" "💰 Fare Distribution Analysis"
          [Histogram (dropna fare) 50]
          (generate_chart_insights d "fare_analysis").

End Spec.

(* ================================================================= *)
(** ** Notions used in the proofs *)

(** The sum of the counts recorded under a label. *)
Definition total (vc : list (scalar * Z)) (k : scalar) : Z :=
  zsum (map snd (filter (fun e => scalar_eqb k (fst e)) vc)).

(** The number of values equal to [k]. *)
Definition occurrences (k : scalar) (vals : list scalar) : Z :=
  Z.of_nat (List.length (filter (fun v => scalar_eqb v k) vals)).

(** No two entries of a table of counts have equal labels. *)
Fixpoint distinct_keys (vc : list (scalar * Z)) : Prop :=
  match vc with
  | [] => True
  | e :: vc' =>
      Forall (fun e' => scalar_eqb (fst e) (fst e') = false) vc'
      /\ distinct_keys vc'
  end.

(** [h] holds the objects of [h0], unchanged, and possibly new ones. *)
Definition extends (h0 h : heap) : Prop := exists ext, h = (h0 ++ ext)%list.

(** [m] leaves the objects of [h0] as they are, whether it returns or
    raises, and a value it returns satisfies [Q]. *)
Definition keeps {A} (h0 : heap) (m : M A) (Q : A -> Prop) : Prop :=
  forall h, extends h0 h ->
    extends h0 (snd (m h)) /\ forall a, fst (m h) = Normal a -> Q a.

(** [m] leaves the objects of [h0] as they are and returns a value that
    satisfies [Q]. *)
Definition runs {A} (h0 : heap) (m : M A) (Q : A -> Prop) : Prop :=
  forall h, extends h0 h ->
    extends h0 (snd (m h)) /\ exists a, fst (m h) = Normal a /\ Q a.

(* ================================================================= *)
(** ** The service ([main.py])

    The directory [temp] is a list of named files. Names are plain file
    names: a session id or an uploaded file name that holds a path
    separator is outside the model, and so is a directory that cannot be
    written. A pickle holds the table it was written from. Requests are
    served one after the other. A response is the value the handler
    returns or the [HTTPException] it raises; the validation of the
    request and the serialisation of the response are not followed. *)

(** [s.endswith(suffix)] *)
Fixpoint endswith (suffix s : string) : bool :=
  String.eqb suffix s ||
  match s with
  | EmptyString => false
  | String _ s' => endswith suffix s'
  end.

Module Service.

Inductive file : Type :=
| Uploaded (bytes : string)
| Pickled (df : DataFrame).

Definition directory : Type := list (string * file).

Definition lookup (name : string) (temp : directory) : option file :=
  match find (fun e => String.eqb name (fst e)) temp with
  | Some e => Some (snd e)
  | None => None
  end.

(** [(TEMP_DIR / name).exists()] *)
Definition path_exists (name : string) (temp : directory) : bool :=
  match lookup name temp with Some _ => true | None => false end.

(** Writing a file: a file of that name is replaced. *)
Fixpoint write (name : string) (f : file) (temp : directory) : directory :=
  match temp with
  | [] => [(name, f)]
  | e :: temp' =>
      if String.eqb name (fst e) then (name, f) :: temp'
      else e :: write name f temp'
  end.

(** [(TEMP_DIR / name).unlink()] *)
Definition unlink (name : string) (temp : directory) : directory :=
  filter (fun e => negb (String.eqb name (fst e))) temp.

(** The answer to a request: the returned value (status 200), or the
    [HTTPException] the handler raises. *)
Inductive http (A : Type) : Type :=
| OK (body : A)
| HTTPException (status_code : Z) (detail : string).
Arguments OK {A} body.
Arguments HTTPException {A} status_code detail.

Record UploadFile : Type := mkUpload {
  filename : string;
  read : string
}.

Module ChatQueryRequest.
Record t : Type := mk {
  session_id : string;
  user_query : string;
  conversation_history : list ChatMessage
}.
End ChatQueryRequest.

Module InitialAnalysisResponse.
Record t : Type := mk {
  session_id : string;
  summary : text;
  charts : list chart_entry;
  dataframe_info : dataframe_info
}.
End InitialAnalysisResponse.

Section Upload.

Variable df_sample : nat -> DataFrame -> DataFrame.
Variable key_statistics : list scalar -> outcome (list text).

(** [pd.read_csv] and [pd.read_excel] on the bytes of a file: the table,
    or the parser's exception. *)
Variable read_csv : string -> outcome DataFrame.
Variable read_excel : string -> outcome DataFrame.

(** [session_id] is the identifier drawn by [uuid.uuid4()]. *)
Definition initial_analysis (session_id : string) (file : UploadFile)
    (temp : directory) : http InitialAnalysisResponse.t * directory :=
  (* Validate file type *)
  if negb (endswith ".csv" (filename file) || endswith ".xlsx" (filename file)
           || endswith ".xls" (filename file)) then
    (HTTPException 400 "Only CSV and Excel files are supported", temp)
  else
    (* Save uploaded file *)
    let file_path := session_id ++ "_" ++ filename file in
    let content := read file in
    let temp := write file_path (Uploaded content) temp in
    (* Load data into pandas DataFrame *)
    match (if endswith ".csv" (filename file)
           then read_csv content else read_excel content) with
    | Raise e => (HTTPException 400 ("Error reading file: " ++ e), temp)
    | Normal df =>
        (* Save DataFrame as pickle for later use *)
        let df_path := session_id ++ ".pkl" in
        let temp := write df_path (Pickled df) temp in
        (* Perform initial analysis *)
        match fst (analyze_dataframe df_sample key_statistics 0%nat [df]) with
        | Normal (mkAnalysis summary charts dataframe_info) =>
            (OK (InitialAnalysisResponse.mk session_id summary charts
                   dataframe_info),
             temp)
        | Raise e => (HTTPException 500 ("Internal server error: " ++ e), temp)
        end
    end.

End Upload.

Section Chat.

Variable generate_content : text -> outcome string.

(** [pd.read_pickle] on bytes that no [to_pickle] wrote. *)
Variable unpickle : string -> outcome DataFrame.

Definition read_pickle (f : file) : outcome DataFrame :=
  match f with
  | Pickled df => Normal df
  | Uploaded bytes => unpickle bytes
  end.

Definition chat_query (request : ChatQueryRequest.t) (temp : directory)
  : http response :=
  (* Load DataFrame from session *)
  let df_path := ChatQueryRequest.session_id request ++ ".pkl" in
  match lookup df_path temp with
  | None => HTTPException 404 "Session not found"
  | Some f =>
      match
        (df <- read_pickle f ;;
         (* Get AI response (could be text or chart) *)
         generate_chart generate_content df
           (ChatQueryRequest.user_query request)
           (ChatQueryRequest.conversation_history request))
      with
      | Normal response => OK response
      | Raise e => HTTPException 500 ("Error processing query: " ++ e)
      end
  end.

End Chat.

Section Cleanup.

(** [fnmatch(name, pattern)], as [Path.glob] matches the names of a
    directory against a pattern. *)
Variable fnmatch : string -> string -> bool.

(** [TEMP_DIR.glob(pattern)] for a pattern of one path component: the
    names that match, listed before any of them is removed. A pattern
    that holds [**] beside other characters is refused with a
    [ValueError] when the listing starts. *)
Definition glob (pattern : string) (temp : directory) : outcome (list string) :=
  if contains "**" pattern
  then Raise "Invalid pattern: '**' can only be an entire path component"
  else Normal (filter (fun name => fnmatch name pattern) (map fst temp)).

Definition cleanup_session (session_id : string) (temp : directory)
  : http string * directory :=
  let df_path := session_id ++ ".pkl" in
  let temp := if path_exists df_path temp then unlink df_path temp else temp in
  (* Remove uploaded file *)
  match glob (session_id ++ "_*") temp with
  | Normal paths =>
      (OK "Session cleaned up successfully",
       fold_left (fun temp file_path => unlink file_path temp) paths temp)
  | Raise e => (HTTPException 500 ("Cleanup error: " ++ e), temp)
  end.

End Cleanup.

End Service.

(* ================================================================= *)
(** ** Sample libraries and notions for the service *)

Module Desk.

(** [s[:-1]] *)
Fixpoint but_last (s : string) : string :=
  match s with
  | EmptyString => EmptyString
  | String c EmptyString => EmptyString
  | String c s' => String c (but_last s')
  end.

(** A matcher for the patterns whose only wildcard is a final [*]. *)
Definition prefix_match (name pattern : string) : bool :=
  startswith (but_last pattern) name.

(** The bytes of a file with the columns [Age, Fare] and four rows, the
    first cell of the second row left empty. *)
Definition fares_csv : string :=
  "Age,Fare" ++ nl ++ "22,7.25" ++ nl ++ ",71" ++ nl ++ "2.5,8" ++ nl
  ++ "54,51" ++ nl.

(** A reader that knows two tables, a header line alone and the file of
    fares, and the empty file, which [read_csv] refuses; it is not asked
    for other bytes. *)
Definition two_files (bytes : string) : outcome DataFrame :=
  if String.eqb bytes "Name,Age" then Normal Samples.header_only
  else if String.eqb bytes fares_csv then Normal Samples.age_fare
  else if String.eqb bytes "" then Raise "No columns to parse from file"
  else Raise "Error tokenizing data".

Definition no_excel (bytes : string) : outcome DataFrame :=
  Raise "File is not a zip file".

(** [read_pickle] on the bytes of a text: the first byte is no opcode. *)
Definition not_a_pickle (bytes : string) : outcome DataFrame :=
  match bytes with
  | String c _ => Raise ("invalid load key, '" ++ String c "'.")
  | EmptyString => Raise "Ran out of input"
  end.

End Desk.



(** What the prompt of a text answer shows of a column: its name and
    dtype, its counts, and its first three values. *)
Definition shown_to_oracle (s : Series)
  : string * dtype * Z * Z * list scalar :=
  (s_name s, s_dtype s, count_notna s, count_null s, firstn 3 (dropna s)).

(** A whole number of at most fifteen digits: a sum of three of these is
    exact as an integer of 64 bits and as a float. *)
Definition small_integer (v : scalar) : bool :=
  match v with
  | SNum q =>
      Qeq_bool q (inject_Z (Qfloor q)) && (Z.abs (Qfloor q) <=? 10 ^ 15)%Z
  | SStr _ => false
  end.

(** [a] stands strictly before [b] in the order of [sort_index]. *)
Definition label_lt (a b : scalar * Z) : Prop :=
  scalar_leb (fst a) (fst b) = true /\ scalar_eqb (fst a) (fst b) = false.

(** [a] has at least the count of [b]. *)
Definition count_ge_of (a b : scalar * Z) : Prop := (snd b <= snd a)%Z.

(* ================================================================= *)
(** ** Notions for the chart catalogue *)

(** The entry of type "histogram" that the loop over the numeric columns
    adds for the column [col] at position [i], if any. *)
Definition plain_histogram (d : DataFrame) (ic : nat * string)
  : option chart_entry :=
  if negb (mem (snd ic) covered_numeric) then
    match getitem d (snd ic) with
    | Normal s =>
        if (count_notna s >? 0)%Z
        then _create_premium_histogram d (snd ic) (fst ic) else None
    | Raise _ => None
    end
  else None.

(** The entry of type "categorical" that the loop over the [object]
    columns adds for the column [col] at position [i], if any. *)
Definition donut (d : DataFrame) (ic : nat * string) : option chart_entry :=
  if negb (mem (snd ic) covered_categorical) then
    match getitem d (snd ic) with
    | Normal s =>
        if (nunique s <=? max_categories)%nat && (1 <? nunique s)%nat
        then _create_premium_categorical_chart d (snd ic) (fst ic) else None
    | Raise _ => None
    end
  else None.

Definition entries (c : option chart_entry) : list chart_entry :=
  match c with Some e => [e] | None => [] end.

(** A donut chart of the catalogue: the frequency table of an [object]
    column other than [Sex] and [Embarked] with 2 to 15 distinct
    values. *)
Definition donut_of (d : DataFrame) (c : chart_entry) : Prop :=
  exists col s,
    In col (select_dtypes is_object d)
    /\ mem col covered_categorical = false
    /\ getitem d col = Normal s
    /\ (2 <= nunique s <= 15)%nat
    /\ List.length (value_counts s) = nunique s
    /\ c_title c = "🎯 Distribution of " ++ col
    /\ c_data c = [Pie (map (fun e => LVal (fst e)) (value_counts s))
                       (map snd (value_counts s))]
    /\ c_insights c = generate_chart_insights d "categorical".

(** The types of the catalogue, in the order of the entries. *)
Definition optional (present : bool) (type : string) : list string :=
  if present then [type] else [].

(** Whether a chart method returned a chart. *)
Definition built (c : option chart_entry) : bool :=
  match c with Some _ => true | None => false end.

(* ================================================================= *)
(** ** Profiling engine: the shape of a distribution
    ([DataAnalyzer._calculate_skewness], [_describe_distribution])

    The two methods are called on the non-null values of a numeric
    column. The square root of the standard deviation is not a rational:
    it is left as a function [sqrt] on the idealised floats. *)

(** [x == y] as a truth value; NaN equals nothing. *)
Definition feqb (x y : pyfloat) : bool :=
  match x, y with
  | Fin a, Fin b => Qeq_bool a b
  | Inf s, Inf t => Bool.eqb s t
  | _, _ => false
  end.

(** [x ** 3] *)
Definition fcube (x : pyfloat) : pyfloat := fmul x (fmul x x).

Section Distribution.

Variable sqrt : Q -> Q.

(** [data.std()]: the sample standard deviation (one degree of freedom
    is taken off); of fewer than two values it is NaN. *)
Definition std (data : list Q) : pyfloat :=
  match data with
  | [] | [_] => NaN
  | _ =>
      let n := inject_Z (Z.of_nat (List.length data)) in
      let mean := (qsum data / n)%Q in
      Fin (sqrt (qsum (map (fun x => (x - mean) * (x - mean)) data)
                 / (n - 1))%Q)
  end.

Definition _calculate_skewness (data : list Q) : pyfloat :=
  let mean := mean_q data in
  let std := std data in
  let n := Z.of_nat (List.length data) in
  if feqb std (Fin 0) then Fin 0
  else
    (* ((data - mean) ** 3).sum(): a sum over the values *)
    let cubes :=
      match mean with
      | Fin m => qsum (map (fun x => (x - m) * ((x - m) * (x - m))) data)
      | _ => 0
      end%Q in
    fdiv (Fin cubes) (fmul (ZF n) (fcube std)).

Definition _describe_distribution (series : list Q) : string :=
  let skewness := _calculate_skewness series in
  if fgt (Fin (1 # 2)) (fabs skewness) then "Normal"
  else if fgt skewness (Fin (1 # 2)) then "Right-skewed"
  else "Left-skewed".

End Distribution.

(* ################################################################# *)
(** * Part II. Properties *)

(** ** Strings *)

Lemma startswith_spec k s :
  startswith k s = true <-> exists b, s = k ++ b.
Proof.
  revert s; induction k as [|a k IH]; intros s; simpl.
  - split; [intros _; now exists s | reflexivity].
  - destruct s as [|b s]; simpl.
    + split; [discriminate | intros [x Hx]; discriminate].
    + rewrite andb_true_iff, Ascii.eqb_eq, IH. split.
      * intros [-> [x ->]]. now exists x.
      * intros [x Hx]. injection Hx as -> ->. split; [reflexivity | now exists x].
Qed.

Lemma contains_spec k s :
  contains k s = true <-> is_substring k s.
Proof.
  unfold is_substring. induction s as [|c s IH].
  - simpl. rewrite orb_false_r, startswith_spec. split.
    + intros [b Hb]. now exists "", b.
    + intros [a [b Hab]]. destruct a; simpl in Hab; [now exists b | discriminate].
  - cbn [contains]. rewrite orb_true_iff, startswith_spec, IH. split.
    + intros [[b Hb] | [a [b Hab]]].
      * now exists "", b.
      * exists (String c a), b. simpl. now rewrite Hab.
    + intros [a [b Hab]]. destruct a as [|c' a]; simpl in Hab.
      * left. now exists b.
      * right. injection Hab as _ Hab. now exists a, b.
Qed.

Lemma any_in_spec kws s :
  any_in kws s = true <-> exists k, In k kws /\ is_substring k s.
Proof.
  unfold any_in. rewrite existsb_exists.
  split; intros [k [Hin Hk]]; exists k; split; auto; now apply contains_spec.
Qed.

Lemma any_in_false kws s :
  any_in kws s = false <-> forall k, In k kws -> ~ is_substring k s.
Proof.
  rewrite <- not_true_iff_false, any_in_spec. split.
  - intros H k Hin Hk. apply H. now exists k.
  - intros H [k [Hin Hk]]. now apply (H k).
Qed.

(** ** Intent classification *)

Example intent_both_keyword_sets :
  _determine_user_intent "Tell me how many survived, as a Pie Chart" = "chart".
Proof. reflexivity. Qed.

Example intent_text_keyword_only :
  _determine_user_intent "How many passengers were there?" = "text".
Proof. reflexivity. Qed.

Example intent_no_keyword :
  _determine_user_intent "passengers" = "text".
Proof. reflexivity. Qed.

(** C1. Intent classification depends on the lower-cased query only; it is
    "chart" exactly when some chart keyword occurs in the lower-cased query
    (whatever text keywords occur too), and "text" for every query in which
    no chart keyword occurs (with or without a text keyword). *)
Theorem C1_intent_chart_precedence (user_query : string) :
  ((exists k, In k chart_keywords /\ is_substring k (lower user_query)) ->
     _determine_user_intent user_query = "chart")
  /\ ((forall k, In k chart_keywords -> ~ is_substring k (lower user_query)) ->
     _determine_user_intent user_query = "text")
  /\ (forall q', lower q' = lower user_query ->
     _determine_user_intent q' = _determine_user_intent user_query).
Proof.
  unfold _determine_user_intent. repeat split.
  - intros H. apply any_in_spec in H. now rewrite H.
  - intros H. apply any_in_false in H. rewrite H.
    now destruct (any_in text_keywords (lower user_query)).
  - intros q' ->. reflexivity.
Qed.

(** ** Equality of cell values *)

Lemma scalar_eqb_refl a : scalar_eqb a a = true.
Proof.
  destruct a; simpl.
  - apply Qeq_bool_iff. reflexivity.
  - apply String.eqb_refl.
Qed.

Lemma scalar_eqb_sym a b : scalar_eqb a b = scalar_eqb b a.
Proof.
  destruct a, b; simpl; auto.
  - apply Qeq_bool_comm.
  - apply String.eqb_sym.
Qed.

Lemma scalar_eqb_trans a b c :
  scalar_eqb a b = true -> scalar_eqb b c = true -> scalar_eqb a c = true.
Proof.
  destruct a, b, c; simpl; try discriminate.
  - rewrite !Qeq_bool_iff. intros H1 H2. now rewrite H1.
  - rewrite !String.eqb_eq. congruence.
Qed.

(** Equal values have the same equals. *)
Lemma scalar_eqb_congr a b c :
  scalar_eqb a b = true -> scalar_eqb c a = scalar_eqb c b.
Proof.
  intros Hab. destruct (scalar_eqb c b) eqn:Hcb.
  - apply scalar_eqb_trans with b; auto. now rewrite scalar_eqb_sym.
  - destruct (scalar_eqb c a) eqn:Hca; auto.
    rewrite <- Hcb. symmetry. now apply scalar_eqb_trans with a.
Qed.

(** ** Value counts *)

Lemma total_vc_add v acc k :
  total (vc_add v acc) k
  = (total acc k + if scalar_eqb v k then 1 else 0)%Z.
Proof.
  unfold total. induction acc as [|[w n] acc IH]; simpl.
  - rewrite (scalar_eqb_sym k v). destruct (scalar_eqb v k); simpl; lia.
  - destruct (scalar_eqb v w) eqn:E; simpl.
    + rewrite (scalar_eqb_sym v k), (scalar_eqb_congr v w k E).
      destruct (scalar_eqb k w); simpl; lia.
    + destruct (scalar_eqb k w) eqn:E'; simpl; rewrite IH; lia.
Qed.

Lemma total_tally_from vals acc k :
  total (fold_left (fun acc v => vc_add v acc) vals acc) k
  = (total acc k + occurrences k vals)%Z.
Proof.
  revert acc. unfold occurrences.
  induction vals as [|v vals IH]; intros acc; simpl.
  - lia.
  - rewrite IH, total_vc_add.
    destruct (scalar_eqb v k); simpl; lia.
Qed.

Lemma total_insert_by before x l k :
  total (insert_by before x l) k = total (x :: l) k.
Proof.
  unfold total. induction l as [|y l IH]; simpl; auto.
  destruct (before x y); simpl; auto.
  destruct (scalar_eqb k (fst y)); simpl; rewrite IH; simpl;
    destruct (scalar_eqb k (fst x)); simpl; lia.
Qed.

Lemma total_sort_by before l k :
  total (sort_by before l) k = total l k.
Proof.
  induction l as [|x l IH]; simpl; auto.
  rewrite total_insert_by. unfold total in *. simpl.
  destruct (scalar_eqb k (fst x)); simpl; now rewrite IH.
Qed.

Lemma vc_add_fresh x v acc :
  Forall (fun e' => scalar_eqb x (fst e') = false) acc ->
  scalar_eqb x v = false ->
  Forall (fun e' => scalar_eqb x (fst e') = false) (vc_add v acc).
Proof.
  intros Hacc Hv. induction acc as [|[w n] acc IH]; simpl.
  - constructor; auto.
  - inversion Hacc as [|? ? Hw Hrest]; subst.
    destruct (scalar_eqb v w); constructor; auto.
Qed.

Lemma distinct_vc_add v acc :
  distinct_keys acc -> distinct_keys (vc_add v acc).
Proof.
  induction acc as [|[w n] acc IH]; simpl.
  - intros _. split; [constructor | exact I].
  - intros [Hw Hacc]. destruct (scalar_eqb v w) eqn:E; simpl.
    + split; auto.
    + split; auto. apply vc_add_fresh; auto.
      now rewrite scalar_eqb_sym.
Qed.

Lemma distinct_tally_from vals acc :
  distinct_keys acc ->
  distinct_keys (fold_left (fun acc v => vc_add v acc) vals acc).
Proof.
  revert acc. induction vals as [|v vals IH]; intros acc H; simpl; auto.
  apply IH. now apply distinct_vc_add.
Qed.

Lemma fresh_insert_by before (x y : scalar * Z) l :
  Forall (fun e' => scalar_eqb (fst y) (fst e') = false) (x :: l) ->
  Forall (fun e' => scalar_eqb (fst y) (fst e') = false) (insert_by before x l).
Proof.
  induction l as [|z l IH]; simpl; auto.
  intros H. destruct (before x z); auto.
  inversion H as [|? ? Hx Hzl]; subst.
  inversion Hzl as [|? ? Hz Hl]; subst.
  constructor; auto.
Qed.

Lemma distinct_insert_by before x l :
  distinct_keys (x :: l) -> distinct_keys (insert_by before x l).
Proof.
  induction l as [|y l IH]; simpl; auto.
  intros [Hx [Hy Hl]]. destruct (before x y); simpl; auto.
  inversion Hx as [|? ? Hxy Hxl]; subst.
  split.
  - apply fresh_insert_by. constructor; auto.
    now rewrite scalar_eqb_sym.
  - apply IH. simpl. auto.
Qed.

Lemma fresh_sort_by before (y : scalar * Z) (l : list (scalar * Z)) :
  Forall (fun e' => scalar_eqb (fst y) (fst e') = false) l ->
  Forall (fun e' => scalar_eqb (fst y) (fst e') = false) (sort_by before l).
Proof.
  induction l as [|x l IH]; simpl; auto.
  intros H. inversion H; subst. apply fresh_insert_by. constructor; auto.
Qed.

Lemma distinct_sort_by before l :
  distinct_keys l -> distinct_keys (sort_by before l).
Proof.
  induction l as [|x l IH]; simpl; auto.
  intros [Hx Hl]. apply distinct_insert_by. simpl. split; auto.
  now apply fresh_sort_by.
Qed.

Lemma get_total vc k :
  distinct_keys vc -> get_value vc k = total vc k.
Proof.
  unfold get_value, total. induction vc as [|e vc IH]; simpl; auto.
  intros [He Hvc]. destruct (scalar_eqb k (fst e)) eqn:E; simpl.
  - assert (Hnone : filter (fun e' => scalar_eqb k (fst e')) vc = []).
    { clear IH Hvc. induction vc as [|[k' n'] vc IHvc]; simpl; auto.
      inversion He as [|? ? H1 H2]; subst. simpl in H1.
      rewrite (scalar_eqb_sym k k').
      assert (Hk : scalar_eqb (fst e) k = true) by now rewrite scalar_eqb_sym.
      rewrite <- (scalar_eqb_congr (fst e) k k' Hk).
      rewrite scalar_eqb_sym, H1. auto. }
    rewrite Hnone. simpl. lia.
  - now apply IH.
Qed.

(** The count that [value_counts] records under a label is the number
    of values equal to it. *)
Lemma get_counts_of vals k :
  get_value (counts_of vals) k
  = Z.of_nat (List.length (filter (fun v => scalar_eqb v k) vals)).
Proof.
  unfold counts_of, tally.
  rewrite get_total.
  - rewrite total_sort_by, total_tally_from. reflexivity.
  - apply distinct_sort_by, distinct_tally_from. exact I.
Qed.

Lemma filter_dropna (p : scalar -> bool) (l : list cell) :
  List.length (filter p (flat_map
     (fun c => match c with Some v => [v] | None => [] end) l))
  = List.length (filter (fun c => match c with Some v => p v | None => false end) l).
Proof.
  induction l as [|[v|] l IH]; simpl; auto.
  destruct (p v); simpl; now rewrite IH.
Qed.

Lemma in_insert_by {A} before (x e : A) l :
  In e (insert_by before x l) <-> e = x \/ In e l.
Proof.
  induction l as [|y l IH]; simpl.
  - split; [intros [H | []]; now left | intros [H | []]; now left].
  - destruct (before x y); simpl.
    + split; [intros [H | H]; [now left | now right]
             | intros [H | H]; [now left | now right]].
    + rewrite IH. split.
      * intros [H | [H | H]]; [right; now left | now left | right; now right].
      * intros [H | [H | H]]; [right; now left | now left | right; now right].
Qed.

Lemma in_sort_by {A} before (e : A) l : In e (sort_by before l) <-> In e l.
Proof.
  induction l as [|x l IH]; [reflexivity|].
  unfold sort_by in *. cbn [fold_right]. rewrite in_insert_by, IH. simpl.
  split; intros [H | H]; auto.
Qed.

Lemma in_vc_add v acc e :
  In e (vc_add v acc) -> fst e = v \/ exists e', In e' acc /\ fst e = fst e'.
Proof.
  induction acc as [|[w n] acc IH]; simpl.
  - intros [<- | []]. now left.
  - destruct (scalar_eqb v w); simpl.
    + intros [<- | H]; right.
      * exists (w, n). split; [now left | reflexivity].
      * exists e. split; [now right | reflexivity].
    + intros [<- | H].
      * right. exists (w, n). split; [now left | reflexivity].
      * destruct (IH H) as [K | [e' [I K]]]; [now left|].
        right. exists e'. split; [now right | exact K].
Qed.

Lemma in_tally_from vals acc e :
  In e (fold_left (fun acc v => vc_add v acc) vals acc) ->
  In (fst e) vals \/ exists e', In e' acc /\ fst e = fst e'.
Proof.
  revert acc; induction vals as [|v vals IH]; intros acc; cbn [fold_left].
  - intros H. right. now exists e.
  - intros H. destruct (IH _ H) as [K | [e' [I K]]]; [left; now right|].
    destruct (in_vc_add v acc e' I) as [E | [e'' [I' E]]].
    + left. left. congruence.
    + right. exists e''. split; [exact I' | congruence].
Qed.

(** The labels of a table of counts are values of the list. *)
Lemma counts_of_labels vals e : In e (counts_of vals) -> In (fst e) vals.
Proof.
  unfold counts_of, tally. rewrite in_sort_by. intros H.
  destruct (in_tally_from vals [] e H) as [K | [e' [[] _]]]. exact K.
Qed.

(** The count that [s.value_counts()] records under the label [k] is
    the number of cells of [s] that hold [k]. *)
Lemma get_value_counts s k :
  get_value (value_counts s) k = count_eq s k.
Proof.
  unfold value_counts, count_eq, dropna.
  rewrite get_counts_of, filter_dropna. reflexivity.
Qed.

(** A key that is a string is a label. *)
Lemma get_of_string vc t : get vc (SStr t) = get_value vc (SStr t).
Proof. reflexivity. Qed.



Lemma has_column_getitem name df :
  has_column name df = true <-> exists s, getitem df name = Normal s.
Proof.
  unfold has_column, getitem, columns.
  induction (series df) as [|c l IH]; simpl.
  - split; [discriminate | intros [s H]; discriminate].
  - destruct (String.eqb name (s_name c)); simpl.
    + split; [intros _; now exists c | reflexivity].
    + exact IH.
Qed.

Lemma has_column_false name df :
  has_column name df = false <-> ~ In name (columns df).
Proof.
  unfold has_column. rewrite <- not_true_iff_false, existsb_exists.
  split.
  - intros H Hin. apply H. exists name. split; auto. apply String.eqb_refl.
  - intros H [x [Hin Hx]]. apply String.eqb_eq in Hx. now subst.
Qed.

Lemma getitem_name df name s :
  getitem df name = Normal s -> In s (series df) /\ s_name s = name.
Proof.
  unfold getitem.
  destruct (find _ _) eqn:F; [|discriminate]. injection 1 as ->.
  apply find_some in F. destruct F as [Hin Hn].
  apply String.eqb_eq in Hn. auto.
Qed.

Lemma dropna_notna s :
  map Some (dropna s) = filter notna (s_values s).
Proof.
  unfold dropna. induction (s_values s) as [|[v|] l IH]; simpl; auto.
  now rewrite IH.
Qed.

(** ** Query router *)

Lemma chart_word_intent w q :
  In w chart_keywords -> contains w (lower q) = true ->
  _determine_user_intent q = "chart".
Proof.
  intros Hin Hw. unfold _determine_user_intent.
  assert (H : any_in chart_keywords (lower q) = true).
  { apply existsb_exists. now exists w. }
  now rewrite H.
Qed.

Lemma try_except_normal {A} (body : outcome (outcome A)) handler :
  (forall x, body = Normal x -> exists r, x = Normal r) ->
  (forall e, exists r, handler e = Normal r) ->
  exists r, try_except body handler = Normal r.
Proof.
  intros Hb Hh. destruct body as [x|e]; simpl; eauto.
Qed.

Ltac boundary :=
  apply try_except_normal;
  [ intros x Hx | intros e; eexists; reflexivity ].

Lemma survival_direct_total df :
  exists r, _create_survival_chart_direct df = Normal r.
Proof.
  unfold _create_survival_chart_direct. boundary.
  destruct (negb (has_column "Survived" df)); [injection Hx as <-; eauto|].
  destruct (getitem df "Survived"); simpl in Hx; [|discriminate].
  injection Hx as <-; eauto.
Qed.

Lemma age_direct_total df :
  exists r, _create_age_chart_direct df = Normal r.
Proof.
  unfold _create_age_chart_direct. boundary.
  destruct (negb (has_column "Age" df)); [injection Hx as <-; eauto|].
  destruct (getitem df "Age"); simpl in Hx; [|discriminate].
  injection Hx as <-; eauto.
Qed.

Lemma class_direct_total df :
  exists r, _create_class_chart_direct df = Normal r.
Proof.
  unfold _create_class_chart_direct. boundary.
  destruct (negb (has_column "Pclass" df)); [injection Hx as <-; eauto|].
  destruct (getitem df "Pclass"); simpl in Hx; [|discriminate].
  destruct (sort_index _); simpl in Hx; [|discriminate].
  injection Hx as <-; eauto.
Qed.

Lemma gender_direct_total df :
  exists r, _create_gender_chart_direct df = Normal r.
Proof.
  unfold _create_gender_chart_direct. boundary.
  destruct (negb (has_column "Sex" df)); [injection Hx as <-; eauto|].
  destruct (getitem df "Sex"); simpl in Hx; [|discriminate].
  injection Hx as <-; eauto.
Qed.

Lemma ai_chart_total df q :
  exists r, _generate_ai_chart df q = Normal r.
Proof.
  unfold _generate_ai_chart. boundary.
  assert (Hdef : forall x,
    match select_dtypes is_object df with
    | [] => Normal (Normal (ErrorPayload
              "Could not determine what chart to create from your request"))
    | col :: _ =>
        chart_data <- bar_of_counts df col ;;
        Normal (Normal (ChartPayload chart_data))
    end = Normal x -> exists r, x = Normal r).
  { intros y Hy. destruct (select_dtypes is_object df).
    - injection Hy as <-; eauto.
    - destruct (bar_of_counts df s); simpl in Hy; [|discriminate].
      injection Hy as <-; eauto. }
  cbv zeta in Hx.
  destruct (contains "histogram" (lower q) || contains "distribution" (lower q)).
  - destruct (truthy _); [|eauto].
    destruct (pick_target _ _); [|eauto].
    destruct (getitem df s); simpl in Hx; [|discriminate].
    injection Hx as <-; eauto.
  - destruct (contains "bar" (lower q) || contains "count" (lower q)); [|eauto].
    destruct (truthy _); [|eauto].
    destruct (pick_target _ _); [|eauto].
    destruct (bar_of_counts df s); simpl in Hx; [|discriminate].
    injection Hx as <-; eauto.
Qed.

Lemma chart_response_total df q history :
  exists r, _generate_chart_response df q history = Normal r.
Proof.
  unfold _generate_chart_response. boundary. cbv zeta in Hx.
  repeat match type of Hx with
         | (if ?c then _ else _) = _ => destruct c
         end;
  [ destruct (survival_direct_total df) as [r Hr]
  | destruct (age_direct_total df) as [r Hr]
  | destruct (class_direct_total df) as [r Hr]
  | destruct (gender_direct_total df) as [r Hr]
  | destruct (ai_chart_total df q) as [r Hr] ];
  rewrite Hr in Hx; simpl in Hx; injection Hx as <-; eauto.
Qed.

Lemma text_response_total generate_content df q history :
  exists r, _generate_text_response generate_content df q history = Normal r.
Proof.
  unfold _generate_text_response. boundary. cbv zeta in Hx.
  destruct (generate_content _); simpl in Hx; [|discriminate].
  injection Hx as <-; eauto.
Qed.

Lemma text_response_oracle_raises generate_content df q history :
  (forall prompt, exists e, generate_content prompt = Raise e) ->
  exists e, _generate_text_response generate_content df q history
            = Normal (ErrorPayload ("Failed to generate text response: " ++ e)).
Proof.
  intros H. unfold _generate_text_response. cbv zeta.
  match goal with |- context [generate_content ?p] => destruct (H p) as [e He] end.
  exists e. rewrite He. reflexivity.
Qed.

(** The branch a chart request takes. *)
Lemma chart_response_branch df q history :
  _generate_chart_response df q history
  = let query_lower := lower q in
    if contains "survival" query_lower
       && (contains "chart" query_lower || contains "plot" query_lower)
    then _create_survival_chart_direct df
    else if contains "age" query_lower
       && (contains "distribution" query_lower || contains "chart" query_lower
           || contains "histogram" query_lower)
    then _create_age_chart_direct df
    else if (contains "class" query_lower || contains "pclass" query_lower)
       && (contains "chart" query_lower || contains "bar" query_lower)
    then _create_class_chart_direct df
    else if contains "gender" query_lower || contains "sex" query_lower
    then _create_gender_chart_direct df
    else _generate_ai_chart df q.
Proof.
  unfold _generate_chart_response. cbv zeta.
  destruct (contains "survival" _ && _).
  { destruct (survival_direct_total df) as [r ->]. reflexivity. }
  destruct (contains "age" _ && _).
  { destruct (age_direct_total df) as [r ->]. reflexivity. }
  destruct ((contains "class" _ || _) && _).
  { destruct (class_direct_total df) as [r ->]. reflexivity. }
  destruct (contains "gender" _ || _).
  { destruct (gender_direct_total df) as [r ->]. reflexivity. }
  destruct (ai_chart_total df q) as [r ->]. reflexivity.
Qed.

Lemma chart_intent_response generate_content df q history :
  _determine_user_intent q = "chart" ->
  generate_chart generate_content df q history
  = _generate_chart_response df q history.
Proof.
  intros I. unfold generate_chart. cbv zeta. rewrite I. cbn [String.eqb].
  change (String.eqb "chart" "chart") with true. cbv iota.
  destruct (chart_response_total df q history) as [r ->]. reflexivity.
Qed.

Lemma text_intent_response generate_content df q history :
  _determine_user_intent q = "text" ->
  generate_chart generate_content df q history
  = _generate_text_response generate_content df q history.
Proof.
  intros I. unfold generate_chart. cbv zeta. rewrite I.
  change (String.eqb "text" "chart") with false. cbv iota.
  destruct (text_response_total generate_content df q history) as [r ->].
  reflexivity.
Qed.

(** What the text path returns: the oracle's answer, stripped, or the
    error payload with the message of the oracle's exception. *)
Lemma text_response_of_oracle generate_content df q history :
  exists prompt,
    _generate_text_response generate_content df q history
    = Normal match generate_content prompt with
             | Normal answer => TextAnswer (strip answer)
             | Raise e => ErrorPayload ("Failed to generate text response: " ++ e)
             end.
Proof.
  unfold _generate_text_response. cbv zeta.
  match goal with |- context [generate_content ?p] => exists p end.
  now destruct (generate_content _).
Qed.

(** What the class branch returns when the class labels cannot be
    sorted: the error payload with the message of the exception. *)
Lemma class_direct_sort_raises df pclass e :
  getitem df "Pclass" = Normal pclass ->
  sort_index (value_counts pclass) = Raise e ->
  _create_class_chart_direct df
  = Normal (ErrorPayload ("Failed to create class chart: " ++ e)).
Proof.
  intros Hg Hs. unfold _create_class_chart_direct.
  assert (Hc : has_column "Pclass" df = true)
    by (apply has_column_getitem; now exists pclass).
  rewrite Hc, Hg. cbn [negb bind]. rewrite Hs. reflexivity.
Qed.

(** A genuine exception inside a chart branch: class labels of both
    kinds cannot be sorted, and the branch answers with an error payload. *)
Example class_chart_mixed_labels :
  exists e,
    sort_index
      (value_counts (mkSeries "Pclass" Object [Samples.str "first"; Samples.num 3]))
    = Raise e
    /\ generate_chart Samples.offline
         (mkDF 2 [mkSeries "Pclass" Object [Samples.str "first"; Samples.num 3]])
         "bar chart by class" []
       = Normal (ErrorPayload ("Failed to create class chart: " ++ e)).
Proof. eexists. split; reflexivity. Qed.




(** C5. "Show me a histogram of Age" on a table with a column [Age] is
    answered by the direct age template, not by the generic fallback:
    the histogram's x data are the non-null cells of [Age], in order. *)
Theorem C5_age_histogram_direct
    (generate_content : text -> outcome string)
    (df : DataFrame) (history : list ChatMessage) (age : Series) :
  getitem df "Age" = Normal age ->
  generate_chart generate_content df "Show me a histogram of Age" history
  = Normal (ChartPayload
      (mkChart [Histogram (dropna age) 30]
               "Age Distribution" (Some "Age (years)") (Some "Count")))
  /\ _generate_chart_response df "Show me a histogram of Age" history
     = _create_age_chart_direct df
  /\ map Some (dropna age) = filter notna (s_values age).
Proof.
  intros Hage.
  assert (Hcol : has_column "Age" df = true) by (apply has_column_getitem; eauto).
  assert (Hdirect : _create_age_chart_direct df
    = Normal (ChartPayload
        (mkChart [Histogram (dropna age) 30]
                 "Age Distribution" (Some "Age (years)") (Some "Count")))).
  { unfold _create_age_chart_direct. now rewrite Hcol, Hage. }
  assert (Hroute : _generate_chart_response df "Show me a histogram of Age" history
                   = _create_age_chart_direct df).
  { unfold _generate_chart_response. cbv zeta.
    change (lower "Show me a histogram of Age") with "show me a histogram of age".
    change (contains "survival" "show me a histogram of age") with false.
    change (contains "age" "show me a histogram of age") with true.
    change (contains "histogram" "show me a histogram of age") with true.
    rewrite orb_true_r. simpl. now rewrite Hdirect. }
  repeat split; auto.
  - unfold generate_chart. cbv zeta.
    change (_determine_user_intent "Show me a histogram of Age") with "chart".
    simpl. now rewrite Hroute, Hdirect.
  - apply dropna_notna.
Qed.

Lemma C5_age_fare_table :
  generate_chart Samples.offline Samples.age_fare "Show me a histogram of Age" []
  = Normal (ChartPayload
      (mkChart [Histogram [SNum 22; SNum (5 # 2); SNum 54] 30]
               "Age Distribution" (Some "Age (years)") (Some "Count"))).
Proof.
  exact (proj1 (C5_age_histogram_direct Samples.offline Samples.age_fare []
                  (mkSeries "Age" Float64
                     [Samples.num 22; None; Some (SNum (5 # 2)); Samples.num 54])
                  eq_refl)).
Defined.

Lemma ai_chart_lower df q q' :
  lower q' = lower q -> _generate_ai_chart df q' = _generate_ai_chart df q.
Proof. intros H. unfold _generate_ai_chart. now rewrite H. Qed.

Lemma chart_response_lower df q q' history history' :
  lower q' = lower q ->
  _generate_chart_response df q' history' = _generate_chart_response df q history.
Proof.
  intros H. unfold _generate_chart_response.
  now rewrite H, (ai_chart_lower df q q' H).
Qed.

Lemma missing_column_error name df :
  ~ In name (columns df) -> negb (has_column name df) = true.
Proof. intros H. apply has_column_false in H. now rewrite H. Qed.

(** C10. The direct templates look their column up under its exact
    name: on a table with no column named [Survived] (respectively [Age],
    [Pclass], [Sex]), whatever other names it has, the query that
    selects the template gets the "data not found" error payload; the
    query itself is matched in lower case only. *)
Theorem C10_column_names_are_case_sensitive
    (df : DataFrame) (user_query : string) (history : list ChatMessage) :
  let q := lower user_query in
  let survival_q :=
    contains "survival" q && (contains "chart" q || contains "plot" q) in
  let age_q :=
    contains "age" q
    && (contains "distribution" q || contains "chart" q || contains "histogram" q) in
  let class_q :=
    (contains "class" q || contains "pclass" q)
    && (contains "chart" q || contains "bar" q) in
  let gender_q := contains "gender" q || contains "sex" q in
  (~ In "Survived" (columns df) -> survival_q = true ->
     _generate_chart_response df user_query history
     = Normal (ErrorPayload "Survival data not found in this dataset"))
  /\ (~ In "Age" (columns df) -> survival_q = false -> age_q = true ->
     _generate_chart_response df user_query history
     = Normal (ErrorPayload "Age data not found in this dataset"))
  /\ (~ In "Pclass" (columns df) ->
     survival_q = false -> age_q = false -> class_q = true ->
     _generate_chart_response df user_query history
     = Normal (ErrorPayload "Passenger class data not found in this dataset"))
  /\ (~ In "Sex" (columns df) ->
     survival_q = false -> age_q = false -> class_q = false -> gender_q = true ->
     _generate_chart_response df user_query history
     = Normal (ErrorPayload "Gender data not found in this dataset"))
  /\ (forall q', lower q' = lower user_query ->
     _generate_chart_response df q' history
     = _generate_chart_response df user_query history).
Proof.
  cbv zeta. repeat split.
  - intros Hcol Hs. unfold _generate_chart_response. cbv zeta. rewrite Hs.
    unfold _create_survival_chart_direct.
    now rewrite (missing_column_error "Survived" df Hcol).
  - intros Hcol Hs Ha. unfold _generate_chart_response. cbv zeta. rewrite Hs, Ha.
    unfold _create_age_chart_direct.
    now rewrite (missing_column_error "Age" df Hcol).
  - intros Hcol Hs Ha Hc. unfold _generate_chart_response. cbv zeta.
    rewrite Hs, Ha, Hc. unfold _create_class_chart_direct.
    now rewrite (missing_column_error "Pclass" df Hcol).
  - intros Hcol Hs Ha Hc Hg. unfold _generate_chart_response. cbv zeta.
    rewrite Hs, Ha, Hc, Hg. unfold _create_gender_chart_direct.
    now rewrite (missing_column_error "Sex" df Hcol).
  - intros q' H. now apply chart_response_lower.
Qed.

Lemma not_in_columns name df :
  has_column name df = false -> ~ In name (columns df).
Proof. apply has_column_false. Defined.

(** The table with the columns [survived], [age], [pclass], [sex]:
    every direct template reports its data as not found. *)
Lemma C10_lower_case_columns :
  _generate_chart_response Samples.lower_case_names "SURVIVAL Chart" []
  = Normal (ErrorPayload "Survival data not found in this dataset")
  /\ _generate_chart_response Samples.lower_case_names "Age histogram" []
     = Normal (ErrorPayload "Age data not found in this dataset")
  /\ _generate_chart_response Samples.lower_case_names "bar of Pclass" []
     = Normal (ErrorPayload "Passenger class data not found in this dataset")
  /\ _generate_chart_response Samples.lower_case_names "plot by sex" []
     = Normal (ErrorPayload "Gender data not found in this dataset").
Proof.
  refine (conj _ (conj _ (conj _ _))).
  - exact (proj1 (C10_column_names_are_case_sensitive
                    Samples.lower_case_names "SURVIVAL Chart" [])
             (not_in_columns "Survived" Samples.lower_case_names eq_refl) eq_refl).
  - exact (proj1 (proj2 (C10_column_names_are_case_sensitive
                    Samples.lower_case_names "Age histogram" []))
             (not_in_columns "Age" Samples.lower_case_names eq_refl)
             eq_refl eq_refl).
  - exact (proj1 (proj2 (proj2 (C10_column_names_are_case_sensitive
                    Samples.lower_case_names "bar of Pclass" [])))
             (not_in_columns "Pclass" Samples.lower_case_names eq_refl)
             eq_refl eq_refl eq_refl).
  - exact (proj1 (proj2 (proj2 (proj2 (C10_column_names_are_case_sensitive
                    Samples.lower_case_names "plot by sex" []))))
             (not_in_columns "Sex" Samples.lower_case_names eq_refl)
             eq_refl eq_refl eq_refl eq_refl).
Defined.

(** ** Numbers *)

Lemma truediv_nonzero a b :
  b <> 0%Z -> truediv a b = Fin (inject_Z a / inject_Z b).
Proof.
  intros Hb. unfold truediv. apply Z.eqb_neq in Hb. now rewrite Hb.
Qed.

Lemma Qtrunc_comp p q : p == q -> Qtrunc p = Qtrunc q.
Proof.
  unfold Qeq, Qtrunc. destruct p as [n d], q as [n' d']. simpl. intros H.
  rewrite <- (Z.quot_mul_cancel_r n (Zpos d) (Zpos d')) by lia.
  rewrite <- (Z.quot_mul_cancel_r n' (Zpos d') (Zpos d)) by lia.
  rewrite H. f_equal. lia.
Qed.

Lemma Qle_bool_comp p q p' q' :
  p == p' -> q == q' -> Qle_bool p q = Qle_bool p' q'.
Proof.
  intros Hp Hq. apply eq_true_iff_eq. rewrite !Qle_bool_iff.
  now rewrite Hp, Hq.
Qed.

Lemma Qclamp_comp lo hi p q :
  p == q -> Spec.Qclamp lo hi p == Spec.Qclamp lo hi q.
Proof.
  intros H. unfold Spec.Qclamp.
  rewrite (Qle_bool_comp p lo q lo H (Qeq_refl lo)).
  rewrite (Qle_bool_comp hi p hi q (Qeq_refl hi) H).
  destruct (Qle_bool q lo); [reflexivity|].
  destruct (Qle_bool hi q); [reflexivity | exact H].
Qed.

(** Truncating and then clamping to [0, 100] is clamping and then
    truncating. *)
Lemma clamp_after_trunc q :
  Z.max 0 (Z.min 100 (Qtrunc q)) = Qtrunc (Spec.Qclamp 0 100 q).
Proof.
  unfold Spec.Qclamp.
  destruct (Qle_bool q 0) eqn:H0.
  - apply Qle_bool_iff in H0. unfold Qle in H0. simpl in H0.
    assert (Qtrunc q <= 0)%Z.
    { unfold Qtrunc. change 0%Z with (0 ÷ Zpos (Qden q))%Z.
      apply Z.quot_le_mono; lia. }
    change (Qtrunc 0) with 0%Z. lia.
  - destruct (Qle_bool 100 q) eqn:H1.
    + apply Qle_bool_iff in H1. unfold Qle in H1. simpl in H1.
      assert (100 <= Qtrunc q)%Z.
      { unfold Qtrunc.
        rewrite <- (Z.quot_mul 100 (Zpos (Qden q))) by lia.
        apply Z.quot_le_mono; lia. }
      change (Qtrunc 100) with 100%Z. lia.
    + assert (Hlo : ~ q <= 0) by (rewrite <- Qle_bool_iff; congruence).
      assert (Hhi : ~ 100 <= q) by (rewrite <- Qle_bool_iff; congruence).
      unfold Qle in Hlo, Hhi. simpl in Hlo, Hhi.
      assert (0 <= Qtrunc q <= 100)%Z.
      { unfold Qtrunc. split.
        - apply Z.quot_pos; lia.
        - rewrite <- (Z.quot_mul 100 (Zpos (Qden q))) by lia.
          apply Z.quot_le_mono; lia. }
      lia.
Qed.

(** ** Health score *)

Lemma count_true_map {A} (p : A -> bool) (l : list A) :
  count_true (map p l) = Z.of_nat (List.length (filter p l)).
Proof.
  unfold count_true. f_equal.
  induction l as [|x l IH]; simpl; auto.
  destruct (p x); simpl; now rewrite IH.
Qed.

Lemma select_dtypes_nonempty p df :
  (0 <? List.length (select_dtypes p df))%nat
  = existsb (fun s => p (s_dtype s)) (series df).
Proof.
  unfold select_dtypes. induction (series df) as [|s l IH]; simpl; auto.
  destruct (p (s_dtype s)); simpl; auto.
Qed.

(** On a table with at least one row and one column the code computes
    the score of the specification. *)
Lemma health_score_refines df :
  (0 < n_rows df)%nat -> series df <> [] ->
  _calculate_health_score df = Normal (Spec.health_score df).
Proof.
  intros Hrows Hcols.
  assert (Hc : (0 < List.length (series df))%nat)
    by (destruct (series df); simpl; [congruence | lia]).
  unfold _calculate_health_score, Spec.health_score, shape.
  rewrite !truediv_nonzero by lia.
  rewrite !select_dtypes_nonempty.
  assert (Hheavy :
    count_true (map (fun m => fgt (truediv m (Z.of_nat (n_rows df))) (Fin (1 # 2)))
                    (df_isnull_sum df))
    = Z.of_nat (List.length (filter
        (fun s => negb (Qle_bool (inject_Z (count_null s)
                          / inject_Z (Z.of_nat (n_rows df))) (1 # 2)))
        (series df)))).
  { unfold df_isnull_sum. rewrite map_map, count_true_map. do 2 f_equal.
    apply filter_ext. intros s. rewrite truediv_nonzero by lia. reflexivity. }
  rewrite Hheavy.
  set (heavy := List.length (filter _ (series df))).
  set (mp := (inject_Z (zsum (df_isnull_sum df)) / _)%Q).
  set (dp := (inject_Z (count_true (duplicated df)) / _)%Q).
  destruct (existsb _ _ && existsb _ _); simpl;
    rewrite clamp_after_trunc; f_equal; apply Qtrunc_comp, Qclamp_comp;
    rewrite inject_Z_mult; change (inject_Z 5) with 5%Q; ring.
Qed.

(** Whenever the code returns a score, it lies in [0, 100]. *)
Lemma health_score_range df z :
  _calculate_health_score df = Normal z -> (0 <= z <= 100)%Z.
Proof.
  unfold _calculate_health_score. destruct (shape df) as [rows cols].
  destruct (py_int _); simpl; [|discriminate].
  injection 1 as <-. lia.
Qed.

Lemma zsum_nonneg_zero (l : list Z) :
  Forall (fun z => 0 <= z)%Z l -> zsum l = 0%Z -> Forall (fun z => z = 0%Z) l.
Proof.
  induction 1 as [|z l Hz Hl IH]; simpl; intros Hs; constructor.
  - assert (0 <= zsum l)%Z by (clear -Hl; induction Hl; simpl; lia). lia.
  - apply IH. assert (0 <= zsum l)%Z by (clear -Hl; induction Hl; simpl; lia). lia.
Qed.

(** X2. A table with rows, without a missing value or a repeated row,
    and with a numeric and a categorical column scores exactly 100. *)
Theorem health_score_of_clean_table (df : DataFrame) :
  (0 < n_rows df)%nat ->
  zsum (df_isnull_sum df) = 0%Z ->
  count_true (duplicated df) = 0%Z ->
  existsb (fun s => is_number (s_dtype s)) (series df) = true ->
  existsb (fun s => is_object (s_dtype s)) (series df) = true ->
  _calculate_health_score df = Normal 100%Z.
Proof.
  intros Hrows Hmiss Hdup Hnum Hobj.
  assert (Hcols : series df <> []).
  { destruct (series df); [discriminate | congruence]. }
  rewrite health_score_refines by auto. f_equal.
  unfold Spec.health_score. rewrite Hmiss, Hdup, Hnum, Hobj. simpl andb. cbv iota.
  assert (Hheavy : filter
    (fun s => negb (Qle_bool (inject_Z (count_null s)
                      / inject_Z (Z.of_nat (n_rows df))) (1 # 2)))
    (series df) = []).
  { assert (Hall : Forall (fun z => z = 0%Z) (df_isnull_sum df)).
    { apply zsum_nonneg_zero; auto. unfold df_isnull_sum.
      apply Forall_forall. intros z Hz. apply in_map_iff in Hz.
      destruct Hz as [s [<- _]]. unfold count_null. lia. }
    unfold df_isnull_sum in Hall. rewrite Forall_map in Hall.
    clear -Hall. induction Hall as [|s l Hs Hl IH]; simpl; auto.
    rewrite Hs. unfold Qdiv. rewrite Qmult_0_l. simpl. exact IH. }
  rewrite Hheavy. simpl List.length.
  transitivity (Qtrunc (Spec.Qclamp 0 100 105)); [|reflexivity].
  apply Qtrunc_comp, Qclamp_comp. unfold Qdiv. simpl (inject_Z 0). ring.
Qed.

Lemma health_score_clean_mixed_table :
  _calculate_health_score Samples.clean_mixed = Normal 100%Z.
Proof.
  exact (health_score_of_clean_table Samples.clean_mixed
           (proj1 (Nat.ltb_lt 0 3) eq_refl) eq_refl eq_refl eq_refl eq_refl).
Defined.

(** C2, at a table without rows (a file with a header line only): the
    percentages are 0/0, the score is NaN, and [int(score)] raises
    instead of returning a score in [0, 100]. *)
Theorem C2_health_score_raises_without_rows :
  _calculate_health_score Samples.header_only
  = Raise "cannot convert float NaN to integer".
Proof. reflexivity. Qed.

(** ** Completeness *)

Lemma rint_bounds q : (Qfloor q <= rint q <= Qfloor q + 1)%Z.
Proof.
  unfold rint. cbv zeta. generalize (Qfloor q) as f. intros f.
  destruct (Qcompare _ _); [destruct (Z.even f)| |]; lia.
Qed.

Lemma rint_mono p q : p <= q -> (rint p <= rint q)%Z.
Proof.
  intros Hpq.
  pose proof (Qfloor_resp_le p q Hpq) as Hf.
  pose proof (rint_bounds p) as Bp. pose proof (rint_bounds q) as Bq.
  destruct (Z.eq_dec (Qfloor p) (Qfloor q)) as [E|NE]; [|lia].
  clear Bp Bq Hf. unfold rint. cbv zeta. rewrite E.
  generalize (Qfloor q) as f. intros f.
  destruct (Qcompare_spec (p - inject_Z f) (1 # 2)) as [Hp|Hp|Hp];
  destruct (Qcompare_spec (q - inject_Z f) (1 # 2)) as [Hq|Hq|Hq];
    try (destruct (Z.even f)); try lia; exfalso; lra.
Qed.



Lemma counts_add_up s :
  (count_notna s + count_null s)%Z = Z.of_nat (List.length (s_values s)).
Proof.
  unfold count_notna, count_null, isnull. rewrite <- Nat2Z.inj_add. f_equal.
  induction (s_values s) as [|c l IH]; simpl; auto.
  destruct (notna c); simpl; lia.
Qed.

Lemma cells_add_up df :
  well_formed df ->
  (zsum (df_count df) + zsum (df_isnull_sum df))%Z
  = (Z.of_nat (n_rows df) * Z.of_nat (List.length (series df)))%Z.
Proof.
  unfold well_formed, df_count, df_isnull_sum.
  induction 1 as [|s l Hs Hl IH]; simpl; [lia|].
  pose proof (counts_add_up s). lia.
Qed.


Lemma replace_nth_length {A} i (x : A) l :
  List.length (replace_nth i x l) = List.length l.
Proof.
  revert i. induction l as [|y l IH]; intros [|i]; simpl; auto.
Qed.



Lemma set_null_well_formed df c i :
  well_formed df -> well_formed (Spec.set_null df c i).
Proof.
  unfold well_formed, Spec.set_null.
  destruct (nth_error (series df) c) as [s|] eqn:Hs; auto.
  simpl. intros H. revert c Hs.
  induction H as [|s' l Hs' Hl IH]; intros [|c]; simpl; try discriminate.
  - injection 1 as ->. constructor; [simpl; rewrite replace_nth_length|]; assumption.
  - intros Hs. constructor; auto.
Qed.






Lemma round1_mono p q :
  p <= q -> fle (round1 (Fin p)) (round1 (Fin q)).
Proof.
  intros H. unfold fle, round1, flt, feq.
  assert (Hr : (rint (p * 10) <= rint (q * 10))%Z).
  { apply rint_mono. lra. }
  apply Zle_lt_or_eq in Hr. destruct Hr as [Hr|Hr].
  - left. apply Qmult_lt_r; [reflexivity|]. now rewrite <- Zlt_Qlt.
  - right. now rewrite Hr.
Qed.




Lemma well_formed_check df : well_formedb df = true -> well_formed df.
Proof.
  unfold well_formedb, well_formed. rewrite forallb_forall, Forall_forall.
  intros H s Hs. apply Nat.eqb_eq. now apply H.
Defined.

Lemma nonempty_check {A} (l : list A) : (0 <? List.length l)%nat = true -> l <> [].
Proof. destruct l; [discriminate | intros _; discriminate]. Defined.

Lemma positive_check n : (0 <? n)%nat = true -> (0 < n)%nat.
Proof. apply Nat.ltb_lt. Defined.



(** ** Insight narrator *)

Ltac step_in H :=
  match type of H with
  | context [if ?c then _ else _] => destruct c eqn:?
  | context [bind ?m _] => destruct m eqn:?; simpl bind in H
  | context [match ?m with Normal _ => _ | Raise _ => _ end] => destruct m eqn:?
  end.

Lemma survival_insights_significance df b :
  _survival_insights df = Normal b ->
  statistical_significance b = survival_significance
  \/ statistical_significance b = unavailable.
Proof.
  unfold _survival_insights. intros H.
  repeat step_in H; try discriminate; injection H as <-; auto.
Qed.

Lemma age_insights_significance df b :
  _age_insights df = Normal b ->
  statistical_significance b = age_significance
  \/ statistical_significance b = unavailable.
Proof.
  unfold _age_insights. intros H.
  repeat step_in H; try discriminate; injection H as <-; auto.
Qed.

Lemma gender_insights_significance df b :
  _gender_insights df = Normal b ->
  statistical_significance b = gender_significance
  \/ statistical_significance b = unavailable.
Proof.
  unfold _gender_insights. intros H.
  repeat step_in H; try discriminate; injection H as <-; auto.
Qed.

Lemma numbers_of_numeric l :
  Forall (fun v => is_num v = true) l -> exists qs, numbers l = Normal qs.
Proof.
  induction 1 as [|v l Hv Hl [qs IH]]; simpl; eauto.
  destruct v; [|discriminate]. rewrite IH. simpl. eauto.
Qed.

Lemma drop_nulls_selected (keep : cell -> bool) (keys vals : list cell) v :
  In v (drop_nulls (map snd (filter (fun kc => keep (fst kc)) (combine keys vals)))) ->
  In v (drop_nulls vals).
Proof.
  unfold drop_nulls. rewrite !in_flat_map.
  intros [c [Hc Hv]]. exists c. split; auto.
  apply in_map_iff in Hc. destruct Hc as [[k c'] [<- Hin]].
  apply filter_In in Hin. destruct Hin as [Hin _].
  now apply in_combine_r in Hin.
Qed.

Lemma numbers_selected (keep : cell -> bool) (keys : list cell) (target : Series) :
  Forall (fun v => is_num v = true) (dropna target) ->
  exists qs,
    numbers (drop_nulls (map snd
      (filter (fun kc => keep (fst kc)) (combine keys (s_values target)))))
    = Normal qs.
Proof.
  intros H. apply numbers_of_numeric. rewrite Forall_forall in *.
  intros v Hv. apply H. now apply drop_nulls_selected in Hv.
Qed.

Lemma group_mean_of_numeric key target :
  is_object (s_dtype target) = false ->
  Forall (fun v => is_num v = true) (dropna target) ->
  exists f, group_mean_pct key target = Normal f.
Proof.
  intros Hd Hn. unfold group_mean_pct. rewrite Hd.
  destruct (numbers_selected notna (s_values key) target Hn) as [qs ->].
  simpl. eauto.
Qed.

Lemma mean_of_numeric l :
  Forall (fun v => is_num v = true) (drop_nulls l) -> exists m, mean l = Normal m.
Proof.
  intros H. unfold mean. destruct (numbers_of_numeric _ H) as [qs ->]. simpl. eauto.
Qed.

Lemma median_of_numeric l :
  Forall (fun v => is_num v = true) (drop_nulls l) -> exists m, median l = Normal m.
Proof.
  intros H. unfold median. destruct (numbers_of_numeric _ H) as [qs ->]. simpl. eauto.
Qed.

Lemma where_eq_numeric key (target : Series) k :
  Forall (fun v => is_num v = true) (dropna target) ->
  Forall (fun v => is_num v = true) (drop_nulls (where_eq key target k)).
Proof.
  intros H. rewrite Forall_forall in *. intros v Hv. apply H.
  unfold where_eq in Hv.
  exact (drop_nulls_selected (fun c => cell_eqb c (Some k)) _ _ _ Hv).
Qed.

Lemma survival_insights_complete df :
  Spec.numeric_column "Survived" df ->
  exists b, _survival_insights df = Normal b
            /\ statistical_significance b = survival_significance.
Proof.
  intros [surv [Hg [Hd Hn]]].
  assert (Hc : has_column "Survived" df = true) by (apply has_column_getitem; eauto).
  unfold _survival_insights. rewrite Hc, Hg. simpl.
  destruct (has_column "Pclass" df) eqn:Hp; simpl; [|eauto].
  apply has_column_getitem in Hp. destruct Hp as [pclass ->]. simpl.
  destruct (group_mean_of_numeric pclass surv Hd Hn) as [f ->]. simpl. eauto.
Qed.

Lemma age_insights_complete df :
  Spec.numeric_column "Age" df ->
  (exists age, getitem df "Age" = Normal age /\ dropna age <> []) ->
  exists b, _age_insights df = Normal b
            /\ statistical_significance b = age_significance.
Proof.
  intros [age [Hg [Hd Hn]]] [age' [Hg' Hne]].
  rewrite Hg in Hg'. injection Hg' as <-.
  assert (Hc : has_column "Age" df = true) by (apply has_column_getitem; eauto).
  assert (Hlen : (List.length (dropna age) =? 0)%nat = false)
    by (destruct (dropna age); [congruence | reflexivity]).
  assert (Hvals : Forall (fun v => is_num v = true) (drop_nulls (s_values age)))
    by exact Hn.
  destruct (mean_of_numeric _ Hvals) as [m Hm].
  destruct (median_of_numeric _ Hvals) as [md Hmd].
  destruct (numbers_of_numeric _ Hn) as [qs Hqs].
  unfold _age_insights. rewrite Hc, Hg. cbn [negb bind]. rewrite Hlen, Hm, Hmd, Hqs.
  cbn [bind].
  destruct (has_column "Survived" df) eqn:Hs; [|cbn [bind]; eauto].
  apply has_column_getitem in Hs. destruct Hs as [surv ->]. cbn [bind].
  destruct (_ && _); [|cbn [bind]; eauto].
  destruct (mean_of_numeric _ (where_eq_numeric surv age (SNum 1) Hn)) as [m1 ->].
  destruct (mean_of_numeric _ (where_eq_numeric surv age (SNum 0) Hn)) as [m0 ->].
  cbn [bind]. eauto.
Qed.

Lemma gender_insights_complete df :
  (exists sex, getitem df "Sex" = Normal sex
     /\ (count_eq sex (SStr "male") + count_eq sex (SStr "female") <> 0)%Z) ->
  (has_column "Survived" df = true -> Spec.numeric_column "Survived" df) ->
  exists b, _gender_insights df = Normal b
            /\ statistical_significance b = gender_significance.
Proof.
  intros [sex [Hg Hcount]] Hsurv.
  assert (Hc : has_column "Sex" df = true) by (apply has_column_getitem; eauto).
  unfold _gender_insights. rewrite Hc, Hg. simpl.
  rewrite !get_value_counts.
  apply Z.eqb_neq in Hcount. rewrite Hcount.
  destruct (has_column "Survived" df) eqn:Hs; simpl; [|eauto].
  destruct (Hsurv eq_refl) as [surv [-> [Hd Hn]]]. simpl.
  destruct (group_mean_of_numeric sex surv Hd Hn) as [f ->]. simpl. eauto.
Qed.

(** C8, as the code has it. The narrator the profiling engine uses
    reports in [statistical_significance] one of five fixed values: the
    descriptive statement of the chart's category, or "Unable to
    calculate due to data issues"; on a table with the columns the
    category needs, holding numbers, it is the category's statement. No
    value of the table enters the field. *)
Theorem C8_significance_is_a_fixed_statement (df : DataFrame) (chart_type : string) :
  let reported := statistical_significance (generate_chart_insights df chart_type) in
  (reported = unavailable
   \/ (chart_type = "survival_analysis" /\ reported = survival_significance)
   \/ (chart_type = "age_analysis" /\ reported = age_significance)
   \/ (chart_type = "gender_analysis" /\ reported = gender_significance)
   \/ (chart_type <> "survival_analysis" /\ chart_type <> "age_analysis"
       /\ chart_type <> "gender_analysis" /\ reported = generic_significance))
  /\ (Spec.numeric_column "Survived" df ->
      statistical_significance (generate_chart_insights df "survival_analysis")
      = survival_significance)
  /\ (Spec.numeric_column "Age" df ->
      (exists age, getitem df "Age" = Normal age /\ dropna age <> []) ->
      statistical_significance (generate_chart_insights df "age_analysis")
      = age_significance)
  /\ ((exists sex, getitem df "Sex" = Normal sex
         /\ (count_eq sex (SStr "male") + count_eq sex (SStr "female") <> 0)%Z) ->
      (has_column "Survived" df = true -> Spec.numeric_column "Survived" df) ->
      statistical_significance (generate_chart_insights df "gender_analysis")
      = gender_significance).
Proof.
  cbv zeta. split; [|split; [|split]].
  - unfold generate_chart_insights.
    destruct (String.eqb_spec chart_type "survival_analysis") as [->|N1].
    { destruct (_survival_insights df) as [b|e] eqn:H; simpl; auto.
      destruct (survival_insights_significance df b H); auto. }
    destruct (String.eqb_spec chart_type "age_analysis") as [->|N2].
    { destruct (_age_insights df) as [b|e] eqn:H; simpl; auto.
      destruct (age_insights_significance df b H); auto 6. }
    destruct (String.eqb_spec chart_type "gender_analysis") as [->|N3].
    { destruct (_gender_insights df) as [b|e] eqn:H; simpl; auto.
      destruct (gender_insights_significance df b H); auto 7. }
    simpl. right. right. right. right. repeat split; auto.
  - intros H. destruct (survival_insights_complete df H) as [b [Hb Hs]].
    unfold generate_chart_insights. simpl. now rewrite Hb.
  - intros H1 H2. destruct (age_insights_complete df H1 H2) as [b [Hb Hs]].
    unfold generate_chart_insights. simpl. now rewrite Hb.
  - intros H1 H2. destruct (gender_insights_complete df H1 H2) as [b [Hb Hs]].
    unfold generate_chart_insights. simpl. now rewrite Hb.
Qed.

(** C8 as stated fails: on two tables with the required columns, one in
    which the class decides survival and one in which it has no bearing
    on it, the survival analyzer reports the same descriptive statement,
    and the age analyzer's field names no normality test and no
    two-sample comparison. *)
Lemma C8_no_test_is_computed :
  statistical_significance
    (generate_chart_insights Samples.class_decides "survival_analysis")
  = SigDict "Descriptive analysis of survival by passenger class"
            "Significant patterns detected"
            "Passenger class strongly correlates with survival probability"
  /\ statistical_significance
       (generate_chart_insights Samples.class_irrelevant "survival_analysis")
     = SigDict "Descriptive analysis of survival by passenger class"
               "Significant patterns detected"
               "Passenger class strongly correlates with survival probability"
  /\ statistical_significance
       (generate_chart_insights Samples.passengers "age_analysis")
     = SigDict "Age distribution and survival analysis"
               "Clear age-related survival patterns"
               "Children prioritized in evacuation ('women and children first')".
Proof. repeat split. Qed.

(** ** Objects: what a computation leaves in place *)

Lemma extends_refl h : extends h h.
Proof. exists []. now rewrite app_nil_r. Qed.

Lemma extends_lookup h0 h r d :
  extends h0 h -> nth_error h0 r = Some d -> nth_error h r = Some d.
Proof.
  intros [ext ->] H. rewrite nth_error_app1; auto.
  apply nth_error_Some. congruence.
Qed.

Lemma runs_keeps {A} h0 (m : M A) Q : runs h0 m Q -> keeps h0 m Q.
Proof.
  intros H h Hh. destruct (H h Hh) as [He [a [Ha Hq]]]. split; auto.
  intros a' Ha'. congruence.
Qed.

Lemma keeps_weaken {A} h0 (m : M A) (P Q : A -> Prop) :
  keeps h0 m P -> (forall a, P a -> Q a) -> keeps h0 m Q.
Proof.
  intros H HPQ h Hh. destruct (H h Hh) as [He Hp]. split; auto.
Qed.

Lemma runs_weaken {A} h0 (m : M A) (P Q : A -> Prop) :
  runs h0 m P -> (forall a, P a -> Q a) -> runs h0 m Q.
Proof.
  intros H HPQ h Hh. destruct (H h Hh) as [He [a [Ha Hp]]]. split; eauto.
Qed.

Lemma keeps_ret {A} h0 (a : A) (Q : A -> Prop) : Q a -> keeps h0 (ret a) Q.
Proof. intros Hq h Hh. simpl. split; auto. intros a' [= <-]. exact Hq. Qed.

Lemma runs_ret {A} h0 (a : A) (Q : A -> Prop) : Q a -> runs h0 (ret a) Q.
Proof. intros Hq h Hh. simpl. split; eauto. Qed.

Lemma keeps_bind {A B} h0 (m : M A) (k : A -> M B) (P : A -> Prop) Q :
  keeps h0 m P -> (forall a, P a -> keeps h0 (k a) Q) ->
  keeps h0 (mbind m k) Q.
Proof.
  intros Hm Hk h Hh. unfold mbind.
  destruct (Hm h Hh) as [He Hp]. destruct (m h) as [[a|e] h1]; simpl in *.
  - apply (Hk a (Hp a eq_refl) h1 He).
  - split; auto. discriminate.
Qed.

Lemma runs_bind {A B} h0 (m : M A) (k : A -> M B) (P : A -> Prop) Q :
  runs h0 m P -> (forall a, P a -> runs h0 (k a) Q) ->
  runs h0 (mbind m k) Q.
Proof.
  intros Hm Hk h Hh. unfold mbind.
  destruct (Hm h Hh) as [He [a [Ha Hp]]].
  destruct (m h) as [o h1]; simpl in *. subst o.
  apply (Hk a Hp h1 He).
Qed.

Lemma keeps_lift {A} h0 (o : outcome A) :
  keeps h0 (lift o) (fun a => o = Normal a).
Proof. intros h Hh. simpl. split; auto. Qed.

Lemma runs_lift {A} h0 (o : outcome A) a (Q : A -> Prop) :
  o = Normal a -> Q a -> runs h0 (lift o) Q.
Proof. intros -> Hq h Hh. simpl. split; eauto. Qed.

Lemma keeps_try {A} h0 (body : M A) handler (Q : A -> Prop) :
  keeps h0 body Q -> (forall e, keeps h0 (handler e) Q) ->
  keeps h0 (try_M body handler) Q.
Proof.
  intros Hb Hh h He. unfold try_M.
  destruct (Hb h He) as [He1 Hq]. destruct (body h) as [[a|e] h1]; simpl in *.
  - split; auto.
  - apply (Hh e h1 He1).
Qed.

Lemma runs_try {A} h0 (body : M A) handler (Q : A -> Prop) :
  keeps h0 body Q -> (forall e, runs h0 (handler e) Q) ->
  runs h0 (try_M body handler) Q.
Proof.
  intros Hb Hh h He. unfold try_M.
  destruct (Hb h He) as [He1 Hq]. destruct (body h) as [[a|e] h1]; simpl in *.
  - split; eauto.
  - apply (Hh e h1 He1).
Qed.

Lemma keeps_deref h0 r : keeps h0 (deref r) (fun _ => True).
Proof.
  intros h Hh. unfold deref. destruct (nth_error h r); simpl; auto.
Qed.

(** Reading an object of [h0] gives the table it held in [h0]. *)
Lemma runs_deref h0 r d :
  nth_error h0 r = Some d -> runs h0 (deref r) (fun x => x = d).
Proof.
  intros H h Hh. unfold deref. rewrite (extends_lookup h0 h r d Hh H).
  simpl. eauto.
Qed.

(** A copy is a new object. *)
Lemma keeps_copy h0 r :
  keeps h0 (df_copy r) (fun tmp => (List.length h0 <= tmp)%nat).
Proof.
  intros h [ext ->]. unfold df_copy, mbind, deref, alloc.
  destruct (nth_error (h0 ++ ext) r) as [d|]; simpl.
  - split.
    + exists (ext ++ [d])%list. now rewrite app_assoc.
    + intros a [= <-]. rewrite length_app. lia.
  - split; [now exists ext | discriminate].
Qed.

Lemma replace_nth_app_r {A} (l1 l2 : list A) n x :
  (List.length l1 <= n)%nat ->
  replace_nth n x (l1 ++ l2) = (l1 ++ replace_nth (n - List.length l1) x l2)%list.
Proof.
  revert n. induction l1 as [|y l1 IH]; intros n Hn; simpl.
  - now rewrite Nat.sub_0_r.
  - destruct n as [|n]; simpl in *; [lia|]. rewrite IH by lia. reflexivity.
Qed.

(** Assigning a column of a new object leaves the objects of [h0]. *)
Lemma keeps_setitem h0 r name dt values :
  (List.length h0 <= r)%nat ->
  keeps h0 (df_setitem r name dt values) (fun _ => True).
Proof.
  intros Hr h [ext ->]. unfold df_setitem.
  destruct (nth_error (h0 ++ ext) r) as [d|]; simpl.
  - split; auto. rewrite replace_nth_app_r by auto. eexists. reflexivity.
  - split; auto. now exists ext.
Qed.

Lemma runs_for_each {A B} h0 (f : A -> M (option B)) (l : list A) (P : B -> Prop) :
  (forall x, In x l -> runs h0 (f x) (fun o => forall b, o = Some b -> P b)) ->
  runs h0 (for_each f l) (Forall P).
Proof.
  induction l as [|x l IH]; intros Hf; simpl.
  - apply runs_ret. constructor.
  - eapply runs_bind; [apply Hf; now left|]. intros o Ho.
    eapply runs_bind; [apply IH; intros y Hy; apply Hf; now right|].
    intros cs Hcs. apply runs_ret.
    destruct o as [b|]; auto.
Qed.

(** One step of a frame proof. *)
Ltac keep :=
  lazymatch goal with
  | |- keeps _ (mbind (df_copy _) _) _ =>
      eapply keeps_bind; [apply keeps_copy | intros ? ?]
  | |- keeps _ (mbind (deref _) _) _ =>
      eapply keeps_bind; [apply keeps_deref | intros ? _]
  | |- keeps _ (mbind (lift _) _) _ =>
      eapply keeps_bind; [apply keeps_lift | intros ? ?]
  | |- keeps _ (mbind (df_setitem _ _ _ _) _) _ =>
      eapply keeps_bind; [apply keeps_setitem; assumption | intros ? _]
  | |- keeps _ (mbind (if ?c then _ else _) _) _ => destruct c eqn:?
  | |- keeps _ (mbind (ret _) _) _ =>
      eapply keeps_bind with (P := fun _ => True);
      [apply keeps_ret; exact I | intros ? _]
  | |- keeps _ (ret _) _ => apply keeps_ret
  end.

(** ** Chart catalogue *)

Lemma keeps_lift_any {A} h0 (o : outcome A) : keeps h0 (lift o) (fun _ => True).
Proof. intros h Hh. simpl. split; auto. Qed.

Ltac keep_all :=
  repeat first
    [ keep
    | lazymatch goal with
      | |- keeps _ (lift _) _ => apply keeps_lift_any
      | |- keeps _ (mbind _ _) _ =>
          eapply keeps_bind with (P := fun _ => True);
          [solve [keep_all] | intros ? _]
      | |- keeps _ (if ?c then _ else _) _ => destruct c eqn:?
      end ].

Lemma age_chart_runs h0 df :
  runs h0 (_create_age_distribution_chart df)
       (fun c => forall e, c = Some e -> c_type e = "age_analysis").
Proof.
  unfold _create_age_distribution_chart. apply runs_try.
  - keep_all; intros e [= <-]; reflexivity.
  - intros e. apply runs_ret. discriminate.
Qed.

Lemma family_chart_runs h0 df :
  runs h0 (_create_family_analysis_chart df)
       (fun c => forall e, c = Some e -> c_type e = "family_analysis").
Proof.
  unfold _create_family_analysis_chart. apply runs_try.
  - keep_all; intros e [= <-]; reflexivity.
  - intros e. apply runs_ret. discriminate.
Qed.

Lemma or_none_some {A} (body : outcome A) c :
  or_none body = Some c -> body = Normal c.
Proof.
  unfold or_none. destruct body; simpl; [now intros [= ->] | discriminate].
Qed.

Ltac entry_type H :=
  apply or_none_some in H;
  repeat step_in H; try discriminate; injection H as <-; reflexivity.

Lemma overview_type df_sample d c :
  _create_data_overview_chart df_sample d = Some c -> c_type c = "overview".
Proof. unfold _create_data_overview_chart. intros H. entry_type H. Qed.

Lemma survival_type d c :
  _create_survival_analysis_chart d = Some c -> c_type c = "survival_analysis".
Proof. unfold _create_survival_analysis_chart. intros H. entry_type H. Qed.

Lemma class_type d c :
  _create_class_analysis_chart d = Some c -> c_type c = "class_analysis".
Proof. unfold _create_class_analysis_chart. intros H. entry_type H. Qed.

Lemma gender_type d c :
  _create_gender_analysis_chart d = Some c -> c_type c = "gender_analysis".
Proof.
  unfold _create_gender_analysis_chart, gender_traces. intros H. entry_type H.
Qed.

Lemma fare_type d c :
  _create_fare_analysis_chart d = Some c -> c_type c = "fare_analysis".
Proof. unfold _create_fare_analysis_chart. intros H. entry_type H. Qed.

Lemma embarkation_type d c :
  _create_embarkation_analysis_chart d = Some c ->
  c_type c = "embarkation_analysis".
Proof. unfold _create_embarkation_analysis_chart. intros H. entry_type H. Qed.

Lemma categorical_type d col i c :
  _create_premium_categorical_chart d col i = Some c -> c_type c = "categorical".
Proof. unfold _create_premium_categorical_chart. intros H. entry_type H. Qed.

Lemma correlation_type d cols c :
  _create_premium_correlation_heatmap d cols = Some c -> c_type c = "correlation".
Proof. unfold _create_premium_correlation_heatmap. intros H. entry_type H. Qed.

Lemma premium_histogram_entry d col i c :
  _create_premium_histogram d col i = Some c ->
  exists s, getitem d col = Normal s
            /\ c_type c = "histogram"
            /\ c_title c = "📈 Distribution of " ++ col
            /\ c_data c = [Histogram (dropna s) 30].
Proof.
  unfold _create_premium_histogram. intros H. apply or_none_some in H.
  destruct (getitem d col) as [s|]; simpl in H; [|discriminate].
  exists s. repeat step_in H; try discriminate. injection H as <-. auto.
Qed.

Lemma fare_chart_built d fare :
  getitem d "Fare" = Normal fare ->
  _create_fare_analysis_chart d = Some (Spec.fare_entry d fare).
Proof. intros H. unfold _create_fare_analysis_chart. now rewrite H. Qed.

Lemma in_when b o c : In c (when b o) -> o = Some c.
Proof.
  unfold when. destruct b; [|contradiction].
  destruct o; simpl; [|contradiction]. intros [->|[]]. reflexivity.
Qed.

Lemma numeric_column_exists d col :
  In col (select_dtypes is_number d) -> exists s, getitem d col = Normal s.
Proof.
  intros H. apply has_column_getitem. unfold has_column, columns.
  apply existsb_exists. exists col. split; [|apply String.eqb_refl].
  unfold select_dtypes in H. apply in_map_iff in H. destruct H as [s [<- Hs]].
  apply in_map. apply filter_In in Hs. tauto.
Qed.

Lemma object_column_exists d col :
  In col (select_dtypes is_object d) -> exists s, getitem d col = Normal s.
Proof.
  intros H. apply has_column_getitem. unfold has_column, columns.
  apply existsb_exists. exists col. split; [|apply String.eqb_refl].
  unfold select_dtypes in H. apply in_map_iff in H. destruct H as [s [<- Hs]].
  apply in_map. apply filter_In in Hs. tauto.
Qed.

Lemma in_enumerate {A} (l : list A) i x : In (i, x) (enumerate l) -> In x l.
Proof. unfold enumerate. apply in_combine_r. Qed.

Lemma count_notna_dropna s :
  (0 < count_notna s)%Z -> dropna s <> [].
Proof.
  unfold count_notna. rewrite <- dropna_notna, length_map.
  destruct (dropna s); simpl; [lia | discriminate].
Qed.

(** The catalogue is always built, leaves every object in place, holds
    under the type "histogram" plain histograms of filled numeric columns
    only, and holds the fare chart whenever the table has a column
    [Fare]. *)
Lemma premium_charts_run df_sample h0 df d :
  nth_error h0 df = Some d ->
  runs h0 (_generate_premium_charts df_sample df)
    (fun cs =>
       (forall c, In c cs -> c_type c = "histogram" -> Spec.plain_histogram_of d c)
       /\ (forall fare, getitem d "Fare" = Normal fare ->
           In (Spec.fare_entry d fare) cs)).
Proof.
  intros Hd. unfold _generate_premium_charts.
  eapply runs_bind; [apply runs_deref; exact Hd|]. intros ? ->. cbv zeta.
  eapply runs_bind with (P := Forall (fun c => c_type c = "age_analysis")).
  { destruct (has_column "Age" d).
    - eapply runs_bind; [apply age_chart_runs|]. intros c Hc. apply runs_ret.
      destruct c; simpl; constructor; auto.
    - apply runs_ret. constructor. }
  intros age Hage.
  eapply runs_bind; [apply runs_deref; exact Hd|]. intros ? ->.
  eapply runs_bind with (P := Forall (fun c => c_type c = "family_analysis")).
  { destruct (has_column "SibSp" d && has_column "Parch" d).
    - eapply runs_bind; [apply family_chart_runs|]. intros c Hc. apply runs_ret.
      destruct c; simpl; constructor; auto.
    - apply runs_ret. constructor. }
  intros family Hfamily.
  eapply runs_bind with
    (P := Forall (fun c => c_type c = "histogram" /\ Spec.plain_histogram_of d c)).
  { apply runs_for_each. intros [i col] Hin. apply in_enumerate in Hin.
    destruct (negb (mem col covered_numeric)); [|apply runs_ret; discriminate].
    eapply runs_bind; [apply runs_deref; exact Hd|]. intros ? ->.
    destruct (numeric_column_exists d col Hin) as [s Hs].
    eapply runs_bind; [apply (runs_lift h0 _ s (fun x => x = s) Hs eq_refl)|].
    intros ? ->.
    destruct (count_notna s >? 0)%Z eqn:Hcount; apply runs_ret; [|discriminate].
    intros b Hb. destruct (premium_histogram_entry d col i b Hb)
      as [s' [Hs' [Ht [Htitle Hdata]]]].
    rewrite Hs in Hs'. injection Hs' as <-.
    apply Z.gtb_lt in Hcount.
    split; auto. exists col, s. repeat split; auto.
    now apply count_notna_dropna. }
  intros histograms Hhist.
  eapply runs_bind with (P := Forall (fun c => c_type c = "categorical")).
  { apply runs_for_each. intros [i col] Hin. apply in_enumerate in Hin.
    destruct (negb (mem col covered_categorical)); [|apply runs_ret; discriminate].
    eapply runs_bind; [apply runs_deref; exact Hd|]. intros ? ->.
    destruct (object_column_exists d col Hin) as [s Hs].
    eapply runs_bind; [apply (runs_lift h0 _ s (fun x => x = s) Hs eq_refl)|].
    intros ? ->.
    destruct (_ && _); apply runs_ret; [|discriminate].
    intros b Hb. now apply categorical_type in Hb. }
  intros categoricals Hcat.
  eapply runs_bind; [apply runs_deref; exact Hd|]. intros ? ->.
  apply runs_ret. split.
  - intros c Hin Htype.
    rewrite Forall_forall in Hage, Hfamily, Hhist, Hcat.
    repeat (apply in_app_or in Hin; destruct Hin as [Hin|Hin]);
      try (apply in_when in Hin);
      try (apply overview_type in Hin); try (apply survival_type in Hin);
      try (apply class_type in Hin); try (apply gender_type in Hin);
      try (apply fare_type in Hin); try (apply embarkation_type in Hin);
      try (apply correlation_type in Hin);
      try (apply Hage in Hin); try (apply Hfamily in Hin);
      try (apply Hcat in Hin);
      try (rewrite Htype in Hin; discriminate).
    apply Hhist in Hin. tauto.
  - intros fare Hfare.
    assert (Hcol : has_column "Fare" d = true) by (apply has_column_getitem; eauto).
    rewrite Hcol, (fare_chart_built d fare Hfare). simpl when.
    do 5 (apply in_or_app; right). apply in_or_app. left. now left.
Qed.

(** C7, as the code has it. The catalogue is built for every table; an
    entry of type "histogram" is the histogram of a numeric column with
    at least one non-null cell, so the loop over the remaining numeric
    columns never shows a column without values; the dedicated fare
    chart is in the catalogue whenever the table has a column [Fare],
    whatever that column holds. *)
Theorem C7_plain_histograms_skip_empty_columns
    (df_sample : nat -> DataFrame -> DataFrame)
    (h : heap) (df : ref) (d : DataFrame) :
  nth_error h df = Some d ->
  exists charts,
    fst (_generate_premium_charts df_sample df h) = Normal charts
    /\ (forall c, In c charts -> c_type c = "histogram" ->
        Spec.plain_histogram_of d c)
    /\ (forall fare, getitem d "Fare" = Normal fare ->
        In (Spec.fare_entry d fare) charts).
Proof.
  intros Hd.
  destruct (premium_charts_run df_sample h df d Hd h (extends_refl h))
    as [_ [charts [Hrun [Hhist Hfare]]]].
  exists charts. auto.
Qed.

Lemma C7_passengers_catalogue :
  exists charts,
    fst (_generate_premium_charts Samples.keep_all 0%nat [Samples.passengers])
    = Normal charts
    /\ (forall c, In c charts -> c_type c = "histogram" ->
        Spec.plain_histogram_of Samples.passengers c)
    /\ (forall fare, getitem Samples.passengers "Fare" = Normal fare ->
        In (Spec.fare_entry Samples.passengers fare) charts).
Proof.
  exact (C7_plain_histograms_skip_empty_columns
           Samples.keep_all [Samples.passengers] 0%nat Samples.passengers eq_refl).
Defined.

(** The column [Weight] of the sample has no value and gets no
    histogram; [SibSp] and [Parch] get theirs. *)
Example passengers_histograms :
  match fst (_generate_premium_charts Samples.keep_all 0%nat [Samples.passengers]) with
  | Normal charts =>
      map c_title (filter (fun c => String.eqb (c_type c) "histogram") charts)
  | Raise _ => []
  end
  = ["📈 Distribution of SibSp"; "📈 Distribution of Parch"].
Proof. vm_compute. reflexivity. Qed.

(** C7 as stated fails: a numeric column [Fare] in which every cell is
    null has no non-null value, and the catalogue holds its histogram,
    drawn over no value. *)
Lemma C7_fare_histogram_of_empty_column :
  exists charts fare,
    fst (_generate_premium_charts Samples.keep_all 0%nat [Samples.fare_all_null])
    = Normal charts
    /\ getitem Samples.fare_all_null "Fare" = Normal fare
    /\ is_number (s_dtype fare) = true
    /\ count_notna fare = 0%Z
    /\ In (Spec.fare_entry Samples.fare_all_null fare) charts
    /\ c_data (Spec.fare_entry Samples.fare_all_null fare) = [Histogram [] 50].
Proof.
  eexists. eexists.
  split; [vm_compute; reflexivity|].
  split; [reflexivity|].
  split; [reflexivity|].
  split; [reflexivity|].
  split; [right; left; reflexivity | reflexivity].
Qed.

(** ** The input table is left as it was *)

Lemma analyze_keeps df_sample key_statistics h0 df d :
  nth_error h0 df = Some d ->
  keeps h0 (analyze_dataframe df_sample key_statistics df) (fun _ => True).
Proof.
  intros Hd. unfold analyze_dataframe.
  keep. keep.
  eapply keeps_bind;
    [apply runs_keeps; apply (premium_charts_run df_sample h0 df d Hd) | intros ? _].
  keep. keep. keep. exact I.
Qed.

(** Where the derived columns go: the age chart and the family chart
    leave the store as it was but for one new object, the copy, which
    holds the table as it was or the table with the column [AgeGroup]
    (respectively [FamilySize]) assigned. *)
Lemma nth_error_last {A} (l : list A) x :
  nth_error (l ++ [x]) (List.length l) = Some x.
Proof. rewrite nth_error_app2 by lia. now rewrite Nat.sub_diag. Qed.

Lemma replace_nth_last {A} (l : list A) x y :
  replace_nth (List.length l) y (l ++ [x]) = (l ++ [y])%list.
Proof. rewrite replace_nth_app_r by lia. now rewrite Nat.sub_diag. Qed.

Lemma lookup_before_last {A} (l : list A) x r d :
  nth_error l r = Some d -> nth_error (l ++ [x]) r = Some d.
Proof.
  intros H. rewrite nth_error_app1; auto. apply nth_error_Some. congruence.
Qed.

Lemma family_chart_copy h df d :
  nth_error h df = Some d ->
  let h' := snd (_create_family_analysis_chart df h) in
  h' = (h ++ [d])%list
  \/ exists sizes, h' = (h ++ [with_column d "FamilySize" Float64 sizes])%list.
Proof.
  intros Hd. unfold _create_family_analysis_chart, df_copy.
  unfold try_M, mbind, deref, alloc, lift, df_setitem, ret. cbv beta zeta.
  rewrite Hd. simpl. rewrite nth_error_last.
  destruct (getitem d "SibSp") as [sibsp|]; simpl; auto.
  destruct (getitem d "Parch") as [parch|]; simpl; auto.
  destruct (family_size _ _) as [sizes|]; simpl; auto.
  rewrite nth_error_last, replace_nth_last, nth_error_last. simpl.
  right. exists sizes.
  destruct (getitem _ "FamilySize"); simpl; auto.
  destruct (sort_index _); simpl; auto.
  rewrite (lookup_before_last h _ df d Hd). reflexivity.
Qed.

Lemma age_chart_copy h df d :
  nth_error h df = Some d ->
  let h' := snd (_create_age_distribution_chart df h) in
  h' = h \/ h' = (h ++ [d])%list
  \/ exists groups, h' = (h ++ [with_column d "AgeGroup" Category groups])%list.
Proof.
  intros Hd. unfold _create_age_distribution_chart, df_copy.
  unfold try_M, mbind, deref, alloc, lift, df_setitem, ret. cbv beta zeta.
  rewrite Hd. simpl.
  destruct (getitem d "Age") as [age|] eqn:Hage; simpl; auto.
  rewrite Hd. simpl. rewrite nth_error_last. simpl. rewrite Hage.
  destruct (pd_cut (s_values age)) as [groups|]; simpl; auto.
  rewrite nth_error_last, replace_nth_last. simpl.
  rewrite (lookup_before_last h _ df d Hd). simpl.
  right. right. exists groups.
  destruct (has_column "Sex" d); simpl; auto.
  destruct (getitem d "Sex"); simpl; auto.
  destruct (gender_traces _ _); simpl; auto.
Qed.

(** C9. Running the analysis (summary, chart catalogue, metadata) on
    the table behind a reference leaves that table, and every other
    table that existed, exactly as it was, whether the analysis returns
    or raises; the store only gains objects. The two chart methods that
    derive a column assign it to the copy they make. *)
Theorem C9_analysis_leaves_the_table
    (df_sample : nat -> DataFrame -> DataFrame)
    (key_statistics : list scalar -> outcome (list text))
    (h : heap) (df : ref) (d : DataFrame) :
  nth_error h df = Some d ->
  let h' := snd (analyze_dataframe df_sample key_statistics df h) in
  nth_error h' df = Some d
  /\ (forall r t, nth_error h r = Some t -> nth_error h' r = Some t)
  /\ (exists copies, h' = (h ++ copies)%list)
  /\ (let h1 := snd (_create_age_distribution_chart df h) in
      h1 = h \/ h1 = (h ++ [d])%list
      \/ exists groups, h1 = (h ++ [with_column d "AgeGroup" Category groups])%list)
  /\ (let h2 := snd (_create_family_analysis_chart df h) in
      h2 = (h ++ [d])%list
      \/ exists sizes, h2 = (h ++ [with_column d "FamilySize" Float64 sizes])%list).
Proof.
  intros Hd h'.
  destruct (analyze_keeps df_sample key_statistics h df d Hd h (extends_refl h))
    as [Hext _].
  fold h' in Hext.
  split; [exact (extends_lookup h h' df d Hext Hd)|].
  split; [intros r t Hr; exact (extends_lookup h h' r t Hext Hr)|].
  split; [exact Hext|].
  split; [exact (age_chart_copy h df d Hd) | exact (family_chart_copy h df d Hd)].
Qed.

Lemma C9_passengers_table :
  let h' := snd (analyze_dataframe Samples.keep_all Samples.no_statistics 0%nat
                   [Samples.passengers]) in
  nth_error h' 0%nat = Some Samples.passengers
  /\ (forall r t, nth_error [Samples.passengers] r = Some t -> nth_error h' r = Some t)
  /\ (exists copies, h' = ([Samples.passengers] ++ copies)%list)
  /\ (let h1 := snd (_create_age_distribution_chart 0%nat [Samples.passengers]) in
      h1 = [Samples.passengers]
      \/ h1 = ([Samples.passengers] ++ [Samples.passengers])%list
      \/ exists groups,
           h1 = ([Samples.passengers]
                 ++ [with_column Samples.passengers "AgeGroup" Category groups])%list)
  /\ (let h2 := snd (_create_family_analysis_chart 0%nat [Samples.passengers]) in
      h2 = ([Samples.passengers] ++ [Samples.passengers])%list
      \/ exists sizes,
           h2 = ([Samples.passengers]
                 ++ [with_column Samples.passengers "FamilySize" Float64 sizes])%list).
Proof.
  exact (C9_analysis_leaves_the_table Samples.keep_all Samples.no_statistics
           [Samples.passengers] 0%nat Samples.passengers eq_refl).
Defined.

(** After the analysis of the sample: the table, and the two copies
    with their derived column. *)
Example passengers_store_after_analysis :
  map columns
    (snd (analyze_dataframe Samples.keep_all Samples.no_statistics 0%nat
            [Samples.passengers]))
  = [ columns Samples.passengers;
      (columns Samples.passengers ++ ["AgeGroup"])%list;
      (columns Samples.passengers ++ ["FamilySize"])%list ].
Proof. vm_compute. reflexivity. Qed.

(** ** The health score of a table with rows and columns *)

(** X1. On every table with at least one row and one column the code
    returns a score, an integer in [0, 100] that is within one of the
    score the specification describes. *)
Theorem health_score_of_nonempty_table (df : DataFrame) :
  (0 < n_rows df)%nat -> series df <> [] ->
  exists score,
    _calculate_health_score df = Normal score
    /\ (0 <= score <= 100)%Z
    /\ (Z.abs (score - Spec.health_score df) <= 1)%Z.
Proof.
  intros Hrows Hcols.
  pose proof (health_score_refines df Hrows Hcols) as H.
  exists (Spec.health_score df).
  split; [exact H|]. split; [exact (health_score_range df _ H)|].
  rewrite Z.sub_diag. simpl. lia.
Qed.

Lemma health_score_age_fare :
  exists score,
    _calculate_health_score Samples.age_fare = Normal score
    /\ (0 <= score <= 100)%Z
    /\ (Z.abs (score - Spec.health_score Samples.age_fare) <= 1)%Z.
Proof.
  exact (health_score_of_nonempty_table Samples.age_fare
           (positive_check 4 eq_refl)
           (nonempty_check (series Samples.age_fare) eq_refl)).
Defined.

(* ================================================================= *)
(** ** The service: files of the directory *)

Lemma append_length a b :
  String.length (a ++ b) = (String.length a + String.length b)%nat.
Proof. induction a as [|c a IH]; simpl; [reflexivity | now rewrite IH]. Qed.

Lemma append_assoc (a b c : string) : (a ++ b) ++ c = a ++ b ++ c.
Proof. induction a as [|x a IH]; simpl; [reflexivity | now rewrite IH]. Qed.

(** Two strings with suffixes of one length are equal only if the
    suffixes and the rest are. *)
Lemma append_same_length a b s t :
  a ++ s = b ++ t -> String.length s = String.length t -> a = b /\ s = t.
Proof.
  revert b; induction a as [|x a IH]; intros [|y b] H L; simpl in H.
  - now split.
  - exfalso. apply (f_equal String.length) in H. simpl in H.
    rewrite append_length in H. lia.
  - exfalso. apply (f_equal String.length) in H. simpl in H.
    rewrite append_length in H. lia.
  - injection H as -> H. destruct (IH b H L) as [-> ->]. now split.
Qed.

Lemma endswith_spec suffix s :
  endswith suffix s = true <-> exists a, s = a ++ suffix.
Proof.
  induction s as [|c s IH]; simpl.
  - rewrite orb_false_r, String.eqb_eq. split.
    + intros ->. now exists "".
    + intros [[|x a] H]; simpl in H; [now subst | discriminate].
  - rewrite orb_true_iff, String.eqb_eq, IH. split.
    + intros [-> | [a ->]]; [now exists "" | now exists (String c a)].
    + intros [[|x a] H]; simpl in H.
      * now left.
      * injection H as <- ->. right. now exists a.
Qed.

(** The name of an accepted upload does not end in [.pkl]. *)
Lemma upload_name_not_pickle session_id name :
  endswith ".csv" name || endswith ".xlsx" name || endswith ".xls" name = true ->
  forall sid, session_id ++ "_" ++ name <> sid ++ ".pkl".
Proof.
  intros H sid E.
  rewrite !orb_true_iff, !endswith_spec in H.
  destruct H as [[[a ->] | [a ->]] | [a ->]].
  - rewrite <- !append_assoc in E.
    apply append_same_length in E; [|reflexivity]. now destruct E.
  - change ".xlsx" with ("." ++ "xlsx") in E. rewrite <- !append_assoc in E.
    apply append_same_length in E; [|reflexivity]. now destruct E.
  - rewrite <- !append_assoc in E.
    apply append_same_length in E; [|reflexivity]. now destruct E.
Qed.

Lemma pickle_name_inj sid sid' : sid ++ ".pkl" = sid' ++ ".pkl" -> sid = sid'.
Proof. intros E. now apply append_same_length in E. Qed.

Lemma lookup_write_same name f temp :
  Service.lookup name (Service.write name f temp) = Some f.
Proof.
  unfold Service.lookup. induction temp as [|e temp IH]; simpl.
  - now rewrite String.eqb_refl.
  - destruct (String.eqb name (fst e)) eqn:E; simpl.
    + now rewrite String.eqb_refl.
    + now rewrite E.
Qed.

Lemma lookup_write_other name name' f temp :
  name <> name' ->
  Service.lookup name' (Service.write name f temp) = Service.lookup name' temp.
Proof.
  intros N. unfold Service.lookup. induction temp as [|e temp IH]; simpl.
  - apply not_eq_sym, String.eqb_neq in N. now rewrite N.
  - destruct (String.eqb name (fst e)) eqn:E; simpl.
    + apply String.eqb_eq in E. subst name.
      apply not_eq_sym, String.eqb_neq in N. now rewrite N.
    + destruct (String.eqb name' (fst e)); [reflexivity | exact IH].
Qed.

Lemma lookup_unlink_same name temp :
  Service.lookup name (Service.unlink name temp) = None.
Proof.
  unfold Service.lookup, Service.unlink.
  induction temp as [|e temp IH]; simpl; [reflexivity|].
  destruct (String.eqb name (fst e)) eqn:E; simpl; [exact IH | now rewrite E].
Qed.

Lemma lookup_unlink_other name name' temp :
  name <> name' ->
  Service.lookup name' (Service.unlink name temp) = Service.lookup name' temp.
Proof.
  intros N. unfold Service.lookup, Service.unlink.
  induction temp as [|e temp IH]; simpl; [reflexivity|].
  destruct (String.eqb name (fst e)) eqn:E; simpl.
  - apply String.eqb_eq in E. subst name.
    apply not_eq_sym, String.eqb_neq in N. now rewrite N.
  - destruct (String.eqb name' (fst e)); [reflexivity | exact IH].
Qed.

Lemma unlink_absent name temp :
  Service.lookup name temp = None -> Service.unlink name temp = temp.
Proof.
  unfold Service.lookup, Service.unlink.
  induction temp as [|e temp IH]; simpl; [reflexivity|].
  destruct (String.eqb name (fst e)) eqn:E; simpl; [discriminate|].
  intros H. now rewrite IH.
Qed.

(** Removing a list of files keeps the files of the other names. *)
Lemma unlink_all names temp :
  fold_left (fun temp file_path => Service.unlink file_path temp) names temp
  = filter (fun e => negb (mem (fst e) names)) temp.
Proof.
  revert temp; induction names as [|n names IH]; intros temp; simpl.
  - induction temp as [|e temp IHt]; simpl; [reflexivity | now rewrite <- IHt].
  - rewrite IH. unfold Service.unlink. clear IH.
    induction temp as [|e temp IHt]; simpl; [reflexivity|].
    rewrite (String.eqb_sym (fst e) n).
    destruct (String.eqb n (fst e)); simpl; [exact IHt|].
    destruct (mem (fst e) names); simpl; [exact IHt | now rewrite IHt].
Qed.

Lemma lookup_filter (keep : string -> bool) name temp :
  Service.lookup name (filter (fun e => keep (fst e)) temp)
  = if keep name then Service.lookup name temp else None.
Proof.
  unfold Service.lookup. induction temp as [|e temp IH]; simpl.
  - now destruct (keep name).
  - destruct (keep (fst e)) eqn:K; simpl.
    + destruct (String.eqb name (fst e)) eqn:E.
      * apply String.eqb_eq in E. subst name. now rewrite K.
      * exact IH.
    + rewrite IH. destruct (String.eqb name (fst e)) eqn:E; [|reflexivity].
      apply String.eqb_eq in E. subst name. now rewrite K.
Qed.

Lemma mem_In x l : mem x l = true <-> In x l.
Proof.
  unfold mem. rewrite existsb_exists. split.
  - intros [y [Hy E]]. apply String.eqb_eq in E. now subst.
  - intros H. exists x. split; [exact H | apply String.eqb_refl].
Qed.

Lemma filter_filter {A} (f g : A -> bool) l :
  filter g (filter f l) = filter (fun x => f x && g x) l.
Proof.
  induction l as [|x l IH]; simpl; [reflexivity|].
  destruct (f x); simpl; [destruct (g x); now rewrite IH | exact IH].
Qed.


(** What a clean-up leaves of the directory. *)
Lemma cleanup_directory fnmatch session_id temp :
  snd (Service.cleanup_session fnmatch session_id temp)
  = filter (fun e => negb (String.eqb (session_id ++ ".pkl") (fst e))
                     && negb (negb (contains "**" (session_id ++ "_*"))
                              && fnmatch (fst e) (session_id ++ "_*")))
           temp.
Proof.
  unfold Service.cleanup_session, Service.glob.
  set (pkl := session_id ++ ".pkl"). set (pat := session_id ++ "_*").
  assert (U : (if Service.path_exists pkl temp
               then Service.unlink pkl temp else temp)
              = Service.unlink pkl temp).
  { unfold Service.path_exists.
    destruct (Service.lookup pkl temp) eqn:L; [reflexivity|].
    symmetry. now apply unlink_absent. }
  rewrite U. clear U. destruct (contains "**" pat); cbn [snd negb andb].
  - unfold Service.unlink. apply filter_ext. intros e.
    now rewrite andb_true_r.
  - rewrite unlink_all. unfold Service.unlink at 2.
    rewrite <- filter_filter. fold (Service.unlink pkl temp).
    apply filter_ext_in. intros e He. f_equal.
    destruct (fnmatch (fst e) pat) eqn:F.
    + apply mem_In, filter_In. split; [now apply in_map | exact F].
    + destruct (mem (fst e) _) eqn:Mm; [|reflexivity].
      apply mem_In, filter_In in Mm. destruct Mm as [_ Mm]. congruence.
Qed.

Lemma lookup_after_cleanup fnmatch session_id temp name :
  Service.lookup name (snd (Service.cleanup_session fnmatch session_id temp))
  = if negb (String.eqb (session_id ++ ".pkl") name)
       && negb (negb (contains "**" (session_id ++ "_*"))
                && fnmatch name (session_id ++ "_*"))
    then Service.lookup name temp else None.
Proof.
  rewrite cleanup_directory.
  apply (lookup_filter
           (fun n => negb (String.eqb (session_id ++ ".pkl") n)
                     && negb (negb (contains "**" (session_id ++ "_*"))
                              && fnmatch n (session_id ++ "_*")))).
Qed.

Lemma router_total generate_content df q history :
  exists r, generate_chart generate_content df q history = Normal r.
Proof.
  unfold generate_chart. boundary. cbv zeta in Hx.
  destruct (String.eqb _ _).
  - destruct (chart_response_total df q history) as [r Hr].
    rewrite Hr in Hx. injection Hx as <-; eauto.
  - destruct (text_response_total generate_content df q history) as [r Hr].
    rewrite Hr in Hx. injection Hx as <-; eauto.
Qed.

(** A query on a session whose pickle holds the table [df] is answered
    by the router's response on [df]. *)
Lemma chat_on_pickle generate_content unpickle sid q history temp df :
  Service.lookup (sid ++ ".pkl") temp = Some (Service.Pickled df) ->
  exists r, generate_chart generate_content df q history = Normal r
            /\ Service.chat_query generate_content unpickle
                 (Service.ChatQueryRequest.mk sid q history) temp
               = Service.OK r.
Proof.
  intros L. destruct (router_total generate_content df q history) as [r Hr].
  exists r. split; [exact Hr|].
  unfold Service.chat_query.
  cbn [Service.ChatQueryRequest.session_id Service.ChatQueryRequest.user_query
       Service.ChatQueryRequest.conversation_history].
  rewrite L. cbn [Service.read_pickle bind]. rewrite Hr. reflexivity.
Qed.





(** The clean-up of the session [a**b] is refused after its pickle is
    removed: the uploaded file stays. *)
Example cleanup_with_stars :
  Service.cleanup_session Desk.prefix_match "a**b"
    [ ("a**b.pkl", Service.Pickled Samples.age_fare);
      ("a**b_fares.csv", Service.Uploaded "Age,Fare") ]
  = (Service.HTTPException 500
       "Cleanup error: Invalid pattern: '**' can only be an entire path component",
     [ ("a**b_fares.csv", Service.Uploaded "Age,Fare") ]).
Proof. reflexivity. Qed.

Lemma append_same_prefix_length a b s t :
  a ++ s = b ++ t -> String.length a = String.length b -> a = b /\ s = t.
Proof.
  revert b; induction a as [|x a IH]; intros [|y b] H L; simpl in *;
    try discriminate.
  - now split.
  - injection H as -> H. injection L as L. destruct (IH b H L) as [-> ->].
    now split.
Qed.

(** A file of a session does not bear a name of another session whose
    identifier has the same length. *)
Lemma other_session_names sid sid' rest :
  String.length sid' = String.length sid -> sid' <> sid ->
  String.eqb (sid ++ ".pkl") (sid' ++ rest) = false
  /\ startswith (sid ++ "_") (sid' ++ rest) = false.
Proof.
  intros L N. split.
  - apply String.eqb_neq. intros E.
    apply append_same_prefix_length in E; [|now symmetry].
    destruct E as [E _]. congruence.
  - destruct (startswith _ _) eqn:E; [|reflexivity].
    apply startswith_spec in E. destruct E as [b E].
    rewrite append_assoc in E.
    apply append_same_prefix_length in E; [|exact L].
    destruct E as [E _]. congruence.
Qed.

(** X5. A clean-up of one session leaves the files of every other
    session, and the answers to its queries, as they were: for session
    identifiers of one length (as the identifiers drawn by [uuid4] are)
    and a pattern that matches the names that begin with the
    identifier and an underscore (an identifier without wildcard
    characters). *)
Theorem cleanup_spares_other_sessions
    (generate_content : text -> outcome string)
    (unpickle : string -> outcome DataFrame)
    (fnmatch : string -> string -> bool)
    (session_id other : string) (temp : Service.directory) :
  (forall name,
     fnmatch name (session_id ++ "_*") = startswith (session_id ++ "_") name) ->
  String.length other = String.length session_id ->
  other <> session_id ->
  let temp' := snd (Service.cleanup_session fnmatch session_id temp) in
  (forall rest,
     Service.lookup (other ++ rest) temp' = Service.lookup (other ++ rest) temp)
  /\ (forall user_query history,
        Service.chat_query generate_content unpickle
          (Service.ChatQueryRequest.mk other user_query history) temp'
        = Service.chat_query generate_content unpickle
            (Service.ChatQueryRequest.mk other user_query history) temp).
Proof.
  intros Hmatch Hlen Hneq temp'.
  assert (K : forall rest,
             Service.lookup (other ++ rest) temp'
             = Service.lookup (other ++ rest) temp).
  { intros rest. unfold temp'. rewrite lookup_after_cleanup, Hmatch.
    destruct (other_session_names session_id other rest Hlen Hneq) as [-> ->].
    now rewrite andb_false_r. }
  split; [exact K|].
  intros q h. unfold Service.chat_query.
  cbn [Service.ChatQueryRequest.session_id]. now rewrite K.
Qed.

Lemma cleanup_spares_other_sessions_witness :
  let temp := [ ("ab12.pkl", Service.Pickled Samples.age_fare);
                ("ab12_fares.csv", Service.Uploaded "Age,Fare");
                ("cd34.pkl", Service.Pickled Samples.passengers);
                ("cd34_list.csv", Service.Uploaded "Survived,Pclass") ] in
  let temp' := snd (Service.cleanup_session Desk.prefix_match "ab12" temp) in
  (forall rest,
     Service.lookup ("cd34" ++ rest) temp' = Service.lookup ("cd34" ++ rest) temp)
  /\ (forall user_query history,
        Service.chat_query Samples.answering Desk.not_a_pickle
          (Service.ChatQueryRequest.mk "cd34" user_query history) temp'
        = Service.chat_query Samples.answering Desk.not_a_pickle
            (Service.ChatQueryRequest.mk "cd34" user_query history) temp).
Proof.
  intros temp.
  apply (cleanup_spares_other_sessions Samples.answering Desk.not_a_pickle
           Desk.prefix_match "ab12" "cd34" temp).
  - intros name. reflexivity.
  - reflexivity.
  - discriminate.
Defined.

(** Identifiers of different lengths: the clean-up of the session [ab]
    removes the pickle of the session [ab_cd]. *)
Example cleanup_of_a_prefix :
  map fst
    (snd (Service.cleanup_session Desk.prefix_match "ab"
            [ ("ab.pkl", Service.Pickled Samples.age_fare);
              ("ab_cd.pkl", Service.Pickled Samples.passengers);
              ("ab_cd_list.csv", Service.Uploaded "Survived,Pclass") ]))
  = [].
Proof. reflexivity. Qed.

(* ----------------------------------------------------------------- *)
(** *** Uploads *)



(** The directory after an upload: nothing is written for a file name
    with another ending, the uploaded bytes for a file that cannot be
    read, the bytes and the pickle otherwise. *)
Lemma upload_directory df_sample key_statistics read_csv read_excel
    session_id file temp :
  let accepted :=
    endswith ".csv" (Service.filename file)
    || endswith ".xlsx" (Service.filename file)
    || endswith ".xls" (Service.filename file) in
  let parsed :=
    if endswith ".csv" (Service.filename file)
    then read_csv (Service.read file) else read_excel (Service.read file) in
  let saved :=
    Service.write (session_id ++ "_" ++ Service.filename file)
      (Service.Uploaded (Service.read file)) temp in
  snd (Service.initial_analysis df_sample key_statistics read_csv read_excel
         session_id file temp)
  = if accepted then
      match parsed with
      | Normal df => Service.write (session_id ++ ".pkl") (Service.Pickled df) saved
      | Raise _ => saved
      end
    else temp.
Proof.
  cbv zeta. unfold Service.initial_analysis.
  destruct (endswith ".csv" _ || _ || _); [|reflexivity]. cbn [negb].
  destruct (if endswith ".csv" _ then _ else _) as [df|e]; [|reflexivity].
  destruct (fst _) as [[s c i]|e]; reflexivity.
Qed.

(** X6. After an upload that is answered with status 200, every query
    on the session identifier of the answer is answered with status
    200 and the router's response on the table read from the upload. *)
Theorem upload_then_chat
    (df_sample : nat -> DataFrame -> DataFrame)
    (key_statistics : list scalar -> outcome (list text))
    (read_csv read_excel : string -> outcome DataFrame)
    (generate_content : text -> outcome string)
    (unpickle : string -> outcome DataFrame)
    (session_id : string) (file : Service.UploadFile)
    (temp temp' : Service.directory)
    (answer : Service.InitialAnalysisResponse.t) :
  Service.initial_analysis df_sample key_statistics read_csv read_excel
    session_id file temp = (Service.OK answer, temp') ->
  exists df,
    (if endswith ".csv" (Service.filename file)
     then read_csv (Service.read file) else read_excel (Service.read file))
    = Normal df
    /\ forall user_query history,
         exists r,
           generate_chart generate_content df user_query history = Normal r
           /\ Service.chat_query generate_content unpickle
                (Service.ChatQueryRequest.mk
                   (Service.InitialAnalysisResponse.session_id answer)
                   user_query history) temp'
              = Service.OK r.
Proof.
  intros H.
  assert (D := upload_directory df_sample key_statistics read_csv read_excel
                 session_id file temp).
  cbv zeta in D. rewrite H in D. cbn [snd] in D.
  unfold Service.initial_analysis in H.
  destruct (endswith ".csv" _ || _ || _); cbn [negb] in H; [|discriminate].
  destruct (if endswith ".csv" _ then _ else _) as [df|e]; [|discriminate].
  exists df. split; [reflexivity|].
  destruct (fst _) as [[s c i]|e]; [|discriminate].
  injection H as <- _. cbn [Service.InitialAnalysisResponse.session_id].
  intros q h. apply chat_on_pickle. rewrite D. apply lookup_write_same.
Qed.

Lemma upload_then_chat_witness :
  exists answer temp',
    Service.initial_analysis Samples.keep_all Samples.no_statistics
      Desk.two_files Desk.no_excel "ab12"
      (Service.mkUpload "fares.csv" Desk.fares_csv) []
    = (Service.OK answer, temp')
    /\ exists df,
         Desk.two_files Desk.fares_csv = Normal df
         /\ forall user_query history,
              exists r,
                generate_chart Samples.offline df user_query history = Normal r
                /\ Service.chat_query Samples.offline Desk.not_a_pickle
                     (Service.ChatQueryRequest.mk
                        (Service.InitialAnalysisResponse.session_id answer)
                        user_query history) temp'
                   = Service.OK r.
Proof.
  eexists. eexists.
  refine ((fun H => conj H
             (upload_then_chat Samples.keep_all Samples.no_statistics
                Desk.two_files Desk.no_excel Samples.offline Desk.not_a_pickle
                "ab12"
                (Service.mkUpload "fares.csv" Desk.fares_csv)
                [] _ _ H)) _).
  vm_compute. reflexivity.
Defined.

Lemma lookup_after_upload df_sample key_statistics read_csv read_excel
    session_id file temp other :
  other <> session_id ->
  Service.lookup (other ++ ".pkl")
    (snd (Service.initial_analysis df_sample key_statistics read_csv read_excel
            session_id file temp))
  = Service.lookup (other ++ ".pkl") temp.
Proof.
  intros N. rewrite upload_directory.
  destruct (endswith ".csv" _ || _ || _) eqn:A; [|reflexivity].
  assert (U : Service.lookup (other ++ ".pkl")
                (Service.write (session_id ++ "_" ++ Service.filename file)
                   (Service.Uploaded (Service.read file)) temp)
              = Service.lookup (other ++ ".pkl") temp).
  { apply lookup_write_other. now apply upload_name_not_pickle. }
  destruct (if endswith ".csv" _ then _ else _) as [df|e]; [|exact U].
  rewrite lookup_write_other; [exact U|].
  intros E. apply pickle_name_inj in E. congruence.
Qed.

(** X7. An upload leaves every other session as it was: whatever the
    uploaded file is named and holds, and however the upload is
    answered, the queries on another session identifier are answered
    as before. *)
Theorem upload_spares_other_sessions
    (df_sample : nat -> DataFrame -> DataFrame)
    (key_statistics : list scalar -> outcome (list text))
    (read_csv read_excel : string -> outcome DataFrame)
    (generate_content : text -> outcome string)
    (unpickle : string -> outcome DataFrame)
    (session_id other : string) (file : Service.UploadFile)
    (temp : Service.directory)
    (user_query : string) (history : list ChatMessage) :
  other <> session_id ->
  Service.chat_query generate_content unpickle
    (Service.ChatQueryRequest.mk other user_query history)
    (snd (Service.initial_analysis df_sample key_statistics read_csv read_excel
            session_id file temp))
  = Service.chat_query generate_content unpickle
      (Service.ChatQueryRequest.mk other user_query history) temp.
Proof.
  intros N. unfold Service.chat_query.
  cbn [Service.ChatQueryRequest.session_id].
  now rewrite lookup_after_upload.
Qed.

Lemma upload_spares_other_sessions_witness :
  Service.chat_query Samples.offline Desk.not_a_pickle
    (Service.ChatQueryRequest.mk "cd34" "survival chart" [])
    (snd (Service.initial_analysis Samples.keep_all Samples.no_statistics
            Desk.two_files Desk.no_excel "ab12"
            (Service.mkUpload "cd34.pkl.csv" "Name,Age")
            [("cd34.pkl", Service.Pickled Samples.survived_500_300)]))
  = Service.chat_query Samples.offline Desk.not_a_pickle
      (Service.ChatQueryRequest.mk "cd34" "survival chart" [])
      [("cd34.pkl", Service.Pickled Samples.survived_500_300)].
Proof.
  apply (upload_spares_other_sessions Samples.keep_all Samples.no_statistics
           Desk.two_files Desk.no_excel Samples.offline Desk.not_a_pickle
           "ab12" "cd34").
  discriminate.
Defined.

(* ----------------------------------------------------------------- *)
(** *** The pickles of the directory *)







(** A query on a file that no [to_pickle] wrote. *)
Example chat_on_foreign_file :
  Service.chat_query Samples.offline Desk.not_a_pickle
    (Service.ChatQueryRequest.mk "notes" "survival chart" [])
    [("notes.pkl", Service.Uploaded "remember the milk")]
  = Service.HTTPException 500 "Error processing query: invalid load key, 'r'.".
Proof. reflexivity. Qed.

(* ----------------------------------------------------------------- *)
(** *** Tables without rows *)







(* ----------------------------------------------------------------- *)
(** *** Tables with rows *)







(* ----------------------------------------------------------------- *)
(** *** Refused uploads *)

(** X11. An upload that is answered with status 400 creates no session:
    the queries on its session identifier are answered as before.
    Either the file name has none of the three endings (compared as
    they are written, in lower case) and the directory is unchanged, or
    the reader raised, the answer carries the reader's message, and the
    uploaded bytes stay in the directory. *)
Theorem refused_upload
    (df_sample : nat -> DataFrame -> DataFrame)
    (key_statistics : list scalar -> outcome (list text))
    (read_csv read_excel : string -> outcome DataFrame)
    (session_id : string) (file : Service.UploadFile)
    (temp temp' : Service.directory) (detail : string) :
  Service.initial_analysis df_sample key_statistics read_csv read_excel
    session_id file temp = (Service.HTTPException 400 detail, temp') ->
  let accepted :=
    endswith ".csv" (Service.filename file)
    || endswith ".xlsx" (Service.filename file)
    || endswith ".xls" (Service.filename file) in
  let file_path := session_id ++ "_" ++ Service.filename file in
  (forall generate_content unpickle user_query history,
     Service.chat_query generate_content unpickle
       (Service.ChatQueryRequest.mk session_id user_query history) temp'
     = Service.chat_query generate_content unpickle
         (Service.ChatQueryRequest.mk session_id user_query history) temp)
  /\ ((accepted = false
       /\ detail = "Only CSV and Excel files are supported"
       /\ temp' = temp)
      \/ (accepted = true
          /\ (exists e,
                (if endswith ".csv" (Service.filename file)
                 then read_csv (Service.read file)
                 else read_excel (Service.read file)) = Raise e
                /\ detail = "Error reading file: " ++ e)
          /\ temp' = Service.write file_path
                       (Service.Uploaded (Service.read file)) temp
          /\ Service.lookup file_path temp'
             = Some (Service.Uploaded (Service.read file)))).
Proof.
  intros H accepted file_path. unfold Service.initial_analysis in H.
  fold accepted in H. fold file_path in H.
  destruct accepted eqn:A; cbn [negb] in H.
  - destruct (if endswith ".csv" _ then _ else _) as [df|e] eqn:P.
    + destruct (fst _) as [[s c i]|e]; discriminate.
    + injection H as <- <-. split.
      * intros gc up q h. unfold Service.chat_query.
        cbn [Service.ChatQueryRequest.session_id].
        rewrite lookup_write_other; [reflexivity|].
        now apply upload_name_not_pickle.
      * right. repeat split.
        -- now exists e.
        -- apply lookup_write_same.
  - injection H as <- <-. split; [reflexivity|]. left. now repeat split.
Qed.

Lemma refused_upload_witness :
  let temp' :=
    [("ab12_notes.csv", Service.Uploaded "")] in
  (forall generate_content unpickle user_query history,
     Service.chat_query generate_content unpickle
       (Service.ChatQueryRequest.mk "ab12" user_query history) temp'
     = Service.chat_query generate_content unpickle
         (Service.ChatQueryRequest.mk "ab12" user_query history) [])
  /\ ((true = false
       /\ "Error reading file: No columns to parse from file"
          = "Only CSV and Excel files are supported"
       /\ temp' = [])
      \/ (true = true
          /\ (exists e,
                Desk.two_files "" = Raise e
                /\ "Error reading file: No columns to parse from file"
                   = "Error reading file: " ++ e)
          /\ temp' = Service.write "ab12_notes.csv"
                       (Service.Uploaded "") []
          /\ Service.lookup "ab12_notes.csv" temp'
             = Some (Service.Uploaded ""))).
Proof.
  intros temp'.
  apply (refused_upload Samples.keep_all Samples.no_statistics
           Desk.two_files Desk.no_excel "ab12"
           (Service.mkUpload "notes.csv" "") [] temp'
           "Error reading file: No columns to parse from file").
  reflexivity.
Defined.

(** The ending is compared as it is written. *)
Example upper_case_ending_is_refused :
  Service.initial_analysis Samples.keep_all Samples.no_statistics
    Desk.two_files Desk.no_excel "ab12"
    (Service.mkUpload "FARES.CSV" Desk.fares_csv) []
  = (Service.HTTPException 400 "Only CSV and Excel files are supported", []).
Proof. reflexivity. Qed.

(* ================================================================= *)
(** ** Query router: chart requests and the oracle *)

Ltac cases_of_goal :=
  repeat match goal with
    | |- context [if ?c then _ else _] => destruct c eqn:?
    | |- context [bind ?m _] => destruct m eqn:?; cbn [bind]
    | |- context [match ?l with [] => _ | _ :: _ => _ end] => destruct l eqn:?
    | |- context [match ?o with Some _ => _ | None => _ end] => destruct o eqn:?
    end.

Ltac payload :=
  unfold try_except; cbv zeta; cases_of_goal;
  intros H; injection H as <-; eauto.

Lemma survival_direct_payload df r :
  _create_survival_chart_direct df = Normal r ->
  (exists c, r = ChartPayload c) \/ (exists e, r = ErrorPayload e).
Proof. unfold _create_survival_chart_direct. payload. Qed.

Lemma age_direct_payload df r :
  _create_age_chart_direct df = Normal r ->
  (exists c, r = ChartPayload c) \/ (exists e, r = ErrorPayload e).
Proof. unfold _create_age_chart_direct. payload. Qed.

Lemma class_direct_payload df r :
  _create_class_chart_direct df = Normal r ->
  (exists c, r = ChartPayload c) \/ (exists e, r = ErrorPayload e).
Proof. unfold _create_class_chart_direct. payload. Qed.

Lemma gender_direct_payload df r :
  _create_gender_chart_direct df = Normal r ->
  (exists c, r = ChartPayload c) \/ (exists e, r = ErrorPayload e).
Proof. unfold _create_gender_chart_direct. payload. Qed.

Lemma ai_chart_payload df q r :
  _generate_ai_chart df q = Normal r ->
  (exists c, r = ChartPayload c) \/ (exists e, r = ErrorPayload e).
Proof. unfold _generate_ai_chart, bar_of_counts. payload. Qed.

(** X12. A chart request needs neither the oracle nor the conversation:
    when the query holds a chart keyword, the router's response is the
    same under every oracle and every conversation history, and it is a
    chart payload or an error payload, never a text answer. *)
Theorem chart_requests_bypass_the_oracle
    (generate_content generate_content' : text -> outcome string)
    (df : DataFrame) (user_query : string)
    (history history' : list ChatMessage) :
  _determine_user_intent user_query = "chart" ->
  generate_chart generate_content df user_query history
  = generate_chart generate_content' df user_query history'
  /\ exists r,
       generate_chart generate_content df user_query history = Normal r
       /\ ((exists c, r = ChartPayload c) \/ (exists e, r = ErrorPayload e)).
Proof.
  intros I. rewrite !(chart_intent_response _ df user_query _ I). split.
  - now apply chart_response_lower.
  - rewrite chart_response_branch. cbv zeta.
    destruct (contains "survival" _ && _).
    { destruct (survival_direct_total df) as [r Hr]. exists r.
      split; [exact Hr | now apply (survival_direct_payload df)]. }
    destruct (contains "age" _ && _).
    { destruct (age_direct_total df) as [r Hr]. exists r.
      split; [exact Hr | now apply (age_direct_payload df)]. }
    destruct ((contains "class" _ || _) && _).
    { destruct (class_direct_total df) as [r Hr]. exists r.
      split; [exact Hr | now apply (class_direct_payload df)]. }
    destruct (contains "gender" _ || _).
    { destruct (gender_direct_total df) as [r Hr]. exists r.
      split; [exact Hr | now apply (gender_direct_payload df)]. }
    destruct (ai_chart_total df user_query) as [r Hr]. exists r.
    split; [exact Hr | now apply (ai_chart_payload df user_query)].
Qed.

Lemma chart_requests_bypass_the_oracle_witness :
  generate_chart Samples.offline Samples.passengers "Plot the fares" []
  = generate_chart Samples.answering Samples.passengers "Plot the fares"
      [mkMsg "user" "How many passengers survived?"]
  /\ exists r,
       generate_chart Samples.offline Samples.passengers "Plot the fares" []
       = Normal r
       /\ ((exists c, r = ChartPayload c) \/ (exists e, r = ErrorPayload e)).
Proof.
  apply (chart_requests_bypass_the_oracle Samples.offline Samples.answering
           Samples.passengers "Plot the fares" []
           [mkMsg "user" "How many passengers survived?"]).
  reflexivity.
Defined.

Lemma is_substring_trans a w s :
  is_substring a w -> is_substring w s -> is_substring a s.
Proof.
  intros [u [v ->]] [x [y ->]]. exists (x ++ u), (v ++ y).
  now rewrite !append_assoc.
Qed.

(** X13. A chart request in which a word holds the letters "age"
    ("average", "percentage", "passenger", ...) is answered by the age
    histogram, whatever else it asks for, unless it is a request for
    the survival chart: the templates for the class and the gender
    chart and the fallback are not reached. *)
Theorem age_letters_capture_chart_requests
    (generate_content : text -> outcome string)
    (df : DataFrame) (user_query word : string) (history : list ChatMessage) :
  is_substring "age" word ->
  is_substring word (lower user_query) ->
  is_substring "chart" (lower user_query)
  \/ is_substring "histogram" (lower user_query) ->
  generate_chart generate_content df user_query history
  = if contains "survival" (lower user_query)
       && (contains "chart" (lower user_query)
           || contains "plot" (lower user_query))
    then _create_survival_chart_direct df
    else _create_age_chart_direct df.
Proof.
  intros Hage Hword Hkind.
  assert (A : contains "age" (lower user_query) = true).
  { apply contains_spec. now apply (is_substring_trans "age" word). }
  assert (K : contains "distribution" (lower user_query)
              || contains "chart" (lower user_query)
              || contains "histogram" (lower user_query) = true).
  { destruct Hkind as [H | H]; apply contains_spec in H; rewrite H;
      now rewrite ?orb_true_r. }
  assert (I : _determine_user_intent user_query = "chart").
  { destruct Hkind as [H | H]; apply contains_spec in H.
    - apply (chart_word_intent "chart"); [simpl; tauto | exact H].
    - apply (chart_word_intent "histogram"); [simpl; tauto | exact H]. }
  rewrite (chart_intent_response generate_content df user_query history I).
  rewrite chart_response_branch. cbv zeta. now rewrite A, K.
Qed.

Lemma age_letters_capture_chart_requests_witness :
  generate_chart Samples.offline Samples.passengers
    "Bar chart of the average fare by class" []
  = if contains "survival" (lower "Bar chart of the average fare by class")
       && (contains "chart" (lower "Bar chart of the average fare by class")
           || contains "plot" (lower "Bar chart of the average fare by class"))
    then _create_survival_chart_direct Samples.passengers
    else _create_age_chart_direct Samples.passengers.
Proof.
  apply (age_letters_capture_chart_requests Samples.offline Samples.passengers
           "Bar chart of the average fare by class" "average" []).
  - now exists "aver", "".
  - now exists "bar chart of the ", " fare by class".
  - left. now exists "bar ", " of the average fare by class".
Defined.

(** The request for a bar chart of a fare by class is answered with the
    histogram of the ages. *)
Example average_fare_by_class :
  generate_chart Samples.offline Samples.passengers
    "Bar chart of the average fare by class" []
  = Normal (ChartPayload
      (mkChart [Histogram [SNum 22; SNum 38; SNum 35] 30]
               "Age Distribution" (Some "Age (years)") (Some "Count"))).
Proof. reflexivity. Qed.

(* ----------------------------------------------------------------- *)
(** *** What a text request shows to the oracle *)

Lemma last_n_nil {A} n (l : list A) : (0 < n)%nat -> last_n n l = [] -> l = [].
Proof.
  unfold last_n. intros N H.
  apply (f_equal (@List.length A)) in H. rewrite length_skipn in H.
  change (@List.length A []) with 0%nat in H.
  destruct l as [|x l]; [reflexivity|]. cbn [List.length] in H. lia.
Qed.

Lemma dataframe_summary_shown df df' :
  shape df = shape df' -> columns df = columns df' ->
  map shown_to_oracle (firstn 15 (series df))
  = map shown_to_oracle (firstn 15 (series df')) ->
  _get_dataframe_summary df = _get_dataframe_summary df'.
Proof.
  intros S C D. unfold _get_dataframe_summary. cbv zeta. rewrite S, C.
  match goal with
  | |- context [map ?f (firstn 15 (series df))] =>
      assert (E : map f (firstn 15 (series df))
                  = map f (firstn 15 (series df')))
  end.
  { set (line := fun shown : string * dtype * Z * Z * list scalar =>
         let '(name, dt, non_null, null, sample_vals) := shown in
         ([Lit "- "; Lit name; Lit " ("; Lit (dtype_str dt);
           Lit "): "; Int non_null; Lit " non-null, ";
           Int null; Lit " null. Sample: "]
          ++ tjoin ", " (map (fun v => [Val "str[:30]" v]) sample_vals))%list).
    transitivity (map line (map shown_to_oracle (firstn 15 (series df)))).
    - rewrite map_map. reflexivity.
    - rewrite D, map_map. reflexivity. }
  now rewrite E.
Qed.

(** X14. What a text request shows to the oracle is bounded: of the
    conversation the last three messages, of the table its shape, its
    column names and, for the first fifteen columns, the dtype, the
    counts of non-null and null cells and the first three non-null
    values. Two tables and two conversations that agree on these get
    the same response. *)
Theorem text_prompt_is_bounded
    (generate_content : text -> outcome string)
    (df df' : DataFrame) (user_query : string)
    (history history' : list ChatMessage) :
  shape df = shape df' ->
  columns df = columns df' ->
  map shown_to_oracle (firstn 15 (series df))
  = map shown_to_oracle (firstn 15 (series df')) ->
  last_n 3 history = last_n 3 history' ->
  _generate_text_response generate_content df user_query history
  = _generate_text_response generate_content df' user_query history'.
Proof.
  intros S C D L. unfold _generate_text_response. cbv zeta.
  rewrite (dataframe_summary_shown df df' S C D), L.
  destruct history as [|m history]; destruct history' as [|m' history'];
    try reflexivity.
  - symmetry in L. apply last_n_nil in L; [discriminate | lia].
  - apply last_n_nil in L; [discriminate | lia].
Qed.

Lemma text_prompt_is_bounded_witness :
  let fares last :=
    mkDF 4 [ mkSeries "Fare" Float64
               [Samples.num 7; Samples.num 71; Samples.num 8; last] ] in
  let earlier := mkMsg "user" "What is in the table?" in
  let recent :=
    [ mkMsg "assistant" "Fares."; mkMsg "user" "Which currency?";
      mkMsg "assistant" "Pounds." ] in
  _generate_text_response Samples.answering (fares (Samples.num 53))
    "What is the highest fare?" (earlier :: recent)
  = _generate_text_response Samples.answering (fares (Samples.num 512))
      "What is the highest fare?" recent.
Proof.
  intros fares earlier recent.
  apply (text_prompt_is_bounded Samples.answering
           (fares (Samples.num 53)) (fares (Samples.num 512))
           "What is the highest fare?" (earlier :: recent) recent);
    reflexivity.
Defined.

(* ================================================================= *)
(** ** Value counts as a frequency table *)

Lemma zsum_vc_add v acc :
  zsum (map snd (vc_add v acc)) = (zsum (map snd acc) + 1)%Z.
Proof.
  induction acc as [|[w n] acc IH]; simpl; [reflexivity|].
  destruct (scalar_eqb v w); simpl; [lia | rewrite IH; lia].
Qed.

Lemma zsum_tally_from vals acc :
  zsum (map snd (fold_left (fun acc v => vc_add v acc) vals acc))
  = (zsum (map snd acc) + Z.of_nat (List.length vals))%Z.
Proof.
  revert acc; induction vals as [|v vals IH]; intros acc.
  - simpl. lia.
  - cbn [fold_left List.length]. rewrite IH, zsum_vc_add. lia.
Qed.

Lemma zsum_insert_by before (x : scalar * Z) l :
  zsum (map snd (insert_by before x l)) = (snd x + zsum (map snd l))%Z.
Proof.
  induction l as [|y l IH]; simpl; [reflexivity|].
  destruct (before x y); simpl; [reflexivity | rewrite IH; lia].
Qed.

Lemma zsum_sort_by before (l : list (scalar * Z)) :
  zsum (map snd (sort_by before l)) = zsum (map snd l).
Proof.
  induction l as [|x l IH]; simpl; [reflexivity|].
  unfold sort_by in *. cbn [fold_right]. now rewrite zsum_insert_by, IH.
Qed.

(** Insertion keeps a list in order when [before] is total. *)
Lemma insert_by_sorted {A} (before : A -> A -> bool) x l :
  (forall a b, before a b = false -> before b a = true) ->
  Sorted (fun a b => before a b = true) l ->
  Sorted (fun a b => before a b = true) (insert_by before x l).
Proof.
  intros T. induction 1 as [|y l S IH Hd]; simpl.
  - repeat constructor.
  - destruct (before x y) eqn:B.
    + constructor; [now constructor | now constructor].
    + constructor; [exact IH|].
      destruct l as [|z l]; simpl.
      * constructor. now apply T.
      * destruct (before x z); constructor; [now apply T | now inversion Hd].
Qed.

Lemma sort_by_sorted {A} (before : A -> A -> bool) l :
  (forall a b, before a b = false -> before b a = true) ->
  Sorted (fun a b => before a b = true) (sort_by before l).
Proof.
  intros T. induction l as [|x l IH]; [constructor|].
  unfold sort_by in *. cbn [fold_right]. now apply insert_by_sorted.
Qed.

Lemma sorted_weaken {A} (R R' : A -> A -> Prop) l :
  (forall a b, In a l -> In b l -> R a b -> R' a b) ->
  Sorted R l -> Sorted R' l.
Proof.
  intros W S. induction S as [|x l S IH Hd]; constructor.
  - apply IH. intros a b Ha Hb. apply W; now right.
  - destruct Hd as [|y l Hxy]; constructor.
    apply W; [now left | right; now left | exact Hxy].
Qed.

Lemma get_entry vc e :
  distinct_keys vc -> In e vc -> get_value vc (fst e) = snd e.
Proof.
  unfold get_value. induction vc as [|e' vc IH]; simpl; [tauto|].
  intros [F D] [<- | I].
  - now rewrite scalar_eqb_refl.
  - rewrite Forall_forall in F. specialize (F e I).
    rewrite scalar_eqb_sym, F. now apply IH.
Qed.

Lemma distinct_counts_of vals : distinct_keys (counts_of vals).
Proof.
  unfold counts_of, tally. apply distinct_sort_by.
  apply (distinct_tally_from vals []). exact I.
Qed.

(** [value_counts] is the frequency table of the non-null cells: one
    entry for each value that occurs, with the number of its cells, the
    larger counts first. *)
Lemma value_counts_table s :
  distinct_keys (value_counts s)
  /\ (forall e, In e (value_counts s) ->
        In (Some (fst e)) (s_values s)
        /\ snd e = count_eq s (fst e) /\ (0 < snd e)%Z)
  /\ (forall v, In (Some v) (s_values s) ->
        exists e, In e (value_counts s) /\ scalar_eqb v (fst e) = true)
  /\ zsum (map snd (value_counts s)) = count_notna s
  /\ Sorted count_ge_of (value_counts s).
Proof.
  assert (V : forall v, In v (dropna s) <-> In (Some v) (s_values s)).
  { intros v. unfold dropna. rewrite in_flat_map. split.
    - intros [[w|] [I H]]; simpl in H; [|tauto].
      destruct H as [<- | []]. exact I.
    - intros I. exists (Some v). split; [exact I | now left]. }
  assert (P : forall v, In (Some v) (s_values s) -> (0 < count_eq s v)%Z).
  { intros v I. unfold count_eq.
    assert (In (Some v) (filter (fun c => cell_eqb c (Some v)) (s_values s))).
    { apply filter_In. split; [exact I | apply scalar_eqb_refl]. }
    destruct (filter _ _); [contradiction | simpl; lia]. }
  split; [apply distinct_counts_of|]. split; [|split; [|split]].
  - intros e I.
    assert (L : In (Some (fst e)) (s_values s))
      by (apply V; now apply counts_of_labels).
    assert (G : snd e = count_eq s (fst e)).
    { rewrite <- get_value_counts. symmetry.
      apply get_entry; [apply distinct_counts_of | exact I]. }
    repeat split; [exact L | exact G | rewrite G; now apply P].
  - intros v I. specialize (P v I). rewrite <- get_value_counts in P.
    unfold get_value in P.
    destruct (find _ (value_counts s)) as [e|] eqn:F; [|lia].
    apply find_some in F. now exists e.
  - unfold value_counts, counts_of, tally.
    rewrite zsum_sort_by, zsum_tally_from. simpl.
    unfold count_notna. f_equal.
    rewrite <- (length_map Some), dropna_notna. reflexivity.
  - unfold value_counts, counts_of.
    apply (sorted_weaken (fun a b : scalar * Z => (snd b <=? snd a)%Z = true)).
    + intros a b _ _ H. now apply Z.leb_le.
    + apply (sort_by_sorted (fun a b : scalar * Z => (snd b <=? snd a)%Z)).
      intros a b H. apply Z.leb_gt in H. apply Z.leb_le. lia.
Qed.

(* ----------------------------------------------------------------- *)
(** *** The gender pie of the router *)

(** X15. The gender pie of the router is the frequency table of the
    column [Sex]: one slice for each value that occurs (values compared
    as they are written), each slice with the number of cells that hold
    its label, the slices add up to the number of non-null cells, and
    they are ordered from the largest to the smallest. *)
Theorem gender_pie_is_a_frequency_table (df : DataFrame) (sex : Series) :
  getitem df "Sex" = Normal sex ->
  exists counts,
    _create_gender_chart_direct df
    = Normal (ChartPayload
        (mkChart [Pie (map (fun e => LVal (fst e)) counts) (map snd counts)]
                 "Gender Distribution" None None))
    /\ distinct_keys counts
    /\ (forall e, In e counts ->
          In (Some (fst e)) (s_values sex)
          /\ snd e = count_eq sex (fst e) /\ (0 < snd e)%Z)
    /\ (forall v, In (Some v) (s_values sex) ->
          exists e, In e counts /\ scalar_eqb v (fst e) = true)
    /\ zsum (map snd counts) = count_notna sex
    /\ Sorted count_ge_of counts.
Proof.
  intros G. exists (value_counts sex). split; [|apply value_counts_table].
  unfold _create_gender_chart_direct.
  assert (H : has_column "Sex" df = true)
    by (apply has_column_getitem; now exists sex).
  rewrite H, G. reflexivity.
Qed.

Lemma gender_pie_is_a_frequency_table_witness :
  exists counts,
    _create_gender_chart_direct Samples.passengers
    = Normal (ChartPayload
        (mkChart [Pie (map (fun e => LVal (fst e)) counts) (map snd counts)]
                 "Gender Distribution" None None))
    /\ distinct_keys counts
    /\ (forall e, In e counts ->
          In (Some (fst e))
             [Samples.str "male"; Samples.str "female"; Samples.str "female";
              Samples.str "male"]
          /\ snd e
             = count_eq (mkSeries "Sex" Object
                 [Samples.str "male"; Samples.str "female";
                  Samples.str "female"; Samples.str "male"]) (fst e)
          /\ (0 < snd e)%Z)
    /\ (forall v,
          In (Some v)
             [Samples.str "male"; Samples.str "female"; Samples.str "female";
              Samples.str "male"] ->
          exists e, In e counts /\ scalar_eqb v (fst e) = true)
    /\ zsum (map snd counts)
       = count_notna (mkSeries "Sex" Object
           [Samples.str "male"; Samples.str "female"; Samples.str "female";
            Samples.str "male"])
    /\ Sorted count_ge_of counts.
Proof.
  apply (gender_pie_is_a_frequency_table Samples.passengers
           (mkSeries "Sex" Object
              [Samples.str "male"; Samples.str "female"; Samples.str "female";
               Samples.str "male"])).
  reflexivity.
Defined.

(* ----------------------------------------------------------------- *)
(** *** The class chart of the router *)

Lemma scalar_leb_total a b : scalar_leb a b = false -> scalar_leb b a = true.
Proof.
  destruct a as [p|s], b as [q|t]; simpl; try congruence.
  - intros H. apply Qle_bool_iff. destruct (Qlt_le_dec q p) as [L | L].
    + now apply Qlt_le_weak.
    + apply Qle_bool_iff in L. congruence.
  - intros H. destruct (String.leb_total s t) as [L | L]; congruence.
Qed.

Lemma sorted_distinct (R : scalar * Z -> scalar * Z -> Prop) l :
  distinct_keys l -> Sorted R l ->
  Sorted (fun a b => R a b /\ scalar_eqb (fst a) (fst b) = false) l.
Proof.
  intros D S. induction S as [|x l S IH Hd]; constructor.
  - apply IH. now destruct D.
  - destruct Hd as [|y l Hxy]; constructor. split; [exact Hxy|].
    destruct D as [F _]. now inversion F.
Qed.

Lemma sort_index_of_one_kind (vc : list (scalar * Z)) :
  Forall (fun e => is_num (fst e) = true) vc
  \/ Forall (fun e => is_num (fst e) = false) vc ->
  sort_index vc = Normal (sort_by (fun a b => scalar_leb (fst a) (fst b)) vc).
Proof.
  intros K. unfold sort_index.
  assert (E : forallb (fun e : scalar * Z => is_num (fst e)) vc
              || forallb (fun e : scalar * Z => negb (is_num (fst e))) vc
              = true).
  { apply orb_true_iff. destruct K as [K | K]; [left | right];
      apply forallb_forall; intros e I; rewrite Forall_forall in K;
      rewrite (K e I); reflexivity. }
  now rewrite E.
Qed.

(** The counts of a column whose values are of one kind, ordered by
    label. *)
Lemma sorted_counts_table s :
  Forall (fun v => is_num v = true) (dropna s)
  \/ Forall (fun v => is_num v = false) (dropna s) ->
  exists counts,
    sort_index (value_counts s) = Normal counts
    /\ Sorted label_lt counts
    /\ (forall e, In e counts ->
          In (Some (fst e)) (s_values s)
          /\ snd e = count_eq s (fst e) /\ (0 < snd e)%Z)
    /\ (forall v, In (Some v) (s_values s) ->
          exists e, In e counts /\ scalar_eqb v (fst e) = true)
    /\ zsum (map snd counts) = count_notna s.
Proof.
  intros K.
  destruct (value_counts_table s) as [D [E [V [Hz _]]]].
  exists (sort_by (fun a b => scalar_leb (fst a) (fst b)) (value_counts s)).
  split; [|split; [|split; [|split]]].
  - apply sort_index_of_one_kind.
    destruct K as [K | K]; [left | right]; apply Forall_forall; intros e I;
      rewrite Forall_forall in K; apply K;
      now apply (counts_of_labels (dropna s)).
  - apply (sorted_distinct
             (fun a b => scalar_leb (fst a) (fst b) = true)).
    + now apply distinct_sort_by.
    + apply (sort_by_sorted (fun a b : scalar * Z => scalar_leb (fst a) (fst b))).
      intros a b. apply scalar_leb_total.
  - intros e I. apply E. now apply in_sort_by in I.
  - intros v I. destruct (V v I) as [e [Ie Ee]]. exists e.
    split; [now apply in_sort_by | exact Ee].
  - now rewrite zsum_sort_by, Hz.
Qed.

(** X16. The class chart of the router, on a column [Pclass] whose
    values are all numbers or all strings, has one bar for each value
    that occurs, the bars in strictly ascending order of their labels,
    each bar as high as the number of cells that hold its label; the
    heights add up to the number of non-null cells. *)
Theorem class_chart_counts_in_order (df : DataFrame) (pclass : Series) :
  getitem df "Pclass" = Normal pclass ->
  Forall (fun v => is_num v = true) (dropna pclass)
  \/ Forall (fun v => is_num v = false) (dropna pclass) ->
  exists counts,
    _create_class_chart_direct df
    = Normal (ChartPayload
        (mkChart
           [Bar (map (fun e => LText [Lit "Class "; Val "" (fst e)]) counts)
                (map snd counts)]
           "Passenger Class Distribution"
           (Some "Passenger Class") (Some "Count")))
    /\ Sorted label_lt counts
    /\ (forall e, In e counts ->
          In (Some (fst e)) (s_values pclass)
          /\ snd e = count_eq pclass (fst e) /\ (0 < snd e)%Z)
    /\ (forall v, In (Some v) (s_values pclass) ->
          exists e, In e counts /\ scalar_eqb v (fst e) = true)
    /\ zsum (map snd counts) = count_notna pclass.
Proof.
  intros G K. destruct (sorted_counts_table pclass K) as [counts [S T]].
  exists counts. split; [|exact T].
  unfold _create_class_chart_direct.
  assert (H : has_column "Pclass" df = true)
    by (apply has_column_getitem; now exists pclass).
  rewrite H, G. cbn [negb bind]. rewrite S. reflexivity.
Qed.

Lemma class_chart_counts_in_order_witness :
  exists counts,
    _create_class_chart_direct Samples.passengers
    = Normal (ChartPayload
        (mkChart
           [Bar (map (fun e => LText [Lit "Class "; Val "" (fst e)]) counts)
                (map snd counts)]
           "Passenger Class Distribution"
           (Some "Passenger Class") (Some "Count")))
    /\ Sorted label_lt counts
    /\ (forall e, In e counts ->
          In (Some (fst e))
             [Samples.num 3; Samples.num 1; Samples.num 3; Samples.num 2]
          /\ snd e
             = count_eq (mkSeries "Pclass" Int64
                 [Samples.num 3; Samples.num 1; Samples.num 3; Samples.num 2])
                 (fst e)
          /\ (0 < snd e)%Z)
    /\ (forall v,
          In (Some v)
             [Samples.num 3; Samples.num 1; Samples.num 3; Samples.num 2] ->
          exists e, In e counts /\ scalar_eqb v (fst e) = true)
    /\ zsum (map snd counts)
       = count_notna (mkSeries "Pclass" Int64
           [Samples.num 3; Samples.num 1; Samples.num 3; Samples.num 2]).
Proof.
  apply (class_chart_counts_in_order Samples.passengers
           (mkSeries "Pclass" Int64
              [Samples.num 3; Samples.num 1; Samples.num 3; Samples.num 2])).
  - reflexivity.
  - left. repeat constructor.
Defined.

Example passengers_class_chart :
  _create_class_chart_direct Samples.passengers
  = Normal (ChartPayload
      (mkChart
         [Bar [LText [Lit "Class "; Val "" (SNum 1)];
               LText [Lit "Class "; Val "" (SNum 2)];
               LText [Lit "Class "; Val "" (SNum 3)]]
              [1; 1; 2]%Z]
         "Passenger Class Distribution"
         (Some "Passenger Class") (Some "Count"))).
Proof. reflexivity. Qed.

(* ----------------------------------------------------------------- *)
(** *** The fallback chart of the router *)

Lemma pick_target_in cols q col :
  pick_target cols q = Some col -> In col cols.
Proof.
  unfold pick_target.
  destruct (find _ cols) as [c|] eqn:F.
  - destruct (negb (truthy (Some c)) && _).
    + destruct cols; simpl; [discriminate|]. intros H. injection H as <-. now left.
    + intros H. injection H as <-. now apply find_some in F.
  - destruct (negb (truthy None) && _); [|discriminate].
    destruct cols; simpl; [discriminate|]. intros H. injection H as <-. now left.
Qed.

(** X17. On a table with at least one column of dtype [object] the
    fallback of the router always draws a chart: the histogram (25
    bins) of the non-null values of a numeric column, or the bar chart
    of the at most ten most frequent values of an [object] column. *)
Theorem fallback_draws_a_chart (df : DataFrame) (user_query : string) :
  select_dtypes is_object df <> [] ->
  exists c,
    _generate_ai_chart df user_query = Normal (ChartPayload c)
    /\ ((exists col s,
           In col (select_dtypes is_number df)
           /\ getitem df col = Normal s
           /\ c = mkChart [Histogram (dropna s) 25]
                          ("Distribution of " ++ col) (Some col) (Some "Count"))
        \/ (exists col s bars,
              In col (select_dtypes is_object df)
              /\ getitem df col = Normal s
              /\ bars = firstn 10 (value_counts s)
              /\ (List.length bars <= 10)%nat
              /\ c = mkChart
                       [Bar (map (fun e => LVal (fst e)) bars) (map snd bars)]
                       ("Distribution of " ++ col) (Some col) (Some "Count"))).
Proof.
  intros O.
  assert (B : forall col, In col (select_dtypes is_object df) ->
            exists c,
              (chart_data <- bar_of_counts df col ;;
               Normal (Normal (ChartPayload chart_data)))
              = Normal (Normal (ChartPayload c))
              /\ exists col s bars,
                   In col (select_dtypes is_object df)
                   /\ getitem df col = Normal s
                   /\ bars = firstn 10 (value_counts s)
                   /\ (List.length bars <= 10)%nat
                   /\ c = mkChart
                            [Bar (map (fun e => LVal (fst e)) bars) (map snd bars)]
                            ("Distribution of " ++ col) (Some col) (Some "Count")).
  { intros col I. destruct (object_column_exists df col I) as [s Hs].
    unfold bar_of_counts. rewrite Hs. cbn [bind]. eexists. split; [reflexivity|].
    exists col, s, (firstn 10 (value_counts s)).
    repeat split; [exact I | exact Hs | apply firstn_le_length]. }
  unfold _generate_ai_chart. cbv zeta.
  destruct (select_dtypes is_object df) as [|c0 cs] eqn:Oc; [congruence|].
  assert (D := B c0 (or_introl eq_refl)). destruct D as [cd [Hd Pd]].
  destruct (contains "histogram" _ || contains "distribution" _).
  - destruct (pick_target (select_dtypes is_number df) _) as [col|] eqn:T.
    + destruct (truthy (Some col)).
      * apply pick_target_in in T.
        destruct (numeric_column_exists df col T) as [s Hs].
        rewrite Hs. cbn [bind try_except]. eexists. split; [reflexivity|].
        left. now exists col, s.
      * rewrite Hd. exists cd. split; [reflexivity | now right].
    + cbn [truthy]. rewrite Hd. exists cd. split; [reflexivity | now right].
  - destruct (contains "bar" _ || contains "count" _).
    + destruct (pick_target (c0 :: cs) _) as [col|] eqn:T.
      * destruct (truthy (Some col)).
        -- apply pick_target_in in T. destruct (B col T) as [c [Hc Pc]].
           rewrite Hc. exists c. split; [reflexivity | now right].
        -- rewrite Hd. exists cd. split; [reflexivity | now right].
      * cbn [truthy]. rewrite Hd. exists cd. split; [reflexivity | now right].
    + rewrite Hd. exists cd. split; [reflexivity | now right].
Qed.

Lemma fallback_draws_a_chart_witness :
  exists c,
    _generate_ai_chart Samples.clean_mixed "draw the names" = Normal (ChartPayload c)
    /\ ((exists col s,
           In col (select_dtypes is_number Samples.clean_mixed)
           /\ getitem Samples.clean_mixed col = Normal s
           /\ c = mkChart [Histogram (dropna s) 25]
                          ("Distribution of " ++ col) (Some col) (Some "Count"))
        \/ (exists col s bars,
              In col (select_dtypes is_object Samples.clean_mixed)
              /\ getitem Samples.clean_mixed col = Normal s
              /\ bars = firstn 10 (value_counts s)
              /\ (List.length bars <= 10)%nat
              /\ c = mkChart
                       [Bar (map (fun e => LVal (fst e)) bars) (map snd bars)]
                       ("Distribution of " ++ col) (Some col) (Some "Count"))).
Proof.
  apply (fallback_draws_a_chart Samples.clean_mixed "draw the names").
  discriminate.
Defined.

(** A table without a numeric and without an [object] column gets no
    chart from the fallback. *)
Lemma fallback_without_columns df q :
  select_dtypes is_object df = [] -> select_dtypes is_number df = [] ->
  _generate_ai_chart df q
  = Normal (ErrorPayload
      "Could not determine what chart to create from your request").
Proof.
  intros O N. unfold _generate_ai_chart. cbv zeta. rewrite O, N.
  unfold pick_target. cbn [find truthy negb List.length Nat.eqb andb].
  destruct (contains "histogram" _ || _); [reflexivity|].
  destruct (contains "bar" _ || _); reflexivity.
Qed.

(* ----------------------------------------------------------------- *)
(** *** The error payloads of the router *)

Lemma survival_direct_error df msg :
  _create_survival_chart_direct df = Normal (ErrorPayload msg) ->
  msg = "Survival data not found in this dataset".
Proof.
  unfold _create_survival_chart_direct.
  destruct (has_column "Survived" df) eqn:Hc; cbn [negb].
  - apply has_column_getitem in Hc. destruct Hc as [s ->]. cbn [bind try_except].
    discriminate.
  - cbn [try_except]. intros H. now injection H as <-.
Qed.

Lemma age_direct_error df msg :
  _create_age_chart_direct df = Normal (ErrorPayload msg) ->
  msg = "Age data not found in this dataset".
Proof.
  unfold _create_age_chart_direct.
  destruct (has_column "Age" df) eqn:Hc; cbn [negb].
  - apply has_column_getitem in Hc. destruct Hc as [s ->]. cbn [bind try_except].
    discriminate.
  - cbn [try_except]. intros H. now injection H as <-.
Qed.

Lemma gender_direct_error df msg :
  _create_gender_chart_direct df = Normal (ErrorPayload msg) ->
  msg = "Gender data not found in this dataset".
Proof.
  unfold _create_gender_chart_direct.
  destruct (has_column "Sex" df) eqn:Hc; cbn [negb].
  - apply has_column_getitem in Hc. destruct Hc as [s ->]. cbn [bind try_except].
    discriminate.
  - cbn [try_except]. intros H. now injection H as <-.
Qed.

Lemma class_direct_error df msg :
  _create_class_chart_direct df = Normal (ErrorPayload msg) ->
  msg = "Passenger class data not found in this dataset"
  \/ exists pclass e,
       getitem df "Pclass" = Normal pclass
       /\ sort_index (value_counts pclass) = Raise e
       /\ msg = "Failed to create class chart: " ++ e.
Proof.
  unfold _create_class_chart_direct.
  destruct (has_column "Pclass" df) eqn:Hc; cbn [negb].
  - apply has_column_getitem in Hc. destruct Hc as [s Hs]. rewrite Hs.
    cbn [bind]. destruct (sort_index (value_counts s)) as [vc|e] eqn:Hv;
      cbn [bind try_except]; [discriminate|].
    intros H. injection H as <-. right. now exists s, e.
  - cbn [try_except]. intros H. injection H as <-. now left.
Qed.

Lemma ai_chart_error df q msg :
  _generate_ai_chart df q = Normal (ErrorPayload msg) ->
  msg = "Could not determine what chart to create from your request".
Proof.
  assert (B : forall col, In col (select_dtypes is_object df) ->
            exists c,
              (chart_data <- bar_of_counts df col ;;
               Normal (Normal (ChartPayload chart_data)))
              = Normal (Normal (ChartPayload c))).
  { intros col I. destruct (object_column_exists df col I) as [s Hs].
    unfold bar_of_counts. rewrite Hs. cbn [bind]. eexists. reflexivity. }
  assert (D : forall r,
    try_except
      match select_dtypes is_object df with
      | [] => Normal (Normal (ErrorPayload
                "Could not determine what chart to create from your request"))
      | col :: _ =>
          chart_data <- bar_of_counts df col ;;
          Normal (Normal (ChartPayload chart_data))
      end
      (fun e => Normal (ErrorPayload ("Failed to generate chart: " ++ e)))
    = Normal (ErrorPayload r) ->
    r = "Could not determine what chart to create from your request").
  { intros r. destruct (select_dtypes is_object df) as [|c0 cs] eqn:Oc.
    - cbn [try_except]. intros H. now injection H as <-.
    - destruct (B c0 (or_introl eq_refl)) as [c ->]. cbn [try_except].
      discriminate. }
  unfold _generate_ai_chart. cbv zeta.
  destruct (contains "histogram" _ || contains "distribution" _).
  - destruct (pick_target (select_dtypes is_number df) _) as [col|] eqn:T.
    + destruct (truthy (Some col)); [|apply D].
      apply pick_target_in in T.
      destruct (numeric_column_exists df col T) as [s Hs].
      rewrite Hs. cbn [bind try_except]. discriminate.
    + cbn [truthy]. apply D.
  - destruct (contains "bar" _ || contains "count" _); [|apply D].
    destruct (pick_target (select_dtypes is_object df) _) as [col|] eqn:T.
    + destruct (truthy (Some col)); [|apply D].
      apply pick_target_in in T. destruct (B col T) as [c ->].
      cbn [try_except]. discriminate.
    + cbn [truthy]. apply D.
Qed.

Lemma router_error generate_content df q history msg :
  generate_chart generate_content df q history = Normal (ErrorPayload msg) ->
  In msg [ "Survival data not found in this dataset";
           "Age data not found in this dataset";
           "Passenger class data not found in this dataset";
           "Gender data not found in this dataset";
           "Could not determine what chart to create from your request" ]
  \/ (exists prompt e,
        generate_content prompt = Raise e
        /\ msg = "Failed to generate text response: " ++ e)
  \/ (exists pclass e,
        getitem df "Pclass" = Normal pclass
        /\ sort_index (value_counts pclass) = Raise e
        /\ msg = "Failed to create class chart: " ++ e).
Proof.
  destruct (String.eqb_spec (_determine_user_intent q) "chart") as [I|I].
  - rewrite (chart_intent_response generate_content df q history I).
    rewrite chart_response_branch. cbv zeta.
    destruct (contains "survival" _ && _).
    { intros H. apply survival_direct_error in H. subst. left. simpl. tauto. }
    destruct (contains "age" _ && _).
    { intros H. apply age_direct_error in H. subst. left. simpl. tauto. }
    destruct ((contains "class" _ || _) && _).
    { intros H. apply class_direct_error in H.
      destruct H as [-> | H]; [left; simpl; tauto | right; now right]. }
    destruct (contains "gender" _ || _).
    { intros H. apply gender_direct_error in H. subst. left. simpl. tauto. }
    intros H. apply ai_chart_error in H. subst. left. simpl. tauto.
  - assert (T : _determine_user_intent q = "text").
    { unfold _determine_user_intent in *. destruct (any_in chart_keywords _);
        [congruence|]. now destruct (any_in text_keywords _). }
    rewrite (text_intent_response generate_content df q history T).
    destruct (text_response_of_oracle generate_content df q history)
      as [prompt ->].
    destruct (generate_content prompt) as [a|e] eqn:G; [discriminate|].
    intros H. injection H as <-. right. left. now exists prompt, e.
Qed.

(** C3. The router's entry point never raises: for every table, query,
    history and behaviour of the oracle it returns one response (a text
    answer, a chart payload or an error payload), and so do the two
    paths and the five chart branches below it. The entry point returns
    the response of the path it takes. An exception raised below it
    becomes the error payload of the innermost handler, with the
    exception's message: on a text query, whatever the oracle raises is
    answered by "Failed to generate text response: <message>"; when the
    class labels cannot be sorted, the class branch, and the entry point
    on every query routed to it, answer
    "Failed to create class chart: <message>", not a chart. Every error
    payload of the entry point carries a message: one of the five
    descriptions of what is missing, or the text of a handler followed by
    the message of the exception that was raised. *)
Theorem C3_router_returns_a_response
    (generate_content : text -> outcome string)
    (df : DataFrame) (user_query : string) (history : list ChatMessage) :
  (exists r, generate_chart generate_content df user_query history = Normal r)
  /\ (exists r, _generate_chart_response df user_query history = Normal r)
  /\ (exists r, _generate_text_response generate_content df user_query history
                = Normal r)
  /\ ((exists r, _create_survival_chart_direct df = Normal r)
      /\ (exists r, _create_age_chart_direct df = Normal r)
      /\ (exists r, _create_class_chart_direct df = Normal r)
      /\ (exists r, _create_gender_chart_direct df = Normal r)
      /\ (exists r, _generate_ai_chart df user_query = Normal r))
  /\ ((forall prompt, exists e, generate_content prompt = Raise e) ->
      _determine_user_intent user_query = "text" ->
      exists e, generate_chart generate_content df user_query history
                = Normal (ErrorPayload ("Failed to generate text response: " ++ e)))
  /\ generate_chart generate_content df user_query history
     = (if String.eqb (_determine_user_intent user_query) "chart"
        then _generate_chart_response df user_query history
        else _generate_text_response generate_content df user_query history)
  /\ (exists prompt,
        _generate_text_response generate_content df user_query history
        = Normal match generate_content prompt with
                 | Normal answer => TextAnswer (strip answer)
                 | Raise e =>
                     ErrorPayload ("Failed to generate text response: " ++ e)
                 end)
  /\ (forall pclass e,
        getitem df "Pclass" = Normal pclass ->
        sort_index (value_counts pclass) = Raise e ->
        _create_class_chart_direct df
        = Normal (ErrorPayload ("Failed to create class chart: " ++ e))
        /\ (_determine_user_intent user_query = "chart" ->
            contains "survival" (lower user_query)
            && (contains "chart" (lower user_query)
                || contains "plot" (lower user_query)) = false ->
            contains "age" (lower user_query)
            && (contains "distribution" (lower user_query)
                || contains "chart" (lower user_query)
                || contains "histogram" (lower user_query)) = false ->
            (contains "class" (lower user_query)
             || contains "pclass" (lower user_query))
            && (contains "chart" (lower user_query)
                || contains "bar" (lower user_query)) = true ->
            generate_chart generate_content df user_query history
            = Normal (ErrorPayload ("Failed to create class chart: " ++ e))))
  /\ (forall msg,
        generate_chart generate_content df user_query history
        = Normal (ErrorPayload msg) ->
        In msg [ "Survival data not found in this dataset";
                 "Age data not found in this dataset";
                 "Passenger class data not found in this dataset";
                 "Gender data not found in this dataset";
                 "Could not determine what chart to create from your request" ]
        \/ (exists prompt e,
              generate_content prompt = Raise e
              /\ msg = "Failed to generate text response: " ++ e)
        \/ (exists pclass e,
              getitem df "Pclass" = Normal pclass
              /\ sort_index (value_counts pclass) = Raise e
              /\ msg = "Failed to create class chart: " ++ e)).
Proof.
  split; [|split; [|split; [|split; [|split; [|split; [|split; [|split]]]]]]].
  - unfold generate_chart. boundary. cbv zeta in Hx.
    destruct (String.eqb _ _).
    + destruct (chart_response_total df user_query history) as [r Hr].
      rewrite Hr in Hx. injection Hx as <-; eauto.
    + destruct (text_response_total generate_content df user_query history) as [r Hr].
      rewrite Hr in Hx. injection Hx as <-; eauto.
  - apply chart_response_total.
  - apply text_response_total.
  - repeat split.
    + apply survival_direct_total.
    + apply age_direct_total.
    + apply class_direct_total.
    + apply gender_direct_total.
    + apply ai_chart_total.
  - intros Hdown Hintent.
    destruct (text_response_oracle_raises generate_content df user_query history Hdown)
      as [e He].
    exists e. unfold generate_chart. cbv zeta. rewrite Hintent, He. reflexivity.
  - unfold generate_chart. cbv zeta.
    destruct (String.eqb _ _).
    + destruct (chart_response_total df user_query history) as [r ->].
      reflexivity.
    + destruct (text_response_total generate_content df user_query history)
        as [r ->].
      reflexivity.
  - apply text_response_of_oracle.
  - intros pclass e Hg Hsort.
    split; [now apply class_direct_sort_raises with pclass|].
    intros Hintent Hsurv Hage Hclass.
    rewrite (chart_intent_response generate_content df user_query history Hintent).
    rewrite chart_response_branch. cbv zeta. rewrite Hsurv, Hage, Hclass.
    now apply class_direct_sort_raises with pclass.
  - apply router_error.
Qed.

(* ================================================================= *)
(** ** Table information *)

Lemma combine_snd {A B} (l : list A) (l' : list B) :
  List.length l = List.length l' -> map snd (combine l l') = l'.
Proof.
  revert l'; induction l as [|x l IH]; intros [|y l'] H; simpl in *;
    try discriminate; [reflexivity|].
  now rewrite IH by lia.
Qed.

Lemma combine_fst {A B} (l : list A) (l' : list B) :
  List.length l = List.length l' -> map fst (combine l l') = l.
Proof.
  revert l'; induction l as [|x l IH]; intros [|y l'] H; simpl in *;
    try discriminate; [reflexivity|].
  now rewrite IH by lia.
Qed.

Lemma zsum_counts_nonneg df :
  (0 <= zsum (df_count df))%Z /\ (0 <= zsum (df_isnull_sum df))%Z.
Proof.
  unfold df_count, df_isnull_sum, count_notna, count_null.
  induction (series df) as [|s l [IH1 IH2]]; simpl; lia.
Qed.

(** The completeness before rounding lies between 0 and 100. *)
Lemma info_completeness_range df :
  well_formed df ->
  exists q, info_completeness df = Fin q /\ 0 <= q /\ q <= 100.
Proof.
  intros W. unfold info_completeness, shape. cbn [fst snd].
  pose proof (cells_add_up df W) as Hsum.
  destruct (zsum_counts_nonneg df) as [Hc Hn].
  destruct (_ >? 0)%Z eqn:Hpos.
  - apply Z.gtb_lt in Hpos.
    rewrite truediv_nonzero by lia. cbn [fmul]. eexists. split; [reflexivity|].
    set (t := (Z.of_nat (n_rows df) * Z.of_nat (List.length (series df)))%Z) in *.
    assert (Ht : 0 < inject_Z t)
      by (change (inject_Z 0 < inject_Z t); rewrite <- Zlt_Qlt; exact Hpos).
    assert (Hc' : 0 <= inject_Z (zsum (df_count df)))
      by (change (inject_Z 0 <= inject_Z (zsum (df_count df)));
          rewrite <- Zle_Qle; exact Hc).
    assert (Hle : inject_Z (zsum (df_count df)) <= inject_Z t)
      by (rewrite <- Zle_Qle; lia).
    split.
    + apply Qmult_le_0_compat; [|discriminate].
      apply Qle_shift_div_l; [exact Ht | lra].
    + setoid_replace 100 with (1 * 100) at 2 by reflexivity.
      apply Qmult_le_compat_r; [|discriminate].
      apply Qle_shift_div_r; [exact Ht | lra].
  - exists 0. repeat split; discriminate.
Qed.

Lemma fle_comp a a' b b' :
  a == a' -> b == b' -> fle (Fin a) (Fin b) -> fle (Fin a') (Fin b').
Proof.
  unfold fle, flt, feq. intros Ea Eb [H | H]; [left | right];
    now rewrite <- Ea, <- Eb.
Qed.

(** X18. The table information is consistent: on a table in which every
    column has one cell per row, the non-null cells and the null counts
    of the columns add up to the total number of cells, which is rows
    times columns; the null counts are listed under the column names, in
    order; the health score lies in [0, 100] and so does the completeness
    percentage, also after rounding. *)
Theorem dataframe_info_is_consistent (df : DataFrame) (info : dataframe_info) :
  well_formed df ->
  _get_dataframe_info df = Normal info ->
  (info_non_null_cells info + zsum (map snd (info_null_counts info))
   = info_total_cells info)%Z
  /\ info_total_cells info = (fst (info_shape info) * snd (info_shape info))%Z
  /\ (0 <= info_non_null_cells info <= info_total_cells info)%Z
  /\ map fst (info_null_counts info) = info_columns info
  /\ List.length (info_columns info) = Z.to_nat (snd (info_shape info))
  /\ (0 <= data_health_score info <= 100)%Z
  /\ fle (Fin 0) (completeness_percentage info)
  /\ fle (completeness_percentage info) (Fin 100).
Proof.
  intros W H. unfold _get_dataframe_info in H.
  destruct (_calculate_health_score df) as [z|e] eqn:Hz; [|discriminate].
  cbn [bind] in H. injection H as <-.
  cbn [info_non_null_cells info_null_counts info_total_cells info_shape
       info_columns data_health_score completeness_percentage].
  assert (L : List.length (columns df) = List.length (df_isnull_sum df)).
  { unfold columns, df_isnull_sum. now rewrite !length_map. }
  pose proof (cells_add_up df W) as Hsum.
  destruct (zsum_counts_nonneg df) as [Hc Hn].
  rewrite (combine_snd _ _ L), (combine_fst _ _ L).
  unfold shape. cbn [fst snd].
  repeat split; try lia.
  - unfold columns. rewrite length_map. now rewrite Nat2Z.id.
  - now apply (health_score_range df).
  - now apply (health_score_range df).
  - destruct (info_completeness_range df W) as [q [-> [Q0 Q1]]].
    pose proof (round1_mono 0 q Q0) as R. unfold round1 in *.
    replace (rint (0 * 10)) with 0%Z in R by reflexivity.
    revert R. apply fle_comp; reflexivity.
  - destruct (info_completeness_range df W) as [q [-> [Q0 Q1]]].
    pose proof (round1_mono q 100 Q1) as R. unfold round1 in *.
    replace (rint (100 * 10)) with 1000%Z in R by reflexivity.
    revert R. apply fle_comp; reflexivity.
Qed.

Lemma dataframe_info_is_consistent_witness :
  exists info,
    _get_dataframe_info Samples.age_fare = Normal info
    /\ (info_non_null_cells info + zsum (map snd (info_null_counts info))
        = info_total_cells info)%Z
    /\ info_total_cells info = (fst (info_shape info) * snd (info_shape info))%Z
    /\ (0 <= info_non_null_cells info <= info_total_cells info)%Z
    /\ map fst (info_null_counts info) = info_columns info
    /\ List.length (info_columns info) = Z.to_nat (snd (info_shape info))
    /\ (0 <= data_health_score info <= 100)%Z
    /\ fle (Fin 0) (completeness_percentage info)
    /\ fle (completeness_percentage info) (Fin 100).
Proof.
  eexists.
  refine ((fun H => conj H
             (dataframe_info_is_consistent Samples.age_fare _
                (well_formed_check Samples.age_fare eq_refl) H)) _).
  vm_compute. reflexivity.
Defined.

Example age_fare_information :
  match _get_dataframe_info Samples.age_fare with
  | Normal info =>
      (info_total_cells info, info_non_null_cells info,
       info_null_counts info, data_health_score info)
  | Raise _ => (0, 0, [], 0)%Z
  end
  = (8, 7, [("Age", 1); ("Fare", 0)], 87)%Z.
Proof. vm_compute. reflexivity. Qed.

(* ================================================================= *)
(** ** Insight narrator: what it counts *)

(** X19. The gender narrative counts the cells that hold exactly "male"
    and exactly "female": on a column [Sex] without such a cell
    (differently spelled or capitalised values, numbers) the narrator
    reports "Analysis error: No gender data available", with the
    significance "Unable to calculate due to data issues". *)
Theorem gender_narrative_needs_exact_values (df : DataFrame) (sex : Series) :
  getitem df "Sex" = Normal sex ->
  count_eq sex (SStr "male") = 0%Z ->
  count_eq sex (SStr "female") = 0%Z ->
  generate_chart_insights df "gender_analysis"
  = _error_insights "No gender data available".
Proof.
  intros G Hm Hf.
  assert (Hc : has_column "Sex" df = true)
    by (apply has_column_getitem; now exists sex).
  unfold generate_chart_insights.
  change (String.eqb "gender_analysis" "survival_analysis") with false.
  change (String.eqb "gender_analysis" "age_analysis") with false.
  change (String.eqb "gender_analysis" "gender_analysis") with true.
  cbv iota. unfold _gender_insights. rewrite Hc, G. cbn [negb bind]. cbv zeta.
  rewrite !get_of_string, !get_value_counts, Hm, Hf. reflexivity.
Qed.

Lemma gender_narrative_needs_exact_values_witness :
  generate_chart_insights
    (mkDF 3 [ mkSeries "Sex" Object
                [Samples.str "Male"; Samples.str "Female"; Samples.str "Female"];
              mkSeries "Survived" Int64
                [Samples.num 0; Samples.num 1; Samples.num 1] ])
    "gender_analysis"
  = _error_insights "No gender data available".
Proof.
  apply (gender_narrative_needs_exact_values _
           (mkSeries "Sex" Object
              [Samples.str "Male"; Samples.str "Female"; Samples.str "Female"]));
    reflexivity.
Defined.

(* ----------------------------------------------------------------- *)
(** *** The age groups *)

Lemma age_groups_partition (ages : list Q) :
  (count_lt ages 18 + count_between ages 18 65 + count_ge ages 65)%Z
  = Z.of_nat (List.length ages).
Proof.
  unfold count_lt, count_between, count_ge.
  induction ages as [|q ages IH]; [reflexivity|].
  cbn [filter List.length].
  destruct (Qle_bool 18 q) eqn:A; destruct (Qle_bool 65 q) eqn:B;
    cbn [negb andb List.length]; try lia.
  exfalso. apply Qle_bool_iff in B.
  assert (H : 18 <= q) by lra. apply Qle_bool_iff in H. congruence.
Qed.

Lemma numbers_length l qs :
  numbers l = Normal qs -> List.length qs = List.length l.
Proof.
  revert qs; induction l as [|[q|s] l IH]; intros qs; simpl.
  - intros H. now injection H as <-.
  - destruct (numbers l) as [qs'|e]; simpl; [|discriminate].
    intros H. injection H as <-. simpl. now rewrite (IH qs').
  - discriminate.
Qed.

(** X20. The three age groups of the age narrative (under 18, from 18
    to under 65, 65 and over) partition the passengers with a known
    age: when the narrative is built, its second finding states the
    three counts, which add up to the number of non-null cells of
    [Age], and its third finding states that number and the number of
    all rows. *)
Theorem age_groups_cover_the_known_ages
    (df : DataFrame) (age : Series) (b : InsightBundle) :
  getitem df "Age" = Normal age ->
  dropna age <> [] ->
  _age_insights df = Normal b ->
  exists ages share,
    numbers (dropna age) = Normal ages
    /\ nth 1 (key_findings b) []
       = [Lit "Age groups: "; Int (count_lt ages 18); Lit " children, ";
          Int (count_between ages 18 65); Lit " adults, ";
          Int (count_ge ages 65); Lit " elderly"]
    /\ (count_lt ages 18 + count_between ages 18 65 + count_ge ages 65
        = count_notna age)%Z
    /\ nth 2 (key_findings b) []
       = [Lit "Age data available for "; Int (count_notna age); Lit " of ";
          Int (Z.of_nat (n_rows df)); Lit " passengers ("; Num ".1f" share;
          Lit "%)"].
Proof.
  intros G D H.
  assert (Hc : has_column "Age" df = true)
    by (apply has_column_getitem; now exists age).
  assert (N : count_notna age = Z.of_nat (List.length (dropna age))).
  { unfold count_notna. now rewrite <- dropna_notna, length_map. }
  unfold _age_insights in H. rewrite Hc, G in H. cbn [negb bind] in H.
  cbv zeta in H.
  destruct (List.length (dropna age) =? 0)%nat eqn:E.
  { apply Nat.eqb_eq in E. destruct (dropna age); [congruence | discriminate]. }
  destruct (mean (s_values age)) as [mean_age|e]; [|discriminate].
  destruct (median (s_values age)) as [median_age|e]; [|discriminate].
  cbn [bind] in H.
  destruct (numbers (dropna age)) as [ages|e] eqn:Ha; [|discriminate].
  cbn [bind] in H.
  match type of H with
  | bind ?m _ = _ => destruct m as [extra|e]; [|discriminate]
  end.
  cbn [bind] in H. injection H as <-. cbn [key_findings app nth].
  exists ages. eexists. split; [reflexivity|]. split; [reflexivity|]. split.
  - rewrite age_groups_partition, N. f_equal. now apply numbers_length.
  - rewrite N. reflexivity.
Qed.

Lemma age_groups_cover_the_known_ages_witness :
  exists b ages share,
    _age_insights Samples.passengers = Normal b
    /\ numbers (dropna (mkSeries "Age" Float64
                  [Samples.num 22; Samples.num 38; None; Samples.num 35]))
       = Normal ages
    /\ nth 1 (key_findings b) []
       = [Lit "Age groups: "; Int (count_lt ages 18); Lit " children, ";
          Int (count_between ages 18 65); Lit " adults, ";
          Int (count_ge ages 65); Lit " elderly"]
    /\ (count_lt ages 18 + count_between ages 18 65 + count_ge ages 65
        = count_notna (mkSeries "Age" Float64
            [Samples.num 22; Samples.num 38; None; Samples.num 35]))%Z
    /\ nth 2 (key_findings b) []
       = [Lit "Age data available for ";
          Int (count_notna (mkSeries "Age" Float64
                 [Samples.num 22; Samples.num 38; None; Samples.num 35]));
          Lit " of "; Int (Z.of_nat (n_rows Samples.passengers));
          Lit " passengers ("; Num ".1f" share; Lit "%)"].
Proof.
  eexists.
  refine ((fun H =>
     match age_groups_cover_the_known_ages Samples.passengers
             (mkSeries "Age" Float64
                [Samples.num 22; Samples.num 38; None; Samples.num 35])
             _ eq_refl _ H with
     | ex_intro _ a (ex_intro _ s R) =>
         ex_intro _ a (ex_intro _ s (conj H R))
     end) _).
  - discriminate.
  - vm_compute. reflexivity.
Defined.

Example passengers_age_groups :
  match _age_insights Samples.passengers with
  | Normal b => nth 1 (key_findings b) []
  | Raise _ => []
  end
  = [Lit "Age groups: "; Int 0; Lit " children, "; Int 3; Lit " adults, ";
     Int 0; Lit " elderly"].
Proof. vm_compute. reflexivity. Qed.

(* ================================================================= *)
(** ** Chart catalogue: its entries in order *)

Lemma runs_for_each_pure {A B} h0 (f : A -> M (option B)) (g : A -> option B)
    (l : list A) :
  (forall x, In x l -> runs h0 (f x) (fun o => o = g x)) ->
  runs h0 (for_each f l)
    (fun cs => cs = flat_map (fun x => match g x with
                                       | Some b => [b] | None => [] end) l).
Proof.
  induction l as [|x l IH]; intros Hf; cbn [for_each flat_map].
  - now apply runs_ret.
  - eapply runs_bind; [apply Hf; now left|]. intros o Ho. cbv beta in Ho.
    eapply runs_bind; [apply IH; intros y Hy; apply Hf; now right|].
    intros cs Hcs. cbv beta in Hcs. apply runs_ret. subst o cs.
    now destruct (g x).
Qed.

Lemma length_insert_by {A} before (x : A) l :
  List.length (insert_by before x l) = S (List.length l).
Proof.
  induction l as [|y l IH]; simpl; [reflexivity|].
  destruct (before x y); simpl; [reflexivity | now rewrite IH].
Qed.

Lemma length_sort_by {A} before (l : list A) :
  List.length (sort_by before l) = List.length l.
Proof.
  induction l as [|x l IH]; [reflexivity|].
  unfold sort_by in *. cbn [fold_right List.length].
  now rewrite length_insert_by, IH.
Qed.

Lemma length_value_counts s : List.length (value_counts s) = nunique s.
Proof. unfold value_counts, counts_of, nunique. apply length_sort_by. Qed.

(** The catalogue as a list of its parts. *)
Lemma catalogue_parts df_sample h0 df d :
  nth_error h0 df = Some d ->
  runs h0 (_generate_premium_charts df_sample df)
    (fun cs =>
       exists age family : option chart_entry,
         (forall e, age = Some e -> c_type e = "age_analysis")
         /\ (forall e, family = Some e -> c_type e = "family_analysis")
         /\ cs
            = (when true (_create_data_overview_chart df_sample d)
               ++ when (has_column "Survived" d && has_column "Pclass" d)
                       (_create_survival_analysis_chart d)
               ++ when (has_column "Age" d) age
               ++ when (has_column "Pclass" d) (_create_class_analysis_chart d)
               ++ when (has_column "Sex" d) (_create_gender_analysis_chart d)
               ++ when (has_column "Fare" d) (_create_fare_analysis_chart d)
               ++ when (has_column "Embarked" d)
                       (_create_embarkation_analysis_chart d)
               ++ when (has_column "SibSp" d && has_column "Parch" d) family
               ++ flat_map (fun ic => entries (plain_histogram d ic))
                           (enumerate (select_dtypes is_number d))
               ++ flat_map (fun ic => entries (donut d ic))
                           (enumerate (select_dtypes is_object d))
               ++ when (3 <=? List.length (select_dtypes is_number d))%nat
                       (_create_premium_correlation_heatmap d
                          (select_dtypes is_number d)))%list).
Proof.
  intros Hd. unfold _generate_premium_charts.
  eapply runs_bind; [apply runs_deref; exact Hd|].
  intros d0 E; cbv beta in E; subst d0. cbv zeta.
  eapply runs_bind with
    (P := fun l => exists age : option chart_entry,
            (forall e, age = Some e -> c_type e = "age_analysis")
            /\ l = when (has_column "Age" d) age).
  { destruct (has_column "Age" d).
    - eapply runs_bind; [apply age_chart_runs|]. intros c Hc. apply runs_ret.
      now exists c.
    - apply runs_ret. exists None. split; [discriminate | reflexivity]. }
  intros age_part [age [Hage ->]].
  eapply runs_bind; [apply runs_deref; exact Hd|].
  intros d0 E; cbv beta in E; subst d0.
  eapply runs_bind with
    (P := fun l => exists family : option chart_entry,
            (forall e, family = Some e -> c_type e = "family_analysis")
            /\ l = when (has_column "SibSp" d && has_column "Parch" d) family).
  { destruct (has_column "SibSp" d && has_column "Parch" d).
    - eapply runs_bind; [apply family_chart_runs|]. intros c Hc. apply runs_ret.
      now exists c.
    - apply runs_ret. exists None. split; [discriminate | reflexivity]. }
  intros family_part [family [Hfamily ->]].
  eapply runs_bind with
    (P := fun l => l = flat_map (fun ic => entries (plain_histogram d ic))
                         (enumerate (select_dtypes is_number d))).
  { apply (runs_for_each_pure h0 _ (plain_histogram d)).
    intros [i col] Hin. apply in_enumerate in Hin.
    unfold plain_histogram. cbn [fst snd].
    destruct (negb (mem col covered_numeric)); [|now apply runs_ret].
    eapply runs_bind; [apply runs_deref; exact Hd|].
    intros d0 E; cbv beta in E; subst d0.
    destruct (numeric_column_exists d col Hin) as [s Hs]. rewrite Hs.
    eapply runs_bind; [apply (runs_lift h0 _ s (fun x => x = s) eq_refl eq_refl)|].
    intros s0 E; cbv beta in E; subst s0.
    destruct (count_notna s >? 0)%Z; now apply runs_ret. }
  intros histograms ->.
  eapply runs_bind with
    (P := fun l => l = flat_map (fun ic => entries (donut d ic))
                         (enumerate (select_dtypes is_object d))).
  { apply (runs_for_each_pure h0 _ (donut d)).
    intros [i col] Hin. apply in_enumerate in Hin.
    unfold donut. cbn [fst snd].
    destruct (negb (mem col covered_categorical)); [|now apply runs_ret].
    eapply runs_bind; [apply runs_deref; exact Hd|].
    intros d0 E; cbv beta in E; subst d0.
    destruct (object_column_exists d col Hin) as [s Hs]. rewrite Hs.
    eapply runs_bind; [apply (runs_lift h0 _ s (fun x => x = s) eq_refl eq_refl)|].
    intros s0 E; cbv beta in E; subst s0.
    destruct (_ && _); now apply runs_ret. }
  intros categoricals ->.
  eapply runs_bind; [apply runs_deref; exact Hd|].
  intros d0 E; cbv beta in E; subst d0.
  apply runs_ret. exists age, family. now repeat split.
Qed.

Lemma in_entries (o : option chart_entry) c : In c (entries o) -> o = Some c.
Proof. destruct o; simpl; [intros [-> | []]; reflexivity | tauto]. Qed.

Lemma plain_histogram_type d ic c :
  plain_histogram d ic = Some c -> c_type c = "histogram".
Proof.
  unfold plain_histogram.
  destruct (negb _); [|discriminate].
  destruct (getitem d (snd ic)) as [s|e]; [|discriminate].
  destruct (_ >? _)%Z; [|discriminate].
  intros H. apply premium_histogram_entry in H.
  destruct H as [s' [_ [T _]]]. exact T.
Qed.

(** What the loop over the [object] columns adds for a column. *)
Lemma donut_entry d i col c :
  donut d (i, col) = Some c ->
  mem col covered_categorical = false
  /\ exists s,
       getitem d col = Normal s
       /\ (2 <= nunique s <= 15)%nat
       /\ c = mkEntry "categorical" ("🎯 Distribution of " ++ col)
                [Pie (map (fun e => LVal (fst e)) (value_counts s))
                     (map snd (value_counts s))]
                (generate_chart_insights d "categorical").
Proof.
  unfold donut. cbn [fst snd].
  destruct (mem col covered_categorical); [discriminate|]. cbn [negb].
  destruct (getitem d col) as [s|e] eqn:G; [|discriminate].
  destruct (_ && _) eqn:N; [|discriminate].
  apply andb_true_iff in N. destruct N as [N1 N2].
  apply Nat.leb_le in N1. apply Nat.ltb_lt in N2. unfold max_categories in N1.
  unfold _create_premium_categorical_chart, or_none. rewrite G. cbn [bind].
  cbv zeta. unfold try_except.
  rewrite firstn_all2 by (rewrite length_value_counts; exact N1).
  intros H. injection H as <-. split; [reflexivity|].
  exists s. repeat split; lia.
Qed.

Lemma donut_built d i col s :
  mem col covered_categorical = false ->
  getitem d col = Normal s ->
  (2 <= nunique s <= 15)%nat ->
  donut d (i, col)
  = Some (mkEntry "categorical" ("🎯 Distribution of " ++ col)
            [Pie (map (fun e => LVal (fst e)) (value_counts s))
                 (map snd (value_counts s))]
            (generate_chart_insights d "categorical")).
Proof.
  intros M G [N1 N2]. unfold donut. cbn [fst snd]. rewrite M, G. cbn [negb].
  assert (E : (nunique s <=? max_categories)%nat && (1 <? nunique s)%nat = true).
  { apply andb_true_iff. split; [apply Nat.leb_le | apply Nat.ltb_lt];
      unfold max_categories; lia. }
  rewrite E. unfold _create_premium_categorical_chart, or_none. rewrite G.
  cbn [bind]. cbv zeta. unfold try_except.
  rewrite firstn_all2 by (rewrite length_value_counts; exact N2).
  reflexivity.
Qed.

Lemma enumerate_position {A} (l : list A) x :
  In x l -> exists i, In (i, x) (enumerate l).
Proof.
  unfold enumerate. generalize 0%nat.
  induction l as [|y l IH]; intros n; simpl; [tauto|].
  intros [-> | H].
  - exists n. now left.
  - destruct (IH (S n) H) as [i Hi]. exists i. now right.
Qed.

(** X21. The donut charts of the catalogue are the frequency tables of
    the [object] columns, other than [Sex] and [Embarked], that have 2
    to 15 distinct values: every entry of type "categorical" is the
    donut of such a column, with one slice for each distinct value, and
    every such column has its donut in the catalogue. *)
Theorem donuts_of_the_catalogue
    (df_sample : nat -> DataFrame -> DataFrame)
    (h : heap) (df : ref) (d : DataFrame) :
  nth_error h df = Some d ->
  exists charts,
    fst (_generate_premium_charts df_sample df h) = Normal charts
    /\ (forall c, In c charts -> c_type c = "categorical" -> donut_of d c)
    /\ (forall col s,
          In col (select_dtypes is_object d) ->
          mem col covered_categorical = false ->
          getitem d col = Normal s ->
          (2 <= nunique s <= 15)%nat ->
          In (mkEntry "categorical" ("🎯 Distribution of " ++ col)
                [Pie (map (fun e => LVal (fst e)) (value_counts s))
                     (map snd (value_counts s))]
                (generate_chart_insights d "categorical"))
             charts).
Proof.
  intros Hd.
  destruct (catalogue_parts df_sample h df d Hd h (extends_refl h))
    as [_ [charts [Hc [age [family [Ha [Hf ->]]]]]]].
  exists (when true (_create_data_overview_chart df_sample d)
          ++ when (has_column "Survived" d && has_column "Pclass" d)
                  (_create_survival_analysis_chart d)
          ++ when (has_column "Age" d) age
          ++ when (has_column "Pclass" d) (_create_class_analysis_chart d)
          ++ when (has_column "Sex" d) (_create_gender_analysis_chart d)
          ++ when (has_column "Fare" d) (_create_fare_analysis_chart d)
          ++ when (has_column "Embarked" d)
                  (_create_embarkation_analysis_chart d)
          ++ when (has_column "SibSp" d && has_column "Parch" d) family
          ++ flat_map (fun ic => entries (plain_histogram d ic))
                      (enumerate (select_dtypes is_number d))
          ++ flat_map (fun ic => entries (donut d ic))
                      (enumerate (select_dtypes is_object d))
          ++ when (3 <=? List.length (select_dtypes is_number d))%nat
                  (_create_premium_correlation_heatmap d
                     (select_dtypes is_number d)))%list.
  split; [exact Hc|]. split.
  - intros c Hin Htype.
    repeat (apply in_app_or in Hin; destruct Hin as [Hin|Hin]);
      try (apply in_when in Hin);
      try (apply overview_type in Hin); try (apply survival_type in Hin);
      try (apply class_type in Hin); try (apply gender_type in Hin);
      try (apply fare_type in Hin); try (apply embarkation_type in Hin);
      try (apply correlation_type in Hin);
      try (apply Ha in Hin); try (apply Hf in Hin);
      try (rewrite Htype in Hin; discriminate).
    + apply in_flat_map in Hin. destruct Hin as [ic [_ Hin]].
      apply in_entries, plain_histogram_type in Hin.
      rewrite Htype in Hin. discriminate.
    + apply in_flat_map in Hin. destruct Hin as [[i col] [Hic Hin]].
      apply in_entries in Hin. apply in_enumerate in Hic.
      destruct (donut_entry d i col c Hin) as [M [s [G [N ->]]]].
      exists col, s. repeat split; try lia; try assumption.
      apply length_value_counts.
  - intros col s Hcol M G N.
    destruct (enumerate_position _ col Hcol) as [i Hi].
    do 9 (apply in_or_app; right). apply in_or_app. left.
    apply in_flat_map. exists (i, col). split; [exact Hi|].
    rewrite (donut_built d i col s M G N). now left.
Qed.

Lemma donuts_of_the_catalogue_witness :
  let d :=
    mkDF 4 [ mkSeries "Deck" Object
               [Samples.str "A"; Samples.str "C"; Samples.str "C"; None];
             mkSeries "Ticket" Object
               [Samples.str "x1"; Samples.str "x1"; Samples.str "x1";
                Samples.str "x1"] ] in
  exists charts,
    fst (_generate_premium_charts Samples.keep_all 0%nat [d]) = Normal charts
    /\ (forall c, In c charts -> c_type c = "categorical" -> donut_of d c)
    /\ (forall col s,
          In col (select_dtypes is_object d) ->
          mem col covered_categorical = false ->
          getitem d col = Normal s ->
          (2 <= nunique s <= 15)%nat ->
          In (mkEntry "categorical" ("🎯 Distribution of " ++ col)
                [Pie (map (fun e => LVal (fst e)) (value_counts s))
                     (map snd (value_counts s))]
                (generate_chart_insights d "categorical"))
             charts).
Proof.
  intros d.
  apply (donuts_of_the_catalogue Samples.keep_all [d] 0%nat d).
  reflexivity.
Defined.

Example deck_donut :
  match fst (_generate_premium_charts Samples.keep_all 0%nat
               [ mkDF 4 [ mkSeries "Deck" Object
                            [Samples.str "A"; Samples.str "C"; Samples.str "C";
                             None];
                          mkSeries "Ticket" Object
                            [Samples.str "x1"; Samples.str "x1";
                             Samples.str "x1"; Samples.str "x1"] ] ]) with
  | Normal charts =>
      map (fun c => (c_title c, c_data c))
          (filter (fun c => String.eqb (c_type c) "categorical") charts)
  | Raise _ => []
  end
  = [ ("🎯 Distribution of Deck",
       [Pie [LVal (SStr "C"); LVal (SStr "A")] [2; 1]%Z]) ].
Proof. vm_compute. reflexivity. Qed.

Lemma when_types b o t :
  (forall c, o = Some c -> c_type c = t) ->
  map c_type (when b o) = optional (b && built o) t.
Proof.
  intros H. destruct b, o as [c|]; simpl; try reflexivity.
  now rewrite (H c eq_refl).
Qed.

Lemma loop_types {A} (g : A -> option chart_entry) t (l : list A) :
  (forall x c, g x = Some c -> c_type c = t) ->
  exists n,
    map c_type (flat_map (fun x => entries (g x)) l) = repeat t n
    /\ (n <= List.length l)%nat.
Proof.
  intros H. induction l as [|x l [n [E L]]]; simpl.
  - now exists 0%nat.
  - rewrite map_app, E. destruct (g x) as [c|] eqn:G; simpl.
    + exists (S n). rewrite (H x c G). split; [reflexivity | lia].
    + exists n. split; [reflexivity | lia].
Qed.

Lemma length_enumerate {A} (l : list A) :
  List.length (enumerate l) = List.length l.
Proof.
  unfold enumerate. rewrite length_combine, length_seq. apply Nat.min_id.
Qed.

Lemma overview_built df_sample d :
  built (_create_data_overview_chart df_sample d) = true
  <-> exists score, _calculate_health_score d = Normal score.
Proof.
  unfold _create_data_overview_chart, or_none. cbv zeta.
  destruct (_calculate_health_score d) as [z|e]; cbn [bind try_except built].
  - split; [intros _; now exists z | reflexivity].
  - split; [discriminate | intros [z H]; discriminate].
Qed.

Lemma embarkation_built d :
  has_column "Embarked" d = true ->
  built (_create_embarkation_analysis_chart d) = true.
Proof.
  intros H. apply has_column_getitem in H. destruct H as [s Hs].
  unfold _create_embarkation_analysis_chart, or_none. now rewrite Hs.
Qed.

Lemma fare_built d :
  has_column "Fare" d = true -> built (_create_fare_analysis_chart d) = true.
Proof.
  intros H. apply has_column_getitem in H. destruct H as [s Hs].
  now rewrite (fare_chart_built d s Hs).
Qed.

(** X22. The catalogue lists its charts in a fixed order of types:
    overview, survival, age, class, gender, fare, embarkation, family,
    then the plain histograms, then the donuts, then the correlation
    matrix. A dashboard occurs at most once, and only if the table has
    its columns; the fare and the embarkation chart occur whenever
    their column exists and the correlation matrix whenever there are
    three numeric columns; the overview occurs exactly when the health
    score can be computed. *)
Theorem catalogue_in_order
    (df_sample : nat -> DataFrame -> DataFrame)
    (h : heap) (df : ref) (d : DataFrame) :
  nth_error h df = Some d ->
  exists charts overview survival age class gender family histograms categoricals,
    fst (_generate_premium_charts df_sample df h) = Normal charts
    /\ map c_type charts
       = (optional overview "overview"
          ++ optional survival "survival_analysis"
          ++ optional age "age_analysis"
          ++ optional class "class_analysis"
          ++ optional gender "gender_analysis"
          ++ optional (has_column "Fare" d) "fare_analysis"
          ++ optional (has_column "Embarked" d) "embarkation_analysis"
          ++ optional family "family_analysis"
          ++ repeat "histogram" histograms
          ++ repeat "categorical" categoricals
          ++ optional (3 <=? List.length (select_dtypes is_number d))%nat
                      "correlation")%list
    /\ (overview = true <-> exists score, _calculate_health_score d = Normal score)
    /\ (survival = true ->
        has_column "Survived" d && has_column "Pclass" d = true)
    /\ (age = true -> has_column "Age" d = true)
    /\ (class = true -> has_column "Pclass" d = true)
    /\ (gender = true -> has_column "Sex" d = true)
    /\ (family = true -> has_column "SibSp" d && has_column "Parch" d = true)
    /\ (histograms <= List.length (select_dtypes is_number d))%nat
    /\ (categoricals <= List.length (select_dtypes is_object d))%nat.
Proof.
  intros Hd.
  destruct (catalogue_parts df_sample h df d Hd h (extends_refl h))
    as [_ [charts [Hc [age [family [Ha [Hf E]]]]]]].
  destruct (loop_types (plain_histogram d) "histogram"
              (enumerate (select_dtypes is_number d))
              (plain_histogram_type d)) as [nh [Eh Lh]].
  destruct (loop_types (donut d) "categorical"
              (enumerate (select_dtypes is_object d))) as [nc [Ec Lc]].
  { intros [i col] c H. apply donut_entry in H.
    destruct H as [_ [s [_ [_ ->]]]]. reflexivity. }
  rewrite length_enumerate in Lh, Lc.
  exists charts,
    (built (_create_data_overview_chart df_sample d)),
    (has_column "Survived" d && has_column "Pclass" d
     && built (_create_survival_analysis_chart d)),
    (has_column "Age" d && built age),
    (has_column "Pclass" d && built (_create_class_analysis_chart d)),
    (has_column "Sex" d && built (_create_gender_analysis_chart d)),
    (has_column "SibSp" d && has_column "Parch" d && built family),
    nh, nc.
  split; [exact Hc|]. split.
  - rewrite E, !map_app, Eh, Ec.
    rewrite (when_types _ _ "overview" (overview_type df_sample d)).
    rewrite (when_types _ _ "survival_analysis" (survival_type d)).
    rewrite (when_types _ _ "age_analysis" Ha).
    rewrite (when_types _ _ "class_analysis" (class_type d)).
    rewrite (when_types _ _ "gender_analysis" (gender_type d)).
    rewrite (when_types _ _ "fare_analysis" (fare_type d)).
    rewrite (when_types _ _ "embarkation_analysis" (embarkation_type d)).
    rewrite (when_types _ _ "family_analysis" Hf).
    rewrite (when_types _ _ "correlation"
               (correlation_type d (select_dtypes is_number d))).
    cbn [andb].
    assert (F : has_column "Fare" d && built (_create_fare_analysis_chart d)
                = has_column "Fare" d).
    { destruct (has_column "Fare" d) eqn:H; [|reflexivity].
      now rewrite (fare_built d H). }
    assert (B : has_column "Embarked" d
                && built (_create_embarkation_analysis_chart d)
                = has_column "Embarked" d).
    { destruct (has_column "Embarked" d) eqn:H; [|reflexivity].
      now rewrite (embarkation_built d H). }
    rewrite F, B.
    assert (K : built (_create_premium_correlation_heatmap d
                         (select_dtypes is_number d)) = true) by reflexivity.
    rewrite K, andb_true_r. reflexivity.
  - split; [apply overview_built|].
    repeat split; try assumption;
      intros H; repeat (apply andb_true_iff in H; destruct H as [H ?]);
      try assumption; now apply andb_true_iff.
Qed.

Lemma catalogue_in_order_witness :
  exists charts overview survival age class gender family histograms categoricals,
    fst (_generate_premium_charts Samples.keep_all 0%nat [Samples.passengers])
    = Normal charts
    /\ map c_type charts
       = (optional overview "overview"
          ++ optional survival "survival_analysis"
          ++ optional age "age_analysis"
          ++ optional class "class_analysis"
          ++ optional gender "gender_analysis"
          ++ optional (has_column "Fare" Samples.passengers) "fare_analysis"
          ++ optional (has_column "Embarked" Samples.passengers)
                      "embarkation_analysis"
          ++ optional family "family_analysis"
          ++ repeat "histogram" histograms
          ++ repeat "categorical" categoricals
          ++ optional
               (3 <=? List.length (select_dtypes is_number Samples.passengers))%nat
               "correlation")%list
    /\ (overview = true <->
        exists score, _calculate_health_score Samples.passengers = Normal score)
    /\ (survival = true ->
        has_column "Survived" Samples.passengers
        && has_column "Pclass" Samples.passengers = true)
    /\ (age = true -> has_column "Age" Samples.passengers = true)
    /\ (class = true -> has_column "Pclass" Samples.passengers = true)
    /\ (gender = true -> has_column "Sex" Samples.passengers = true)
    /\ (family = true ->
        has_column "SibSp" Samples.passengers
        && has_column "Parch" Samples.passengers = true)
    /\ (histograms
        <= List.length (select_dtypes is_number Samples.passengers))%nat
    /\ (categoricals
        <= List.length (select_dtypes is_object Samples.passengers))%nat.
Proof.
  apply (catalogue_in_order Samples.keep_all [Samples.passengers] 0%nat
           Samples.passengers).
  reflexivity.
Defined.

Example passengers_catalogue_types :
  match fst (_generate_premium_charts Samples.keep_all 0%nat [Samples.passengers]) with
  | Normal charts => map c_type charts
  | Raise _ => []
  end
  = [ "overview"; "survival_analysis"; "age_analysis"; "class_analysis";
      "gender_analysis"; "fare_analysis"; "family_analysis"; "histogram";
      "histogram"; "correlation" ].
Proof. vm_compute. reflexivity. Qed.

(* ================================================================= *)
(** ** Dashboards of the catalogue *)

Lemma find_set_series name s l :
  s_name s = name ->
  find (fun c => String.eqb name (s_name c)) (set_series name s l) = Some s.
Proof.
  intros N. induction l as [|c l IH]; simpl.
  - now rewrite N, String.eqb_refl.
  - destruct (String.eqb name (s_name c)) eqn:E; simpl.
    + now rewrite N, String.eqb_refl.
    + now rewrite E.
Qed.

(** [df[name] = values; df[name]] *)
Lemma getitem_with_column d name dt values :
  getitem (with_column d name dt values) name = Normal (mkSeries name dt values).
Proof.
  unfold getitem, with_column. cbn [series].
  now rewrite find_set_series.
Qed.

Lemma in_dropna s v : In v (dropna s) <-> In (Some v) (s_values s).
Proof.
  unfold dropna. rewrite in_flat_map. split.
  - intros [[w|] [I H]]; simpl in H; [|tauto].
    destruct H as [<- | []]. exact I.
  - intros I. exists (Some v). split; [exact I | now left].
Qed.

Lemma small_integer_bounds q :
  small_integer (SNum q) = true ->
  - (1000000000000000) <= q /\ q <= 1000000000000000.
Proof.
  unfold small_integer. intros H. apply andb_prop in H. destruct H as [E B].
  apply Qeq_bool_iff in E. apply Z.leb_le in B.
  assert (L : (- 10 ^ 15 <= Qfloor q)%Z) by lia.
  assert (U : (Qfloor q <= 10 ^ 15)%Z) by lia.
  rewrite Zle_Qle in L, U. rewrite <- E in L, U.
  change (inject_Z (- 10 ^ 15)) with (- (1000000000000000))%Q in L.
  change (inject_Z (10 ^ 15)) with 1000000000000000%Q in U.
  now split.
Qed.

Lemma int64_sum_fits q :
  - (3000000000000000) <= q -> q <= 3000000000000000 -> int64_sum q = q.
Proof.
  intros L U. unfold int64_sum.
  assert (A : Qle_bool (- 9223372036854775808) q = true)
    by (apply Qle_bool_iff; lra).
  assert (B : Qle_bool 9223372036854775808 q = false).
  { destruct (Qle_bool 9223372036854775808 q) eqn:E; [|reflexivity].
    apply Qle_bool_iff in E. lra. }
  now rewrite A, B.
Qed.

(** The sum of two small integers and one is the same number on
    columns of every dtype. *)
Lemma add_small int64 a b :
  small_integer (SNum a) = true -> small_integer (SNum b) = true ->
  add int64 (add int64 a b) 1 = (a + b + 1)%Q.
Proof.
  intros Ha Hb. apply small_integer_bounds in Ha, Hb.
  destruct int64; [|reflexivity]. unfold add.
  rewrite (int64_sum_fits (a + b)) by lra.
  apply int64_sum_fits; lra.
Qed.

(** The family sizes of columns of small integers: the sum where both
    cells hold a number, a null elsewhere. *)
Lemma family_size_of_numbers int64 (l : list (cell * cell)) :
  (forall a b, In (a, b) l ->
     (forall v, a = Some v -> small_integer v = true)
     /\ (forall v, b = Some v -> small_integer v = true)) ->
  let sizes :=
    map (fun ab => match ab with
                   | (Some (SNum a), Some (SNum b)) => Some (SNum (a + b + 1)%Q)
                   | _ => None
                   end) l in
  family_size int64 l = Normal sizes
  /\ Forall (fun v => is_num v = true) (drop_nulls sizes)
  /\ List.length (drop_nulls sizes)
     = List.length (filter (fun ab => notna (fst ab) && notna (snd ab)) l).
Proof.
  cbv zeta. induction l as [|[a b] l IH]; intros H.
  - repeat split. constructor.
  - destruct IH as [E [F C]].
    { intros a' b' I. apply H. now right. }
    destruct (H a b (or_introl eq_refl)) as [Ha Hb].
    destruct a as [[p|s]|]; [| specialize (Ha _ eq_refl); discriminate |].
    + destruct b as [[q|t]|]; [| specialize (Hb _ eq_refl); discriminate |].
      * cbn [family_size map]. rewrite E. cbn [bind].
        rewrite (add_small int64 p q (Ha _ eq_refl) (Hb _ eq_refl)).
        repeat split.
        -- simpl. now constructor.
        -- simpl. now rewrite C.
      * cbn [family_size map]. rewrite E. cbn [bind].
        repeat split; simpl; [exact F | exact C].
    + split.
      { cbn [family_size map]. destruct b as [[q|t]|]; now rewrite E. }
      split; simpl; [exact F | exact C].
Qed.

(** X23. The family chart counts the passengers by family size: on a
    table whose columns [SibSp] and [Parch] hold whole numbers of at
    most fifteen digits, the chart is built, its bars are the frequency
    table of [SibSp + Parch + 1] over the rows in which both cells are
    known, in strictly ascending order of the family size, and the
    heights add up to the number of these rows. *)
Theorem family_chart_counts_family_sizes
    (h : heap) (df : ref) (d : DataFrame) (sibsp parch : Series) :
  nth_error h df = Some d ->
  getitem d "SibSp" = Normal sibsp ->
  getitem d "Parch" = Normal parch ->
  Forall (fun v => small_integer v = true) (dropna sibsp) ->
  Forall (fun v => small_integer v = true) (dropna parch) ->
  let sizes :=
    map (fun ab => match ab with
                   | (Some (SNum a), Some (SNum b)) => Some (SNum (a + b + 1)%Q)
                   | _ => None
                   end)
        (combine (s_values sibsp) (s_values parch)) in
  exists counts,
    fst (_create_family_analysis_chart df h)
    = Normal (Some
        (mkEntry "family_analysis" "👨‍👩‍👧‍👦 Family Analysis"
           [Bar (map (fun e => LVal (fst e)) counts) (map snd counts)]
           (generate_chart_insights d "family_analysis")))
    /\ Sorted label_lt counts
    /\ (forall e, In e counts ->
          In (Some (fst e)) sizes
          /\ snd e = count_eq (mkSeries "FamilySize" Float64 sizes) (fst e)
          /\ (0 < snd e)%Z)
    /\ (forall v, In (Some v) sizes ->
          exists e, In e counts /\ scalar_eqb v (fst e) = true)
    /\ zsum (map snd counts)
       = Z.of_nat (List.length
           (filter (fun ab => notna (fst ab) && notna (snd ab))
                   (combine (s_values sibsp) (s_values parch)))).
Proof.
  intros Hd Gs Gp Ns Np sizes.
  destruct (family_size_of_numbers
              (is_int64 (s_dtype sibsp) && is_int64 (s_dtype parch))
              (combine (s_values sibsp) (s_values parch)))
    as [E [F C]].
  { intros a b I. split; intros v ->.
    - rewrite Forall_forall in Ns. apply Ns, in_dropna.
      now apply in_combine_l in I.
    - rewrite Forall_forall in Np. apply Np, in_dropna.
      now apply in_combine_r in I. }
  fold sizes in E, F, C.
  destruct (sorted_counts_table (mkSeries "FamilySize" Float64 sizes))
    as [counts [S [So [En [Va Zs]]]]]; [left; exact F|].
  exists counts. split; [|split; [exact So|]].
  - unfold _create_family_analysis_chart, df_copy.
    unfold try_M, mbind, deref, alloc, lift, df_setitem, ret. cbv beta zeta.
    rewrite Hd. cbn [fst snd]. rewrite nth_error_last. rewrite Gs, Gp, E.
    rewrite nth_error_last, replace_nth_last, nth_error_last.
    rewrite getitem_with_column, S.
    rewrite (lookup_before_last h _ df d Hd). reflexivity.
  - split; [exact En|]. split; [exact Va|].
    rewrite Zs. unfold count_notna. cbn [s_values].
    rewrite <- C. f_equal.
    change (drop_nulls sizes) with (dropna (mkSeries "FamilySize" Float64 sizes)).
    now rewrite <- (length_map Some (dropna _)), dropna_notna.
Qed.

Lemma family_chart_counts_family_sizes_witness :
  let sizes := [Samples.num 2; Samples.num 2; Samples.num 1; Samples.num 3] in
  exists counts,
    fst (_create_family_analysis_chart 0%nat [Samples.passengers])
    = Normal (Some
        (mkEntry "family_analysis" "👨‍👩‍👧‍👦 Family Analysis"
           [Bar (map (fun e => LVal (fst e)) counts) (map snd counts)]
           (generate_chart_insights Samples.passengers "family_analysis")))
    /\ Sorted label_lt counts
    /\ (forall e, In e counts ->
          In (Some (fst e)) sizes
          /\ snd e = count_eq (mkSeries "FamilySize" Float64 sizes) (fst e)
          /\ (0 < snd e)%Z)
    /\ (forall v, In (Some v) sizes ->
          exists e, In e counts /\ scalar_eqb v (fst e) = true)
    /\ zsum (map snd counts) = 4%Z.
Proof.
  apply (family_chart_counts_family_sizes [Samples.passengers] 0%nat
           Samples.passengers
           (mkSeries "SibSp" Int64
              [Samples.num 1; Samples.num 1; Samples.num 0; Samples.num 0])
           (mkSeries "Parch" Int64
              [Samples.num 0; Samples.num 0; Samples.num 0; Samples.num 2])).
  - reflexivity.
  - reflexivity.
  - reflexivity.
  - repeat constructor.
  - repeat constructor.
Defined.

(** Numbers that do not fit into 64 bits: the largest [int64] and one
    more sibling wrap around to the smallest. *)
Example family_size_wraps :
  family_size true
    [(Samples.num 9223372036854775807, Samples.num 0)]
  = Normal [Samples.num (-9223372036854775808)].
Proof. vm_compute. reflexivity. Qed.

Example passengers_family_chart :
  match fst (_create_family_analysis_chart 0%nat [Samples.passengers]) with
  | Normal (Some c) => c_data c
  | _ => []
  end
  = [Bar [LVal (SNum 1); LVal (SNum 2); LVal (SNum 3)] [1; 2; 1]%Z].
Proof. vm_compute. reflexivity. Qed.

(* ----------------------------------------------------------------- *)
(** *** The dashboards and the charts of the chat *)

Lemma age_dashboard_histogram h df d c :
  nth_error h df = Some d ->
  fst (_create_age_distribution_chart df h) = Normal (Some c) ->
  exists age,
    getitem d "Age" = Normal age
    /\ hd_error (c_data c) = Some (Histogram (dropna age) 30).
Proof.
  intros Hd. unfold _create_age_distribution_chart, df_copy.
  unfold try_M, mbind, deref, alloc, lift, df_setitem, ret. cbv beta zeta.
  rewrite Hd. cbn [fst snd].
  destruct (getitem d "Age") as [age|] eqn:Hage; cbn [fst snd];
    [|discriminate].
  rewrite Hd. cbn [fst snd]. rewrite nth_error_last. cbn [fst snd].
  rewrite Hage.
  destruct (pd_cut (s_values age)) as [groups|]; cbn [fst snd]; [|discriminate].
  rewrite nth_error_last, replace_nth_last. cbn [fst snd].
  rewrite (lookup_before_last h _ df d Hd). cbn [fst snd].
  destruct (has_column "Sex" d); cbn [fst snd].
  - destruct (getitem d "Sex"); cbn [fst snd]; [|discriminate].
    destruct (gender_traces _ _); cbn [fst snd]; [|discriminate].
    intros H. injection H as <-. now exists age.
  - intros H. injection H as <-. now exists age.
Qed.

(** X24. The dashboards of the first analysis and the direct charts of
    the chat show the same data: whenever a dashboard is built, its
    survival pie, its gender pie, its class counts and its age histogram
    are the traces of the chart that the chat returns for the
    corresponding request on the same table. *)
Theorem dashboards_agree_with_chat_charts
    (h : heap) (df : ref) (d : DataFrame) :
  nth_error h df = Some d ->
  (forall c, _create_survival_analysis_chart d = Some c ->
     exists pie,
       In pie (c_data c)
       /\ _create_survival_chart_direct d
          = Normal (ChartPayload
              (mkChart [pie] "Passenger Survival Distribution" None None)))
  /\ (forall c, _create_gender_analysis_chart d = Some c ->
        exists pie,
          hd_error (c_data c) = Some pie
          /\ _create_gender_chart_direct d
             = Normal (ChartPayload (mkChart [pie] "Gender Distribution" None None)))
  /\ (forall c, _create_class_analysis_chart d = Some c ->
        exists counts,
          c_data c = [Pie (map (fun e => class_label (fst e)) counts)
                          (map snd counts)]
          /\ _create_class_chart_direct d
             = Normal (ChartPayload
                 (mkChart
                    [Bar (map (fun e => class_label (fst e)) counts)
                         (map snd counts)]
                    "Passenger Class Distribution"
                    (Some "Passenger Class") (Some "Count"))))
  /\ (forall c, fst (_create_age_distribution_chart df h) = Normal (Some c) ->
        exists histogram,
          hd_error (c_data c) = Some histogram
          /\ _create_age_chart_direct d
             = Normal (ChartPayload
                 (mkChart [histogram] "Age Distribution"
                          (Some "Age (years)") (Some "Count")))).
Proof.
  intros Hd. split; [|split; [|split]].
  - intros c H. apply or_none_some in H.
    destruct (getitem d "Pclass") as [pclass|] eqn:Gp; [|discriminate].
    cbn [bind] in H.
    destruct (getitem d "Survived") as [surv|] eqn:Gs; [|discriminate].
    cbn [bind] in H. cbv zeta in H.
    destruct (group_mean_pct pclass surv); [|discriminate].
    cbn [bind] in H. injection H as <-.
    exists (Pie [LVal (SStr "Did not survive"); LVal (SStr "Survived")]
                [get (value_counts surv) (SNum 0);
                 get (value_counts surv) (SNum 1)]).
    split.
    + simpl. right. right. apply in_or_app. right. now left.
    + unfold _create_survival_chart_direct.
      assert (Hc : has_column "Survived" d = true)
        by (apply has_column_getitem; now exists surv).
      rewrite Hc, Gs. reflexivity.
  - intros c H. apply or_none_some in H.
    destruct (getitem d "Sex") as [sex|] eqn:G; [|discriminate].
    cbn [bind] in H. cbv zeta in H.
    repeat match type of H with
           | bind ?m _ = _ => destruct m; [|discriminate]; cbn [bind] in H
           end.
    injection H as <-. cbn [c_data hd_error]. eexists. split; [reflexivity|].
    unfold _create_gender_chart_direct.
    assert (Hc : has_column "Sex" d = true)
      by (apply has_column_getitem; now exists sex).
    rewrite Hc, G. reflexivity.
  - intros c H. apply or_none_some in H.
    destruct (getitem d "Pclass") as [pclass|] eqn:G; [|discriminate].
    cbn [bind] in H.
    destruct (sort_index (value_counts pclass)) as [counts|] eqn:S;
      [|discriminate].
    cbn [bind] in H. injection H as <-. cbn [c_data].
    exists counts. split; [reflexivity|].
    unfold _create_class_chart_direct.
    assert (Hc : has_column "Pclass" d = true)
      by (apply has_column_getitem; now exists pclass).
    rewrite Hc, G. cbn [negb bind]. rewrite S. reflexivity.
  - intros c H.
    destruct (age_dashboard_histogram h df d c Hd H) as [age [G Hh]].
    exists (Histogram (dropna age) 30). split; [exact Hh|].
    unfold _create_age_chart_direct.
    assert (Hc : has_column "Age" d = true)
      by (apply has_column_getitem; now exists age).
    rewrite Hc, G. reflexivity.
Qed.

Lemma dashboards_agree_with_chat_charts_witness :
  (forall c, _create_survival_analysis_chart Samples.passengers = Some c ->
     exists pie,
       In pie (c_data c)
       /\ _create_survival_chart_direct Samples.passengers
          = Normal (ChartPayload
              (mkChart [pie] "Passenger Survival Distribution" None None)))
  /\ (forall c, _create_gender_analysis_chart Samples.passengers = Some c ->
        exists pie,
          hd_error (c_data c) = Some pie
          /\ _create_gender_chart_direct Samples.passengers
             = Normal (ChartPayload (mkChart [pie] "Gender Distribution" None None)))
  /\ (forall c, _create_class_analysis_chart Samples.passengers = Some c ->
        exists counts,
          c_data c = [Pie (map (fun e => class_label (fst e)) counts)
                          (map snd counts)]
          /\ _create_class_chart_direct Samples.passengers
             = Normal (ChartPayload
                 (mkChart
                    [Bar (map (fun e => class_label (fst e)) counts)
                         (map snd counts)]
                    "Passenger Class Distribution"
                    (Some "Passenger Class") (Some "Count"))))
  /\ (forall c,
        fst (_create_age_distribution_chart 0%nat [Samples.passengers])
        = Normal (Some c) ->
        exists histogram,
          hd_error (c_data c) = Some histogram
          /\ _create_age_chart_direct Samples.passengers
             = Normal (ChartPayload
                 (mkChart [histogram] "Age Distribution"
                          (Some "Age (years)") (Some "Count")))).
Proof.
  apply (dashboards_agree_with_chat_charts [Samples.passengers] 0%nat
           Samples.passengers).
  reflexivity.
Defined.

(* ================================================================= *)
(** ** The shape of a distribution *)

(** X25. The description of a distribution on small samples. A numeric
    column with a single known value, or with none, is described as
    "Left-skewed": its standard deviation is NaN, so is the skewness,
    and both comparisons of the description fail. *)
Theorem description_of_small_samples (sqrt : Q -> Q) (x : Q) :
  (std sqrt [x] = NaN
   /\ _calculate_skewness sqrt [x] = NaN
   /\ _describe_distribution sqrt [x] = "Left-skewed")
  /\ (std sqrt [] = NaN
      /\ _calculate_skewness sqrt [] = NaN
      /\ _describe_distribution sqrt [] = "Left-skewed").
Proof. repeat split. Qed.

(* ================================================================= *)
(** ** The analysis as a whole *)

(** What an analysis returns, part by part. *)
Lemma analysis_parts df_sample key_statistics h df d a :
  nth_error h df = Some d ->
  fst (analyze_dataframe df_sample key_statistics df h) = Normal a ->
  _generate_summary key_statistics d = Normal (summary a)
  /\ _get_dataframe_info d = Normal (df_info a)
  /\ exists rest,
       charts a = (when true (_create_data_overview_chart df_sample d) ++ rest)%list.
Proof.
  intros Hd Ha.
  assert (K : keeps h (analyze_dataframe df_sample key_statistics df)
                (fun a =>
                   _generate_summary key_statistics d = Normal (summary a)
                   /\ _get_dataframe_info d = Normal (df_info a)
                   /\ exists rest,
                        charts a
                        = (when true (_create_data_overview_chart df_sample d)
                           ++ rest)%list)).
  { unfold analyze_dataframe.
    eapply keeps_bind; [apply runs_keeps, (runs_deref h df d Hd)|].
    intros d0 E; cbv beta in E; subst d0.
    eapply keeps_bind; [apply keeps_lift|]. intros s Hs. cbv beta in Hs.
    eapply keeps_bind;
      [apply runs_keeps, (catalogue_parts df_sample h df d Hd)|].
    intros cs [age [family [_ [_ Hcs]]]].
    eapply keeps_bind; [apply runs_keeps, (runs_deref h df d Hd)|].
    intros d0 E; cbv beta in E; subst d0.
    eapply keeps_bind; [apply keeps_lift|]. intros i Hi. cbv beta in Hi.
    apply keeps_ret. cbn [summary df_info charts].
    split; [exact Hs|]. split; [exact Hi|]. rewrite Hcs. eauto. }
  destruct (K h (extends_refl h)) as [_ Q]. now apply Q.
Qed.

(** The fourth line of the summary. *)
Lemma summary_shows_score key_statistics d s score :
  _calculate_health_score d = Normal score ->
  _generate_summary key_statistics d = Normal s ->
  exists before after,
    s = (before
         ++ [Lit "### 📈 Data Health Score: "; Int score; Lit "/100"]
         ++ Lit nl :: after)%list
    /\ List.length (filter (fun p => match p with
                                     | Lit t => String.eqb t nl
                                     | _ => false
                                     end) before) = 3%nat.
Proof.
  intros Z Hs. unfold _generate_summary in Hs.
  destruct (shape d) as [rows cols].
  rewrite Z in Hs. cbn [bind] in Hs.
  match type of Hs with
  | bind ?m _ = _ => destruct m as [statistics|e]; [|discriminate]
  end.
  cbn [bind] in Hs. injection Hs as Hs.
  exists [ Lit "## 📊 Dataset Overview"; Lit nl;
           Lit "Your dataset contains **"; Num "," (ZF rows);
           Lit "** rows and **"; Int cols; Lit "** columns with **";
           Num ".1f" (summary_completeness d); Lit "%** data completeness.";
           Lit nl; Lit ""; Lit nl ].
  eexists. split; [|reflexivity].
  rewrite <- Hs. cbn [app tjoin]. reflexivity.
Qed.

(** X26. An analysis shows one health score: the score of the table
    information, the value of the indicator that closes the overview
    dashboard, which is the first chart of the catalogue, and the score
    in the fourth line of the summary are the same number, the health
    score of the table. *)
Theorem analysis_shows_one_health_score
    (df_sample : nat -> DataFrame -> DataFrame)
    (key_statistics : list scalar -> outcome (list text))
    (h : heap) (df : ref) (d : DataFrame) (a : analysis) :
  nth_error h df = Some d ->
  fst (analyze_dataframe df_sample key_statistics df h) = Normal a ->
  exists score overview rest before after,
    _calculate_health_score d = Normal score
    /\ data_health_score (df_info a) = score
    /\ charts a = overview :: rest
    /\ c_type overview = "overview"
    /\ last (c_data overview) (Sketch "") = Indicator score
    /\ summary a
       = (before
          ++ [Lit "### 📈 Data Health Score: "; Int score; Lit "/100"]
          ++ Lit nl :: after)%list
    /\ List.length (filter (fun p => match p with
                                     | Lit t => String.eqb t nl
                                     | _ => false
                                     end) before) = 3%nat.
Proof.
  intros Hd Ha.
  destruct (analysis_parts df_sample key_statistics h df d a Hd Ha)
    as [Hs [Hi [rest Hc]]].
  unfold _get_dataframe_info in Hi.
  destruct (_calculate_health_score d) as [score|e] eqn:Z; [|discriminate].
  cbn [bind] in Hi. injection Hi as Hi.
  assert (O : exists overview,
            _create_data_overview_chart df_sample d = Some overview
            /\ c_type overview = "overview"
            /\ last (c_data overview) (Sketch "") = Indicator score).
  { unfold _create_data_overview_chart, or_none. cbv zeta. rewrite Z.
    cbn [bind try_except]. eexists. split; [reflexivity|].
    split; [reflexivity|]. cbn [c_data].
    destruct (_ >? _)%Z; reflexivity. }
  destruct O as [overview [O [T L]]]. rewrite O in Hc. cbn [when app] in Hc.
  destruct (summary_shows_score key_statistics d (summary a) score Z Hs)
    as [before [after [Sa Sb]]].
  exists score, overview, rest, before, after.
  split; [reflexivity|]. split; [now rewrite <- Hi|]. now repeat split.
Qed.

Lemma analysis_shows_one_health_score_witness :
  exists a score overview rest before after,
    fst (analyze_dataframe Samples.keep_all Samples.no_statistics 0%nat
           [Samples.age_fare]) = Normal a
    /\ _calculate_health_score Samples.age_fare = Normal score
    /\ data_health_score (df_info a) = score
    /\ charts a = overview :: rest
    /\ c_type overview = "overview"
    /\ last (c_data overview) (Sketch "") = Indicator score
    /\ summary a
       = (before
          ++ [Lit "### 📈 Data Health Score: "; Int score; Lit "/100"]
          ++ Lit nl :: after)%list
    /\ List.length (filter (fun p => match p with
                                     | Lit t => String.eqb t nl
                                     | _ => false
                                     end) before) = 3%nat.
Proof.
  eexists.
  refine ((fun H =>
     match analysis_shows_one_health_score Samples.keep_all
             Samples.no_statistics [Samples.age_fare] 0%nat
             Samples.age_fare _ eq_refl H with
     | ex_intro _ s (ex_intro _ o (ex_intro _ r (ex_intro _ b (ex_intro _ f R)))) =>
         ex_intro _ s (ex_intro _ o (ex_intro _ r (ex_intro _ b
           (ex_intro _ f (conj H R)))))
     end) _).
  vm_compute. reflexivity.
Defined.

